(** * A shallow embedding of the dual-momentum rotation backtester (main.py)

    The development follows [main.py] function by function:
    [get_closest_date], [calculate_momentum_scores] and [simulate_trading].

    Modelling conventions.
    - A pandas [Timestamp] is a calendar day (the price index and the
      schedule are all at midnight once the time zone is dropped).
    - Prices, cash and share counts are exact rationals ([Q]) where the
      program computes with binary64 numbers; rounding is not modelled
      there.  A price-table cell is [option Q], [None] standing for NaN.
    - The purchase (lines 97-100) is given a second time in binary64, over
      the kernel's primitive floats: how many shares are bought and the sign
      of the cash left depend on how the products are rounded, and there
      the program and the rational embedding part.
    - Python exceptions are the [Raise] results of the [result] monad.  Where
      numpy would leave the finite numbers (a division by zero, a NaN entering
      the cash) the embedding stops with [NonFinite].
    - The market-data download ([get_stock_data]), the chart and the
      spreadsheet export are outside the embedding: the price table is an
      argument. *)

From Stdlib Require Import Floats.
From Stdlib Require Import Reals.
From Stdlib Require Import ZArith QArith Qround Qreals.
From Stdlib Require Import List String Bool.
From Stdlib Require Import Lia Lra Lqa.
Import ListNotations.

Open Scope Q_scope.
Open Scope string_scope.
Open Scope list_scope.

(* ================================================================== *)
(** * Exceptions and results *)

Inductive Exn : Type :=
| KeyError     (* a missing dict key, column or index label *)
| ValueError   (* max() of an empty sequence *)
| IndexError   (* [-1] of an empty list *)
| NonFinite.   (* numpy arithmetic produced inf or nan *)

Inductive result (A : Type) : Type :=
| OK (a : A)
| Raise (e : Exn).

Arguments OK {A} a.
Arguments Raise {A} e.

Definition bind {A B : Type} (r : result A) (k : A -> result B) : result B :=
  match r with
  | OK a => k a
  | Raise e => Raise e
  end.

Notation "x <- e ;; k" := (bind e (fun x => k))
  (at level 61, e at next level, right associativity).
Notation "' p <- e ;; k" := (bind e (fun p => k))
  (at level 61, p pattern, e at next level, right associativity).

(* ================================================================== *)
(** * Timestamps *)

Record Timestamp : Type := mkDate { year : Z; month : Z; day : Z }.

Definition date_eqb (a b : Timestamp) : bool :=
  (year a =? year b)%Z && (month a =? month b)%Z && (day a =? day b)%Z.

Definition date_ltb (a b : Timestamp) : bool :=
  (year a <? year b)%Z
  || ((year a =? year b)%Z
      && ((month a <? month b)%Z
          || ((month a =? month b)%Z && (day a <? day b)%Z))).

Definition date_leb (a b : Timestamp) : bool := date_ltb a b || date_eqb a b.

Definition is_leap (y : Z) : bool :=
  ((y mod 4 =? 0) && negb (y mod 100 =? 0) || (y mod 400 =? 0))%Z.

Definition days_in_month (y m : Z) : Z :=
  if (m =? 2)%Z then (if is_leap y then 29 else 28)%Z
  else if ((m =? 4) || (m =? 6) || (m =? 9) || (m =? 11))%Z then 30%Z
  else 31%Z.

(** [date + pd.DateOffset(months=k)]: the month moves by [k], the day is
    clipped to the length of the month reached. *)
Definition add_months (d : Timestamp) (k : Z) : Timestamp :=
  let idx := (year d * 12 + (month d - 1) + k)%Z in
  let y := (idx / 12)%Z in
  let m := (idx mod 12 + 1)%Z in
  mkDate y m (Z.min (day d) (days_in_month y m)).

(** [date - pd.DateOffset(months=k)]. *)
Definition sub_months (d : Timestamp) (k : Z) : Timestamp := add_months d (- k).

(* ================================================================== *)
(** * The price table *)

Definition Ticker : Type := string.

(** A cell of the table: [None] is NaN. *)
Definition Cell : Type := option Q.

(** The [DataFrame] built by [get_stock_data]: one column per ticker, one
    row per date of the index. *)
Record DataFrame : Type := mkFrame {
  columns : list Ticker;
  index : list Timestamp;
  cell : Timestamp -> Ticker -> Cell
}.

Definition In_dates (d : Timestamp) (l : list Timestamp) : bool :=
  existsb (date_eqb d) l.

Definition In_tickers (t : Ticker) (l : list Ticker) : bool :=
  existsb (String.eqb t) l.

(** [data[ticker].dropna().index]: the dates at which [ticker] has a price. *)
Definition dropna_index (data : DataFrame) (ticker : Ticker) : list Timestamp :=
  filter (fun d => match cell data d ticker with Some _ => true | None => false end)
         (index data).

(** [dates.asof(label)] on an increasing index: the last label not after
    [label], or NaT ([None]) when every label is later. *)
Fixpoint asof (dates : list Timestamp) (label : Timestamp) : option Timestamp :=
  match dates with
  | [] => None
  | d :: rest =>
      if date_leb d label then
        match asof rest label with
        | Some r => Some r
        | None => Some d
        end
      else None
  end.

(** [get_closest_date(data, ticker, date)]; the value is [None] for NaT. *)
Definition get_closest_date (data : DataFrame) (ticker : Ticker) (date : Timestamp)
  : result (option Timestamp) :=
  if In_tickers ticker (columns data) then
    let dates := dropna_index data ticker in
    if negb (In_dates date dates) then
      let closest_date := asof dates date in
      OK closest_date
    else OK (Some date)
  else Raise KeyError.

(** [data.loc[label, ticker]]: NaT is not a label of the index. *)
Definition loc (data : DataFrame) (label : option Timestamp) (ticker : Ticker)
  : result Cell :=
  match label with
  | None => Raise KeyError
  | Some d =>
      if In_dates d (index data) && In_tickers ticker (columns data)
      then OK (cell data d ticker)
      else Raise KeyError
  end.

(** The index is strictly increasing (what [asof] expects of it). *)
Fixpoint strictly_increasing (l : list Timestamp) : bool :=
  match l with
  | [] => true
  | d :: rest =>
      match rest with
      | [] => true
      | e :: _ => date_ltb d e && strictly_increasing rest
      end
  end.

(** [ticker] has an observation at [d]. *)
Definition observed (data : DataFrame) (ticker : Ticker) (d : Timestamp) : Prop :=
  In d (index data) /\ exists p, cell data d ticker = Some p.

(* ================================================================== *)
(** * Momentum scores *)

(** A score is a number or [-np.inf]. *)
Inductive Score : Type :=
| NegInf
| Fin (q : Q).

Definition Qlt_bool (a b : Q) : bool := negb (Qle_bool b a).

(** [a < b] on scores. *)
Definition score_ltb (a b : Score) : bool :=
  match a, b with
  | _, NegInf => false
  | NegInf, Fin _ => true
  | Fin x, Fin y => Qlt_bool x y
  end.

(** [a <= b] on scores. *)
Definition score_leb (a b : Score) : bool := negb (score_ltb b a).

(** [score <= 0]. *)
Definition score_nonpos (s : Score) : bool :=
  match s with
  | NegInf => true
  | Fin q => Qle_bool q 0
  end.

(** Python dicts keyed by ticker, in insertion order. *)
Definition Dict (V : Type) : Type := list (Ticker * V).

Fixpoint dict_get {V : Type} (d : Dict V) (k : Ticker) : option V :=
  match d with
  | [] => None
  | (k', v) :: rest => if String.eqb k k' then Some v else dict_get rest k
  end.

(** [d[k] = v]: in place when [k] is a key, appended otherwise. *)
Fixpoint dict_set {V : Type} (d : Dict V) (k : Ticker) (v : V) : Dict V :=
  match d with
  | [] => [(k, v)]
  | (k', v') :: rest =>
      if String.eqb k k' then (k', v) :: rest else (k', v') :: dict_set rest k v
  end.

(** [d[k]] *)
Definition getitem {V : Type} (d : Dict V) (k : Ticker) : result V :=
  match dict_get d k with
  | Some v => OK v
  | None => Raise KeyError
  end.

(** [d.get(k, default)] *)
Definition get_default {V : Type} (d : Dict V) (k : Ticker) (default : V) : V :=
  match dict_get d k with
  | Some v => v
  | None => default
  end.

Definition keys {V : Type} (d : Dict V) : list Ticker := map fst d.

(** The weighted sum of lines 48-51. *)
Definition momentum (price_now price_1m price_3m price_6m price_12m : Q) : Q :=
  (price_now / price_1m - 1) * 12 +
  (price_now / price_3m - 1) * 4 +
  (price_now / price_6m - 1) * 2 +
  (price_now / price_12m - 1) * 1.

Definition is_zero (q : Q) : bool := Qeq_bool q 0.

(** The body of the loop of [calculate_momentum_scores] (lines 32-51).
    With a zero price 1, 3, 6 or 12 months back numpy divides by zero and
    the program goes on with an infinite or NaN score; the embedding has
    no such score and stops there with [NonFinite], so its successes are
    the program's successes on non-zero lookback prices. *)
Definition ticker_score (data : DataFrame) (ticker : Ticker) (date : Timestamp)
  : result Score :=
  closest_date_now <- get_closest_date data ticker date ;;
  closest_date_1m <- get_closest_date data ticker (sub_months date 1) ;;
  closest_date_3m <- get_closest_date data ticker (sub_months date 3) ;;
  closest_date_6m <- get_closest_date data ticker (sub_months date 6) ;;
  closest_date_12m <- get_closest_date data ticker (sub_months date 12) ;;
  price_now <- loc data closest_date_now ticker ;;
  price_1m <- loc data closest_date_1m ticker ;;
  price_3m <- loc data closest_date_3m ticker ;;
  price_6m <- loc data closest_date_6m ticker ;;
  price_12m <- loc data closest_date_12m ticker ;;
  match price_now, price_1m, price_3m, price_6m, price_12m with
  | Some p0, Some p1, Some p3, Some p6, Some p12 =>
      if is_zero p1 || is_zero p3 || is_zero p6 || is_zero p12
      then Raise NonFinite
      else OK (Fin (momentum p0 p1 p3 p6 p12))
  | _, _, _, _, _ => OK NegInf
  end.

Fixpoint scores_loop (data : DataFrame) (date : Timestamp) (cols : list Ticker)
  (momentum_scores : Dict Score) : result (Dict Score) :=
  match cols with
  | [] => OK momentum_scores
  | ticker :: rest =>
      score <- ticker_score data ticker date ;;
      scores_loop data date rest (dict_set momentum_scores ticker score)
  end.

Definition calculate_momentum_scores (data : DataFrame) (date : Timestamp)
  : result (Dict Score) :=
  scores_loop data date (columns data) [].

(* ================================================================== *)
(** * Asset selection (lines 74-82) *)

Definition attack_assets : list Ticker := ["SPY"; "EFA"; "EEM"; "AGG"; "QQQ"].
Definition safe_assets : list Ticker := ["LQD"; "IEF"; "SHY"].
Definition tickers : list Ticker := attack_assets ++ safe_assets.

(** Python's [max(l, key=key)]: the running maximum changes only for a
    strictly greater key. *)
Fixpoint max_from {A : Type} (key : A -> Score) (best : A) (l : list A) : A :=
  match l with
  | [] => best
  | x :: rest =>
      if score_ltb (key best) (key x) then max_from key x rest
      else max_from key best rest
  end.

Definition py_max {A : Type} (key : A -> Score) (l : list A) : result A :=
  match l with
  | [] => Raise ValueError
  | x :: rest => OK (max_from key x rest)
  end.

(** [all(momentum_scores[asset] <= 0 for asset in assets)], left to right,
    stopping at the first positive score. *)
Fixpoint all_nonpos (momentum_scores : Dict Score) (assets : list Ticker)
  : result bool :=
  match assets with
  | [] => OK true
  | asset :: rest =>
      s <- getitem momentum_scores asset ;;
      if score_nonpos s then all_nonpos momentum_scores rest else OK false
  end.

(** The two strategy labels of lines 79 and 82. *)
Inductive Strategy : Type :=
| SafeInvest      (* the safe-asset label *)
| AttackInvest.   (* the attack-asset label *)

(** Lines 74-82, for any two candidate lists. *)
Definition choose (attack safe : list Ticker) (momentum_scores : Dict Score)
  : result (Ticker * Strategy) :=
  best_attack_asset <- py_max (fun x => get_default momentum_scores x NegInf) attack ;;
  best_safe_asset <- py_max (fun x => get_default momentum_scores x NegInf) safe ;;
  defensive <- all_nonpos momentum_scores attack ;;
  if defensive then OK (best_safe_asset, SafeInvest)
  else OK (best_attack_asset, AttackInvest).

Definition choose_asset (momentum_scores : Dict Score) : result (Ticker * Strategy) :=
  choose attack_assets safe_assets momentum_scores.

(* ================================================================== *)
(** * The simulator's objects *)

(** Dict objects live in a store; a location is a position in it.  The
    variable [portfolio] holds one location for the whole run, and
    [portfolio.copy()] allocates a new one. *)
Definition Loc : Type := nat.
Definition Heap : Type := list (Dict Q).

Definition deref (h : Heap) (l : Loc) : Dict Q := nth l h [].

Fixpoint store (h : Heap) (l : Loc) (d : Dict Q) : Heap :=
  match h, l with
  | [], _ => []
  | _ :: rest, O => d :: rest
  | x :: rest, S l' => x :: store rest l' d
  end.

Definition alloc (h : Heap) (d : Dict Q) : Heap * Loc := (h ++ [d], List.length h).

(** One entry of [trade_history] (lines 105-113); ['portfolio'] is a
    reference to a dict object. *)
Record TradeRecord : Type := mkRecord {
  tr_date : Timestamp;
  tr_strategy : Strategy;
  tr_best_asset : Ticker;
  tr_cash : Q;
  tr_total_value : Q;
  tr_current_return : option Q;   (* [None]: not finite, [initial_cash] is 0 *)
  tr_portfolio : Loc
}.

(** The local state of [simulate_trading] inside its loop. *)
Record State : Type := mkState {
  cash : Q;
  heap : Heap;
  value_history : list Q;
  trade_history : list TradeRecord
}.

(** The location bound to the variable [portfolio] at line 64. *)
Definition portfolio : Loc := 0%nat.

(** [{ticker: 0 for ticker in tickers}] *)
Definition new_portfolio (l : list Ticker) : Dict Q :=
  fold_left (fun d ticker => dict_set d ticker 0) l [].

Definition initial_state (initial_cash : Q) : State :=
  mkState initial_cash [new_portfolio tickers] [] [].

(** The price read by [data.loc[get_closest_date(data, ticker, date), ticker]]
    when it enters the arithmetic. *)
Definition price_at (data : DataFrame) (ticker : Ticker) (date : Timestamp)
  : result Q :=
  closest_date <- get_closest_date data ticker date ;;
  unit_price <- loc data closest_date ticker ;;
  match unit_price with
  | Some p => OK p
  | None => Raise NonFinite
  end.

(* ------------------------------------------------------------------ *)
(** ** Selling (lines 85-91) *)

Fixpoint sell_loop (data : DataFrame) (sell_commission : Q) (date : Timestamp)
  (todo : list Ticker) (cash : Q) (pf : Dict Q) : result (Q * Dict Q) :=
  match todo with
  | [] => OK (cash, pf)
  | ticker :: rest =>
      held <- getitem pf ticker ;;
      if Qlt_bool 0 held then
        unit_price <- price_at data ticker date ;;
        let total_price := held * unit_price * (1 - sell_commission) in
        sell_loop data sell_commission date rest (cash + total_price)
                  (dict_set pf ticker 0)
      else sell_loop data sell_commission date rest cash pf
  end.

Definition sell (data : DataFrame) (sell_commission : Q) (date : Timestamp)
  (cash : Q) (pf : Dict Q) : result (Q * Dict Q) :=
  sell_loop data sell_commission date (keys pf) cash pf.

(* ------------------------------------------------------------------ *)
(** ** Buying (lines 94-100) *)

(** [cash // cost] over the rationals: the floor of the exact quotient.
    The program floors the quotient of two rounded numbers; see
    [Binary64.shares_to_buy] below for the same line in binary64. *)
Definition floordiv (cash cost : Q) : Q := inject_Z (Qfloor (cash / cost)).

(** Over the rationals.  A zero unit cost, where numpy divides by zero,
    stops the embedding with [NonFinite]. *)
Definition buy (data : DataFrame) (buy_commission : Q) (date : Timestamp)
  (best_asset : Ticker) (cash : Q) (pf : Dict Q) : result (Q * Dict Q) :=
  if String.eqb best_asset "" then OK (cash, pf)
  else
    unit_price <- price_at data best_asset date ;;
    if is_zero (unit_price * (1 + buy_commission)) then Raise NonFinite
    else
      let shares_to_buy := floordiv cash (unit_price * (1 + buy_commission)) in
      let total_price := shares_to_buy * unit_price * (1 + buy_commission) in
      held <- getitem pf best_asset ;;
      OK (cash - total_price, dict_set pf best_asset (held + shares_to_buy)).

(* ------------------------------------------------------------------ *)
(** ** Valuation (line 102) *)

(** [sum(portfolio[t] * price(t) for t in portfolio)], accumulated from the
    left. *)
Fixpoint holdings_value (data : DataFrame) (date : Timestamp) (pf : Dict Q)
  (todo : list Ticker) (acc : Q) : result Q :=
  match todo with
  | [] => OK acc
  | ticker :: rest =>
      held <- getitem pf ticker ;;
      unit_price <- price_at data ticker date ;;
      holdings_value data date pf rest (acc + held * unit_price)
  end.

Definition total_value_of (data : DataFrame) (date : Timestamp) (cash : Q)
  (pf : Dict Q) : result Q :=
  s <- holdings_value data date pf (keys pf) 0 ;;
  OK (cash + s).

(** [((total_value / initial_cash) - 1) * 100] *)
Definition current_return (total_value initial_cash : Q) : option Q :=
  if is_zero initial_cash then None
  else Some ((total_value / initial_cash - 1) * 100).

(* ------------------------------------------------------------------ *)
(** ** One pass of the loop (lines 72-113) *)

Definition step (data : DataFrame) (buy_commission sell_commission initial_cash : Q)
  (date : Timestamp) (st : State) : result State :=
  momentum_scores <- calculate_momentum_scores data date ;;
  '(best_asset, strategy) <- choose_asset momentum_scores ;;
  '(cash1, pf1) <- sell data sell_commission date (cash st) (deref (heap st) portfolio) ;;
  '(cash2, pf2) <- buy data buy_commission date best_asset cash1 pf1 ;;
  total_value <- total_value_of data date cash2 pf2 ;;
  let heap2 := store (heap st) portfolio pf2 in
  let '(heap3, snapshot) := alloc heap2 (deref heap2 portfolio) in
  OK (mkState cash2 heap3
        (value_history st ++ [total_value])
        (trade_history st ++
           [mkRecord date strategy best_asset cash2 total_value
                     (current_return total_value initial_cash) snapshot])).

Fixpoint run (data : DataFrame) (buy_commission sell_commission initial_cash : Q)
  (dates : list Timestamp) (st : State) : result State :=
  match dates with
  | [] => OK st
  | date :: rest =>
      st' <- step data buy_commission sell_commission initial_cash date st ;;
      run data buy_commission sell_commission initial_cash rest st'
  end.

(* ------------------------------------------------------------------ *)
(** ** The schedule and the final figures (lines 68, 118-119, 141) *)

Definition month_index (d : Timestamp) : Z := (year d * 12 + (month d - 1))%Z.

(** [pd.date_range(start, end, freq=pd.DateOffset(months=1))]: each date is
    the previous one plus a month, while it is not after [end]. *)
Fixpoint date_range_from (fuel : nat) (cur end_date : Timestamp) : list Timestamp :=
  match fuel with
  | O => []
  | S fuel' =>
      if date_leb cur end_date
      then cur :: date_range_from fuel' (add_months cur 1) end_date
      else []
  end.

Definition date_range (start end_date : Timestamp) : list Timestamp :=
  date_range_from (Z.to_nat (month_index end_date - month_index start + 1))
                  start end_date.

(** [value_history[-1]] *)
Definition last_value (l : list Q) : result Q :=
  match rev l with
  | [] => Raise IndexError
  | v :: _ => OK v
  end.

(** [((final_value / initial_cash) ** (1 / (n / 12)) - 1) * 100] over the
    reals.  A zero [initial_cash] or a negative ratio leaves the embedding
    ([NonFinite]); [n] is at least 1 when this line is reached. *)
Definition annual_return (final_value initial_cash : Q) (n : nat) : result R :=
  if is_zero initial_cash then Raise NonFinite
  else
    let ratio := final_value / initial_cash in
    let exponent := (1 / (INR n / 12))%R in
    if Qlt_bool ratio 0 then Raise NonFinite
    else if is_zero ratio then OK ((0 - 1) * 100)%R
    else OK ((Rpower (Q2R ratio) exponent - 1) * 100)%R.

(** [simulate_trading] from the table and the schedule on: the state after
    the loop, then the pair it returns. *)
Definition simulate (data : DataFrame) (dates : list Timestamp)
  (initial_cash buy_commission sell_commission : Q) : result State :=
  run data buy_commission sell_commission initial_cash dates
      (initial_state initial_cash).

Definition returned (st : State) (dates : list Timestamp) (initial_cash : Q)
  : result (Q * R) :=
  final_value <- last_value (value_history st) ;;
  annual <- annual_return final_value initial_cash (List.length dates) ;;
  OK (final_value, annual).

Definition simulate_trading (data : DataFrame) (start end_date : Timestamp)
  (initial_cash buy_commission sell_commission : Q) : result (Q * R) :=
  let dates := date_range start end_date in
  st <- simulate data dates initial_cash buy_commission sell_commission ;;
  returned st dates initial_cash.

(* ================================================================== *)
(** * The purchase in binary64 (lines 97-100)

    The program computes lines 97-100 in IEEE 754 binary64, rounding to
    nearest: [unit_price] is a [numpy.float64], so every operation of the
    four lines is numpy's.  [+], [-], [*] and [/] are the kernel's
    primitive operations.  [cash // x] is numpy's [npy_floor_divide], which
    is [npy_divmod] (the algorithm of CPython's [float_divmod]) over the C
    library's [fmod] and [floor]; these two are exact and are given here on
    the integer mantissa and the exponent of their arguments. *)

Set Warnings "-inexact-float".

Module Binary64.

(** A finite number as [m * 2^e]; [None] for an infinity or a NaN. *)
Definition parts (x : float) : option (Z * Z) :=
  match Prim2SF x with
  | S754_zero _ => Some (0, 0)%Z
  | S754_finite s m e => Some (if s then Z.neg m else Z.pos m, e)
  | _ => None
  end.

(** The binary64 number nearest to [m * 2^e]. *)
Definition of_parts (m e : Z) : float :=
  SF2Prim (binary_normalize prec emax m e false).

(** The rational a finite binary64 number stands for. *)
Definition to_Q (x : float) : option Q :=
  match parts x with
  | Some (m, e) => Some (inject_Z m * 2 ^ e)
  | None => None
  end.

Definition npy_copysign (x y : float) : float :=
  (if get_sign y then - abs x else abs x)%float.

(** [fmod(a, b)]: the remainder of the division truncated towards zero; it
    has the sign of [a] and is always representable. *)
Definition npy_fmod (a b : float) : float :=
  match parts a, parts b with
  | Some (ma, ea), Some (mb, eb) =>
      if (mb =? 0)%Z then nan
      else
        let e := Z.min ea eb in
        let r := Z.rem (ma * 2 ^ (ea - e)) (mb * 2 ^ (eb - e)) in
        if (r =? 0)%Z then npy_copysign 0 a else of_parts r e
  | Some _, None => if is_nan b then nan else a
  | None, _ => nan
  end.

(** [floor(x)] *)
Definition npy_floor (x : float) : float :=
  match parts x with
  | Some (m, e) =>
      if (0 <=? e)%Z then x
      else
        let z := (m / 2 ^ (- e))%Z in
        if (z =? 0)%Z then npy_copysign 0 x else of_parts z 0
  | None => x
  end.

(** [a // b]: the quotient that [npy_divmod] returns. *)
Definition npy_floor_divide (a b : float) : float :=
  (if b =? 0 then a / b
   else
     let modulus := npy_fmod a b in
     let div := (a - modulus) / b in
     let div := if negb (modulus =? 0) && xorb (b <? 0) (modulus <? 0)
                then div - 1 else div in
     if negb (div =? 0) then
       let floordiv := npy_floor div in
       if 0.5 <? div - floordiv then floordiv + 1 else floordiv
     else npy_copysign 0 (a / b))%float.

(** Line 97. *)
Definition shares_to_buy (cash unit_price buy_commission : float) : float :=
  npy_floor_divide cash (unit_price * (1 + buy_commission))%float.

(** Line 98. *)
Definition total_price (cash unit_price buy_commission : float) : float :=
  (shares_to_buy cash unit_price buy_commission
   * unit_price * (1 + buy_commission))%float.

(** Line 100: the cash after the purchase. *)
Definition cash_after (cash unit_price buy_commission : float) : float :=
  (cash - total_price cash unit_price buy_commission)%float.

End Binary64.

(* ================================================================== *)
(** * Predicates used in the statements *)

(** [best] is the first element of [l] with the greatest key: everything
    before it has a smaller key, nothing after it has a greater one. *)
Definition first_maximum {A : Type} (key : A -> Score) (l : list A) (best : A) : Prop :=
  exists before after,
    l = before ++ best :: after /\
    (forall x, In x before -> score_ltb (key x) (key best) = true) /\
    (forall x, In x after -> score_leb (key x) (key best) = true).

(** What the sale of [ticker] credits: quantity x price x (1 - commission)
    for a positive holding, nothing otherwise. *)
Definition credit (data : DataFrame) (sell_commission : Q) (date : Timestamp)
  (pf : Dict Q) (ticker : Ticker) : Q :=
  match dict_get pf ticker, price_at data ticker date with
  | Some held, OK unit_price =>
      if Qlt_bool 0 held then held * unit_price * (1 - sell_commission) else 0
  | _, _ => 0
  end.

(** The credits of the tickers of [l], added up. *)
Fixpoint proceeds (data : DataFrame) (sell_commission : Q) (date : Timestamp)
  (pf : Dict Q) (l : list Ticker) : Q :=
  match l with
  | [] => 0
  | ticker :: rest =>
      credit data sell_commission date pf ticker
      + proceeds data sell_commission date pf rest
  end.

(** Every price of the table is positive. *)
Definition positive_prices (data : DataFrame) : Prop :=
  forall d t p, In d (index data) -> cell data d t = Some p -> 0 < p.

(** No holding is negative. *)
Definition no_short (pf : Dict Q) : Prop :=
  forall t h, dict_get pf t = Some h -> 0 <= h.

(** A dict has each key once. *)
Definition is_dict {V : Type} (d : Dict V) : Prop := NoDup (keys d).

(** The holdings of the ledger: the dict the variable [portfolio] refers to. *)
Definition holdings (st : State) : Dict Q := deref (heap st) portfolio.

(** The ledger a run maintains: cash and holdings are never negative, and
    the variable [portfolio] refers to a dict. *)
Definition sound_ledger (st : State) : Prop :=
  0 <= cash st /\ heap st <> [] /\ is_dict (holdings st) /\ no_short (holdings st).

(** Where the snapshots are: the store holds the live dict and one dict per
    record, and the record of step [k] (from 0) refers to location [k + 1]. *)
Definition snapshots_in_place (st : State) : Prop :=
  List.length (heap st) = S (List.length (trade_history st)) /\
  forall k r, nth_error (trade_history st) k = Some r -> tr_portfolio r = S k.

(** The two histories go together. *)
Definition histories_agree (st : State) : Prop :=
  value_history st = map tr_total_value (trade_history st).

(** What line 102 adds up for the tickers of [l]: holding x as-of price. *)
Fixpoint position_value (data : DataFrame) (date : Timestamp) (pf : Dict Q)
  (l : list Ticker) : Q :=
  match l with
  | [] => 0
  | ticker :: rest =>
      match dict_get pf ticker, price_at data ticker date with
      | Some held, OK unit_price => held * unit_price
      | _, _ => 0
      end + position_value data date pf rest
  end.

(** The table with the prices of one ticker multiplied by [c]. *)
Definition scale_column (data : DataFrame) (ticker : Ticker) (c : Q) : DataFrame :=
  mkFrame (columns data) (index data)
    (fun d t =>
       if String.eqb t ticker
       then match cell data d t with Some p => Some (c * p) | None => None end
       else cell data d t).

(** The ledger is worth something: it has cash or a position. *)
Definition funded (st : State) : Prop :=
  0 < cash st \/ exists t h, dict_get (holdings st) t = Some h /\ 0 < h.

(** What a record says was decided: the date, the label and the ticker. *)
Definition decision (r : TradeRecord) : Timestamp * Strategy * Ticker :=
  (tr_date r, tr_strategy r, tr_best_asset r).

(** Two tables with the same columns that have the same rows up to and
    including the date [horizon]; later rows may differ. *)
Definition agree_until (data data' : DataFrame) (horizon : Timestamp) : Prop :=
  columns data = columns data' /\
  forall d, date_leb d horizon = true ->
    In_dates d (index data) = In_dates d (index data') /\
    forall t, cell data d t = cell data' d t.

(* ================================================================== *)
(** * Sample inputs *)

(** [n] month starts from [d0] on. *)
Definition month_starts (n : nat) (d0 : Timestamp) : list Timestamp :=
  map (fun k => add_months d0 (Z.of_nat k)) (seq 0 n).

Definition demo_price (t : Ticker) (k : Z) : Q :=
  if String.eqb t "SPY" then inject_Z (100 + 2 * k)
  else if String.eqb t "EFA" then inject_Z (50 + k)
  else if String.eqb t "EEM" then 40
  else if String.eqb t "AGG" then inject_Z (100 - k)
  else if String.eqb t "QQQ" then inject_Z (200 + 5 * k)
  else if String.eqb t "LQD" then 110
  else if String.eqb t "IEF" then inject_Z (95 - k)
  else inject_Z (80 + k).

Definition demo_start : Timestamp := mkDate 2022 3 1.

(** Eighteen monthly observations of the eight tickers, from March 2022. *)
Definition demo_data : DataFrame :=
  mkFrame tickers (month_starts 18 demo_start)
    (fun d t => Some (demo_price t (month_index d - month_index demo_start))).

(** One observation of SPY, priced so that a share costs 333,334 once the
    buy commission of 0.1% is added. *)
Definition scenario_data : DataFrame :=
  mkFrame tickers [mkDate 2023 3 1] (fun _ _ => Some (333334000 # 1001)).

(** A ledger with 100 in cash and 10 shares of QQQ. *)
Definition held_state : State :=
  mkState 100 [dict_set (new_portfolio tickers) "QQQ" 10] [] [].

Definition state_of (r : result State) : State :=
  match r with
  | OK st => st
  | Raise _ => initial_state 0
  end.

(** The run on [demo_data] after its first two steps, and after four. *)
Definition demo_state_2 : State :=
  Eval vm_compute in
    state_of (simulate demo_data [mkDate 2023 3 1; mkDate 2023 4 1]
                       1000000 (1 # 1000) (1 # 1000)).

Definition demo_state_4 : State :=
  Eval vm_compute in
    state_of (run demo_data (1 # 1000) (1 # 1000) 1000000
                  [mkDate 2023 5 1; mkDate 2023 6 1] demo_state_2).

(** The same run after its first step, and the total value it records. *)
Definition demo_state_1 : State :=
  Eval vm_compute in
    state_of (simulate demo_data [mkDate 2023 3 1] 1000000 (1 # 1000) (1 # 1000)).

Definition demo_final_1 : Q :=
  Eval vm_compute in
    match last_value (value_history demo_state_1) with
    | OK v => v
    | Raise _ => 0
    end.

(** [demo_data] with every price after 2023-04-01 replaced by 1. *)
Definition future_changed : DataFrame :=
  mkFrame tickers (month_starts 18 demo_start)
    (fun d t => if date_ltb (mkDate 2023 4 1) d then Some 1 else cell demo_data d t).

(** The same table, with QQQ listed from June 2022 only. *)
Definition late_listing : DataFrame :=
  mkFrame tickers (month_starts 18 demo_start)
    (fun d t =>
       if String.eqb t "QQQ" && date_ltb d (mkDate 2022 6 1) then None
       else Some (demo_price t (month_index d - month_index demo_start))).

(** A purchase in binary64 that the cash exactly covers, as the program
    counts: the cash, the price and the default commission of a first step.
    A decimal literal is the binary64 number nearest to it, as in Python. *)
Definition tight_cash : float := 39820.53074999999.

Definition tight_price : float := 134.85.

Definition default_commission : float := 0.001.

(* ================================================================== *)
(** * Results *)

Lemma bind_OK {A B : Type} (r : result A) (k : A -> result B) (b : B) :
  bind r k = OK b -> exists a, r = OK a /\ k a = OK b.
Proof.
  destruct r as [a|e]; simpl; intros H; [eauto | discriminate].
Qed.

(** Splits every binding of a successful computation in hypothesis [H]. *)
Ltac unbind H :=
  let a := fresh "v" in
  let Ha := fresh "E" in
  apply bind_OK in H; destruct H as (a & Ha & H).

(* ================================================================== *)
(** * The order on timestamps *)

Lemma date_eqb_eq (a b : Timestamp) : date_eqb a b = true <-> a = b.
Proof.
  destruct a as [ya ma da], b as [yb mb db]; unfold date_eqb; simpl.
  rewrite !andb_true_iff, !Z.eqb_eq. split.
  - intros [[-> ->] ->]; reflexivity.
  - intros H; injection H; auto.
Qed.

Lemma date_ltb_lt (a b : Timestamp) :
  date_ltb a b = true <->
  (year a < year b \/
   (year a = year b /\
    (month a < month b \/ (month a = month b /\ day a < day b))))%Z.
Proof.
  unfold date_ltb.
  rewrite !orb_true_iff, !andb_true_iff, !orb_true_iff, !andb_true_iff,
    !Z.ltb_lt, !Z.eqb_eq.
  tauto.
Qed.

Lemma date_leb_le (a b : Timestamp) :
  date_leb a b = true <-> date_ltb a b = true \/ a = b.
Proof.
  unfold date_leb. rewrite orb_true_iff, date_eqb_eq. tauto.
Qed.

Lemma date_ltb_irrefl (a : Timestamp) : date_ltb a a = false.
Proof.
  apply not_true_iff_false. rewrite date_ltb_lt. lia.
Qed.

Lemma date_ltb_trans (a b c : Timestamp) :
  date_ltb a b = true -> date_ltb b c = true -> date_ltb a c = true.
Proof.
  rewrite !date_ltb_lt. lia.
Qed.

Lemma date_total (a b : Timestamp) :
  date_ltb a b = true \/ a = b \/ date_ltb b a = true.
Proof.
  rewrite !date_ltb_lt.
  destruct a as [ya ma da], b as [yb mb db]; simpl.
  destruct (Z.lt_trichotomy ya yb) as [?|[?|?]]; [lia | | lia].
  destruct (Z.lt_trichotomy ma mb) as [?|[?|?]]; [lia | | lia].
  destruct (Z.lt_trichotomy da db) as [?|[?|?]]; [lia | | lia].
  right; left; congruence.
Qed.

Lemma date_leb_false (a b : Timestamp) :
  date_leb a b = false <-> date_ltb b a = true.
Proof.
  rewrite <- not_true_iff_false, date_leb_le. split.
  - intros H. destruct (date_total a b) as [?|[?|?]]; tauto.
  - intros H [H1 | ->].
    + pose proof (date_ltb_trans _ _ _ H H1) as C.
      rewrite date_ltb_irrefl in C; discriminate.
    + rewrite date_ltb_irrefl in H; discriminate.
Qed.

Lemma date_leb_trans (a b c : Timestamp) :
  date_leb a b = true -> date_leb b c = true -> date_leb a c = true.
Proof.
  rewrite !date_leb_le. intros [H1 | ->] [H2 | ->]; auto.
  left; eapply date_ltb_trans; eauto.
Qed.

Lemma In_dates_iff (d : Timestamp) (l : list Timestamp) :
  In_dates d l = true <-> In d l.
Proof.
  unfold In_dates. rewrite existsb_exists. split.
  - intros (x & Hx & E). apply date_eqb_eq in E. subst; assumption.
  - intros H. exists d. split; [assumption | apply date_eqb_eq; reflexivity].
Qed.

Lemma In_tickers_iff (t : Ticker) (l : list Ticker) :
  In_tickers t l = true <-> In t l.
Proof.
  unfold In_tickers. rewrite existsb_exists. split.
  - intros (x & Hx & E). apply String.eqb_eq in E. subst; assumption.
  - intros H. exists t. split; [assumption | apply String.eqb_refl].
Qed.

Lemma strictly_increasing_cons (d : Timestamp) (rest : list Timestamp) :
  strictly_increasing (d :: rest) = true ->
  (forall e, In e rest -> date_ltb d e = true) /\
  strictly_increasing rest = true.
Proof.
  revert d. induction rest as [|e rest IH]; intros d H.
  - split; [intros ? [] | reflexivity].
  - cbn [strictly_increasing] in H. apply andb_true_iff in H.
    destruct H as [Hde Hrest].
    change (strictly_increasing (e :: rest) = true) in Hrest.
    split; [| assumption].
    intros x [<- | Hx]; [assumption |].
    destruct (IH e Hrest) as [Hall _].
    eapply date_ltb_trans; eauto.
Qed.

Lemma strictly_increasing_filter (f : Timestamp -> bool) (l : list Timestamp) :
  strictly_increasing l = true -> strictly_increasing (filter f l) = true.
Proof.
  induction l as [|d rest IH]; intros H; [reflexivity |].
  apply strictly_increasing_cons in H. destruct H as [Hall Hrest].
  specialize (IH Hrest). simpl. destruct (f d); [| assumption].
  remember (filter f rest) as fr eqn:Efr.
  destruct fr as [|e fr']; [reflexivity |].
  cbn [strictly_increasing]. apply andb_true_iff. split; [| exact IH].
  apply Hall. apply (proj1 (filter_In f e rest)). rewrite <- Efr. left; reflexivity.
Qed.

(* ------------------------------------------------------------------ *)
(** ** [asof] on an increasing index *)

Lemma asof_Some (l : list Timestamp) (x r : Timestamp) :
  strictly_increasing l = true ->
  asof l x = Some r ->
  In r l /\ date_leb r x = true /\
  (forall d, In d l -> date_leb d x = true -> date_leb d r = true).
Proof.
  induction l as [|d rest IH]; intros Hs H; [discriminate |].
  apply strictly_increasing_cons in Hs. destruct Hs as [Hall Hrest].
  simpl in H. destruct (date_leb d x) eqn:Edx; [| discriminate].
  destruct (asof rest x) as [r'|] eqn:Er.
  - injection H as <-. destruct (IH Hrest eq_refl) as (Hin & Hle & Hmax).
    split; [right; assumption |]. split; [assumption |].
    intros e [<- | He] Hex.
    + apply date_leb_le. left. apply Hall; assumption.
    + apply Hmax; assumption.
  - injection H as <-. split; [left; reflexivity |]. split; [assumption |].
    intros e [<- | He] Hex.
    + apply date_leb_le; right; reflexivity.
    + exfalso. destruct rest as [|e0 rest']; [destruct He |].
      simpl in Er. destruct (date_leb e0 x) eqn:E0.
      * destruct (asof rest' x); discriminate.
      * apply date_leb_false in E0.
        destruct He as [<- | He].
        -- apply date_leb_le in Hex. destruct Hex as [Hex | ->].
           ++ pose proof (date_ltb_trans _ _ _ Hex E0) as C.
              rewrite date_ltb_irrefl in C; discriminate.
           ++ rewrite date_ltb_irrefl in E0; discriminate.
        -- apply strictly_increasing_cons in Hrest. destruct Hrest as [Hall0 _].
           specialize (Hall0 e He).
           apply date_leb_le in Hex.
           assert (C : date_ltb x x = true).
           { destruct Hex as [Hex | ->].
             - eapply date_ltb_trans; [exact E0 |].
               eapply date_ltb_trans; eauto.
             - eapply date_ltb_trans; eauto. }
           rewrite date_ltb_irrefl in C; discriminate.
Qed.

Lemma asof_None (l : list Timestamp) (x : Timestamp) :
  strictly_increasing l = true ->
  (asof l x = None <-> forall d, In d l -> date_leb d x = false).
Proof.
  intros Hs. split.
  - destruct l as [|d rest]; [intros _ ? [] |].
    simpl. destruct (date_leb d x) eqn:Edx.
    + destruct (asof rest x); discriminate.
    + intros _ e [<- | He]; [assumption |].
      apply strictly_increasing_cons in Hs. destruct Hs as [Hall _].
      apply date_leb_false. apply date_leb_false in Edx.
      eapply date_ltb_trans; eauto.
  - intros H. destruct l as [|d rest]; [reflexivity |].
    simpl. rewrite (H d (or_introl eq_refl)). reflexivity.
Qed.

Lemma dropna_index_In (data : DataFrame) (ticker : Ticker) (d : Timestamp) :
  In d (dropna_index data ticker) <-> observed data ticker d.
Proof.
  unfold dropna_index, observed. rewrite filter_In.
  destruct (cell data d ticker) as [p|]; split.
  - intros [H _]; split; eauto.
  - intros [H _]; split; auto.
  - intros [_ H]; discriminate.
  - intros [_ [p H]]; discriminate.
Qed.

(** A date the resolver returns carries a price: the NaN test of line 45
    never sees a missing price. *)
Lemma resolved_price (data : DataFrame) (ticker : Ticker) (date r : Timestamp) :
  strictly_increasing (index data) = true ->
  get_closest_date data ticker date = OK (Some r) ->
  observed data ticker r /\
  exists p, loc data (Some r) ticker = OK (Some p).
Proof.
  intros Hs H. unfold get_closest_date in H.
  destruct (In_tickers ticker (columns data)) eqn:Ecol; [| discriminate].
  assert (Hobs : observed data ticker r).
  { destruct (In_dates date (dropna_index data ticker)) eqn:Ein; simpl in H.
    - injection H as <-. apply dropna_index_In, In_dates_iff; assumption.
    - injection H as H.
      apply asof_Some in H;
        [| apply strictly_increasing_filter; assumption].
      apply dropna_index_In. tauto. }
  split; [assumption |].
  destruct Hobs as [Hin [p Hp]]. exists p.
  unfold loc. rewrite (proj2 (In_dates_iff r (index data)) Hin), Ecol. simpl.
  rewrite Hp. reflexivity.
Qed.

(** C7 (amended): on an increasing index and for a column of the table,
    the as-of resolver always returns and never raises; it returns the
    target date when the ticker has an observation there; otherwise the
    latest observation date strictly before the target; and when no
    observation lies on or before the target (and only then) it returns
    no date at all, the null timestamp NaT. *)
Theorem get_closest_date_spec (data : DataFrame) (ticker : Ticker) (date : Timestamp) :
  strictly_increasing (index data) = true ->
  In ticker (columns data) ->
  (exists x, get_closest_date data ticker date = OK x) /\
  (observed data ticker date ->
   get_closest_date data ticker date = OK (Some date)) /\
  (~ observed data ticker date ->
   (exists d, observed data ticker d /\ date_ltb d date = true) ->
   exists r, get_closest_date data ticker date = OK (Some r) /\
     observed data ticker r /\ date_ltb r date = true /\
     (forall d, observed data ticker d -> date_ltb d date = true ->
                date_leb d r = true)) /\
  (get_closest_date data ticker date = OK None <->
   (forall d, observed data ticker d -> date_leb d date = false)).
Proof.
  intros Hs Hcol.
  assert (Hf : strictly_increasing (dropna_index data ticker) = true)
    by (apply strictly_increasing_filter; assumption).
  apply In_tickers_iff in Hcol.
  unfold get_closest_date. rewrite Hcol.
  split; [| split; [| split]].
  - destruct (negb (In_dates date (dropna_index data ticker))); eauto.
  - intros Hobs. apply dropna_index_In, In_dates_iff in Hobs.
    rewrite Hobs. reflexivity.
  - intros Hno (d & Hd & Hlt).
    destruct (In_dates date (dropna_index data ticker)) eqn:Ein.
    { exfalso. apply Hno. apply dropna_index_In, In_dates_iff. assumption. }
    simpl. destruct (asof (dropna_index data ticker) date) as [r|] eqn:Er.
    + exists r. split; [reflexivity |].
      destruct (asof_Some _ _ _ Hf Er) as (Hin & Hle & Hmax).
      split; [apply dropna_index_In; assumption |].
      split.
      * apply date_leb_le in Hle. destruct Hle as [Hle | ->]; [assumption |].
        exfalso. apply Hno. apply dropna_index_In; assumption.
      * intros e He Hlt'. apply Hmax.
        -- apply dropna_index_In; assumption.
        -- apply date_leb_le; left; assumption.
    + exfalso. pose proof (proj1 (asof_None _ date Hf) Er) as Er'.
      clear Er; rename Er' into Er.
      specialize (Er d (proj2 (dropna_index_In _ _ _) Hd)).
      apply date_leb_false in Er.
      pose proof (date_ltb_trans _ _ _ Hlt Er) as C.
      rewrite date_ltb_irrefl in C; discriminate.
  - destruct (In_dates date (dropna_index data ticker)) eqn:Ein; simpl.
    + split; [discriminate |]. intros H. exfalso.
      apply In_dates_iff, dropna_index_In in Ein.
      specialize (H date Ein).
      assert (C : date_leb date date = true)
        by (apply date_leb_le; right; reflexivity).
      congruence.
    + split.
      * intros H. injection H as H.
        pose proof (proj1 (asof_None _ date Hf) H) as H'.
        intros d Hd. apply H'. apply dropna_index_In; assumption.
      * intros H. f_equal. apply (proj2 (asof_None _ date Hf)).
        intros d Hd. apply H. apply dropna_index_In; assumption.
Qed.

Lemma get_closest_date_spec_witness :
  strictly_increasing (index demo_data) = true /\
  In "SPY" (columns demo_data) /\
  get_closest_date demo_data "SPY" (mkDate 2023 3 1) = OK (Some (mkDate 2023 3 1)) /\
  (exists r, get_closest_date demo_data "SPY" (mkDate 2023 3 15) = OK (Some r) /\
             date_ltb r (mkDate 2023 3 15) = true) /\
  get_closest_date demo_data "SPY" (mkDate 2022 2 15) = OK None.
Proof.
  assert (Hs : strictly_increasing (index demo_data) = true)
    by (vm_compute; reflexivity).
  assert (Hc : In "SPY" (columns demo_data)) by (simpl; auto).
  split; [exact Hs |]. split; [exact Hc |]. split; [| split].
  - apply (get_closest_date_spec demo_data "SPY" (mkDate 2023 3 1) Hs Hc).
    split.
    + apply In_dates_iff. vm_compute. reflexivity.
    + eexists. vm_compute. reflexivity.
  - destruct (get_closest_date_spec demo_data "SPY" (mkDate 2023 3 15) Hs Hc)
      as (_ & _ & H & _).
    destruct H as (r & Hr & _ & Hlt & _).
    + intros [Hin _]. apply In_dates_iff in Hin. vm_compute in Hin. discriminate.
    + exists (mkDate 2023 3 1). split; [| vm_compute; reflexivity].
      split; [apply In_dates_iff; vm_compute; reflexivity |].
      eexists; vm_compute; reflexivity.
    + exists r. split; assumption.
  - apply (get_closest_date_spec demo_data "SPY" (mkDate 2022 2 15) Hs Hc).
    intros d [Hin _]. apply In_dates_iff in Hin.
    apply date_leb_false.
    assert (H0 : forall e, In e (index demo_data) ->
                           date_ltb (mkDate 2022 2 15) e = true).
    { intros e He. vm_compute in He.
      repeat (destruct He as [<- | He]; [vm_compute; reflexivity |]).
      destruct He. }
    apply H0. apply In_dates_iff. assumption.
Defined.

(** C7, as first stated, fails: SPY has no observation on or before
    2022-02-15 in [demo_data], and the resolver does not fail there; it
    returns normally, with no date. *)
Lemma get_closest_date_returns_nat :
  (forall d, observed demo_data "SPY" d ->
             date_leb d (mkDate 2022 2 15) = false) /\
  get_closest_date demo_data "SPY" (mkDate 2022 2 15) = OK None /\
  (forall e, get_closest_date demo_data "SPY" (mkDate 2022 2 15) <> Raise e).
Proof.
  split; [| split].
  - intros d [Hin _]. apply date_leb_false.
    vm_compute in Hin.
    repeat (destruct Hin as [<- | Hin]; [vm_compute; reflexivity |]).
    destruct Hin.
  - vm_compute. reflexivity.
  - intros e H. vm_compute in H. discriminate.
Qed.


(* ================================================================== *)
(** * Scores *)

Lemma Qlt_bool_iff (a b : Q) : Qlt_bool a b = true <-> a < b.
Proof.
  unfold Qlt_bool. rewrite negb_true_iff, <- not_true_iff_false, Qle_bool_iff.
  split; [apply Qnot_le_lt | apply Qlt_not_le].
Qed.

Lemma is_zero_iff (q : Q) : is_zero q = true <-> q == 0.
Proof. unfold is_zero. apply Qeq_bool_iff. Qed.

Lemma is_zero_false (q : Q) : is_zero q = false <-> ~ q == 0.
Proof. rewrite <- is_zero_iff. symmetry. apply not_true_iff_false. Qed.

Lemma dict_get_set {V : Type} (d : Dict V) (k k' : Ticker) (v : V) :
  dict_get (dict_set d k v) k' =
  if String.eqb k' k then Some v else dict_get d k'.
Proof.
  induction d as [|[k0 v0] rest IH]; simpl.
  - reflexivity.
  - destruct (String.eqb_spec k k0) as [-> | Hk]; simpl.
    + destruct (String.eqb k' k0); reflexivity.
    + rewrite IH. destruct (String.eqb_spec k' k0) as [-> | Hk'].
      * destruct (String.eqb_spec k0 k); [congruence | reflexivity].
      * reflexivity.
Qed.

Lemma keys_dict_set {V : Type} (d : Dict V) (k : Ticker) (v : V) :
  dict_get d k <> None -> keys (dict_set d k v) = keys d.
Proof.
  induction d as [|[k0 v0] rest IH]; simpl; intros H.
  - congruence.
  - destruct (String.eqb k k0); [reflexivity |].
    change (k0 :: keys (dict_set rest k v) = k0 :: keys rest).
    f_equal. apply IH. assumption.
Qed.

Lemma dict_get_keys {V : Type} (d : Dict V) (k : Ticker) :
  In k (keys d) <-> dict_get d k <> None.
Proof.
  induction d as [|[k0 v0] rest IH]; simpl.
  - split; [intros [] | congruence].
  - destruct (String.eqb_spec k k0) as [-> | Hk].
    + split; [discriminate | auto].
    + rewrite <- IH. split; [intros [E | H]; [congruence | assumption] | auto].
Qed.

(** The scores gathered by the loop: every column gets the result of the
    loop body for that ticker. *)
Lemma scores_loop_get (data : DataFrame) (date : Timestamp) (cols : list Ticker) :
  forall acc m, scores_loop data date cols acc = OK m ->
  forall t, dict_get m t =
    if In_tickers t cols
    then match ticker_score data t date with OK s => Some s | Raise _ => None end
    else dict_get acc t.
Proof.
  induction cols as [|c rest IH]; intros acc m H t.
  - injection H as <-. reflexivity.
  - simpl in H. unbind H. rewrite (IH _ _ H t), dict_get_set.
    change (In_tickers t (c :: rest)) with (String.eqb t c || In_tickers t rest).
    destruct (In_tickers t rest) eqn:Et.
    + rewrite orb_true_r. reflexivity.
    + rewrite orb_false_r. destruct (String.eqb_spec t c) as [-> | Hn].
      * rewrite E. reflexivity.
      * reflexivity.
Qed.

Lemma scores_loop_all_OK (data : DataFrame) (date : Timestamp) (cols : list Ticker) :
  forall acc m, scores_loop data date cols acc = OK m ->
  forall t, In t cols -> exists s, ticker_score data t date = OK s.
Proof.
  induction cols as [|c rest IH]; intros acc m H t Ht; [destruct Ht |].
  simpl in H. unbind H. destruct Ht as [<- | Ht]; eauto.
Qed.

(** The resolver reads one column only. *)
Lemma get_closest_date_ext (data data' : DataFrame) (ticker : Ticker) (date : Timestamp) :
  index data' = index data ->
  In_tickers ticker (columns data') = In_tickers ticker (columns data) ->
  (forall d, cell data' d ticker = cell data d ticker) ->
  get_closest_date data' ticker date = get_closest_date data ticker date.
Proof.
  intros Hi Hc Hcell. unfold get_closest_date. rewrite Hc.
  assert (E : dropna_index data' ticker = dropna_index data ticker).
  { unfold dropna_index. rewrite Hi. apply filter_ext.
    intros d. rewrite Hcell. reflexivity. }
  rewrite E. reflexivity.
Qed.

Lemma loc_ext (data data' : DataFrame) (ticker : Ticker) (l : option Timestamp) :
  index data' = index data ->
  In_tickers ticker (columns data') = In_tickers ticker (columns data) ->
  (forall d, cell data' d ticker = cell data d ticker) ->
  loc data' l ticker = loc data l ticker.
Proof.
  intros Hi Hc Hcell. unfold loc. destruct l as [d|]; [| reflexivity].
  rewrite Hi, Hc, Hcell. reflexivity.
Qed.

Lemma ticker_score_ext (data data' : DataFrame) (ticker : Ticker) (date : Timestamp) :
  index data' = index data ->
  In_tickers ticker (columns data') = In_tickers ticker (columns data) ->
  (forall d, cell data' d ticker = cell data d ticker) ->
  ticker_score data' ticker date = ticker_score data ticker date.
Proof.
  intros Hi Hc Hcell. unfold ticker_score.
  rewrite !(get_closest_date_ext data data' ticker) by assumption.
  destruct (get_closest_date data ticker date) as [d0|]; simpl; [| reflexivity].
  destruct (get_closest_date data ticker (sub_months date 1)) as [d1|];
    simpl; [| reflexivity].
  destruct (get_closest_date data ticker (sub_months date 3)) as [d3|];
    simpl; [| reflexivity].
  destruct (get_closest_date data ticker (sub_months date 6)) as [d6|];
    simpl; [| reflexivity].
  destruct (get_closest_date data ticker (sub_months date 12)) as [d12|];
    simpl; [| reflexivity].
  rewrite !(loc_ext data data' ticker) by assumption.
  reflexivity.
Qed.

(** C5: when the five as-of resolutions (offsets 0, -1, -3, -6 and -12
    months) all yield prices P0, P1m, P3m, P6m, P12m, with non-zero divisors,
    the ticker's score is 12(P0/P1m - 1) + 4(P0/P3m - 1) + 2(P0/P6m - 1) +
    1(P0/P12m - 1); it is the entry of the ticker in the scorer's result; and
    the score depends on the ticker's price series and the date only. *)
Theorem momentum_score_formula (data : DataFrame) (ticker : Ticker) (date : Timestamp)
  (d0 d1 d3 d6 d12 : Timestamp) (P0 P1m P3m P6m P12m : Q) :
  get_closest_date data ticker date = OK (Some d0) ->
  get_closest_date data ticker (sub_months date 1) = OK (Some d1) ->
  get_closest_date data ticker (sub_months date 3) = OK (Some d3) ->
  get_closest_date data ticker (sub_months date 6) = OK (Some d6) ->
  get_closest_date data ticker (sub_months date 12) = OK (Some d12) ->
  loc data (Some d0) ticker = OK (Some P0) ->
  loc data (Some d1) ticker = OK (Some P1m) ->
  loc data (Some d3) ticker = OK (Some P3m) ->
  loc data (Some d6) ticker = OK (Some P6m) ->
  loc data (Some d12) ticker = OK (Some P12m) ->
  ~ P1m == 0 -> ~ P3m == 0 -> ~ P6m == 0 -> ~ P12m == 0 ->
  exists s,
    ticker_score data ticker date = OK (Fin s) /\
    s == 12 * (P0 / P1m - 1) + 4 * (P0 / P3m - 1) + 2 * (P0 / P6m - 1)
         + 1 * (P0 / P12m - 1) /\
    (forall scores, calculate_momentum_scores data date = OK scores ->
                    In ticker (columns data) ->
                    dict_get scores ticker = Some (Fin s)) /\
    (forall data', index data' = index data ->
                   In_tickers ticker (columns data') = In_tickers ticker (columns data) ->
                   (forall d, cell data' d ticker = cell data d ticker) ->
                   ticker_score data' ticker date = OK (Fin s)).
Proof.
  intros G0 G1 G3 G6 G12 L0 L1 L3 L6 L12 N1 N3 N6 N12.
  assert (Hscore : ticker_score data ticker date
                   = OK (Fin (momentum P0 P1m P3m P6m P12m))).
  { unfold ticker_score, bind. rewrite G0, G1, G3, G6, G12. cbv beta iota.
    rewrite L0, L1, L3, L6, L12. cbv beta iota.
    apply is_zero_false in N1, N3, N6, N12.
    rewrite N1, N3, N6, N12. reflexivity. }
  exists (momentum P0 P1m P3m P6m P12m).
  split; [exact Hscore |]. split; [| split].
  - unfold momentum. ring.
  - intros scores Hs Hin. unfold calculate_momentum_scores in Hs.
    rewrite (scores_loop_get _ _ _ _ _ Hs ticker).
    rewrite (proj2 (In_tickers_iff _ _) Hin), Hscore. reflexivity.
  - intros data' Hi Hc Hcell.
    rewrite (ticker_score_ext data data' ticker date Hi Hc Hcell). exact Hscore.
Qed.

Lemma momentum_score_formula_witness :
  exists s,
    ticker_score demo_data "SPY" (mkDate 2023 3 15) = OK (Fin s) /\
    s == 12 * (124 / 122 - 1) + 4 * (124 / 118 - 1) + 2 * (124 / 112 - 1)
         + 1 * (124 / 100 - 1).
Proof.
  destruct (momentum_score_formula demo_data "SPY" (mkDate 2023 3 15)
              (mkDate 2023 3 1) (mkDate 2023 2 1) (mkDate 2022 12 1)
              (mkDate 2022 9 1) (mkDate 2022 3 1)
              124 122 118 112 100) as (s & Hs & Hf & _);
    try (vm_compute; reflexivity);
    try (intros H; vm_compute in H; discriminate).
  exists s. split; assumption.
Defined.

(* ------------------------------------------------------------------ *)
(** ** Missing history *)

(** A resolution that finds no date makes the loop body raise KeyError. *)
Lemma ticker_score_unresolved (data : DataFrame) (ticker : Ticker) (date : Timestamp) :
  In ticker (columns data) ->
  (get_closest_date data ticker date = OK None \/
   get_closest_date data ticker (sub_months date 1) = OK None \/
   get_closest_date data ticker (sub_months date 3) = OK None \/
   get_closest_date data ticker (sub_months date 6) = OK None \/
   get_closest_date data ticker (sub_months date 12) = OK None) ->
  ticker_score data ticker date = Raise KeyError.
Proof.
  intros Hin H. apply In_tickers_iff in Hin.
  assert (Hg : forall d, exists r, get_closest_date data ticker d = OK r).
  { intros d. unfold get_closest_date. rewrite Hin.
    destruct (negb _); eauto. }
  assert (Hl : forall r, loc data r ticker = Raise KeyError \/
                         exists c, loc data r ticker = OK c).
  { intros [d|]; simpl; [| auto].
    destruct (In_dates d (index data) && In_tickers ticker (columns data)); eauto. }
  unfold ticker_score.
  destruct (Hg date) as [r0 E0], (Hg (sub_months date 1)) as [r1 E1],
    (Hg (sub_months date 3)) as [r3 E3], (Hg (sub_months date 6)) as [r6 E6],
    (Hg (sub_months date 12)) as [r12 E12].
  rewrite E0, E1, E3, E6, E12 in *. simpl bind.
  destruct (Hl r0) as [-> | [c0 L0]]; [reflexivity |].
  destruct (Hl r1) as [F1 | [c1 L1]]; [rewrite L0, F1; reflexivity |].
  destruct (Hl r3) as [F3 | [c3 L3]]; [rewrite L0, L1, F3; reflexivity |].
  destruct (Hl r6) as [F6 | [c6 L6]]; [rewrite L0, L1, L3, F6; reflexivity |].
  destruct (Hl r12) as [F12 | [c12 L12]];
    [rewrite L0, L1, L3, L6, F12; reflexivity |].
  exfalso.
  destruct H as [H | [H | [H | [H | H]]]]; injection H as ->;
    simpl in *; discriminate.
Qed.

(** On an increasing index the loop body never answers the sentinel. *)
Lemma ticker_score_never_sentinel (data : DataFrame) (ticker : Ticker) (date : Timestamp) :
  strictly_increasing (index data) = true ->
  ticker_score data ticker date <> OK NegInf.
Proof.
  intros Hs H. unfold ticker_score in H.
  unbind H. unbind H. unbind H. unbind H. unbind H.
  unbind H. unbind H. unbind H. unbind H. unbind H.
  assert (Hp : forall d r c, get_closest_date data ticker d = OK r ->
                             loc data r ticker = OK c -> c <> None).
  { intros d [r|] c Hg Hl; [| discriminate].
    destruct (resolved_price _ _ _ _ Hs Hg) as [_ [p Hp]]. congruence. }
  repeat match goal with
  | G : get_closest_date data ticker _ = OK ?r, L : loc data ?r ticker = OK ?c |- _ =>
      let N := fresh "N" in
      pose proof (Hp _ _ _ G L) as N; clear G;
      destruct c; [clear N | congruence]
  end.
  destruct (is_zero _ || _ || _ || _); discriminate.
Qed.

(** C6 (the program departs from the specification here): QQQ is listed
    three months after the table starts, so its 12-month-prior observation
    for 2023-03-01 does not exist; the resolver yields no date, the price
    lookup raises KeyError, and the scorer and the whole run stop with that
    error instead of giving QQQ the sentinel score. *)
Theorem missing_history_aborts :
  get_closest_date late_listing "QQQ" (sub_months (mkDate 2023 3 1) 12) = OK None /\
  ticker_score late_listing "QQQ" (mkDate 2023 3 1) = Raise KeyError /\
  calculate_momentum_scores late_listing (mkDate 2023 3 1) = Raise KeyError /\
  simulate late_listing [mkDate 2023 3 1] 1000000 (1 # 1000) (1 # 1000)
    = Raise KeyError.
Proof.
  repeat split; vm_compute; reflexivity.
Qed.

(* ================================================================== *)
(** * The regime decision *)

Lemma score_ltb_trans (a b c : Score) :
  score_ltb a b = true -> score_ltb b c = true -> score_ltb a c = true.
Proof.
  destruct a as [|x], b as [|y], c as [|z]; simpl; try congruence.
  rewrite !Qlt_bool_iff. intros; lra.
Qed.

Lemma score_leb_ltb_trans (a b c : Score) :
  score_leb a b = true -> score_ltb b c = true -> score_ltb a c = true.
Proof.
  unfold score_leb. rewrite negb_true_iff, <- not_true_iff_false.
  destruct a as [|x], b as [|y], c as [|z]; simpl; try congruence; try tauto.
  rewrite !Qlt_bool_iff. intros; lra.
Qed.

Lemma score_ltb_leb (a b : Score) :
  score_ltb a b = true -> score_leb a b = true.
Proof.
  unfold score_leb. rewrite negb_true_iff, <- not_true_iff_false.
  destruct a as [|x], b as [|y]; simpl; try congruence.
  rewrite !Qlt_bool_iff. intros; lra.
Qed.

Lemma score_leb_refl (a : Score) : score_leb a a = true.
Proof.
  unfold score_leb. rewrite negb_true_iff, <- not_true_iff_false.
  destruct a as [|x]; simpl; [congruence |].
  rewrite Qlt_bool_iff. lra.
Qed.

Lemma max_from_first_maximum {A : Type} (key : A -> Score) (l : list A) :
  forall best, first_maximum key (best :: l) (max_from key best l).
Proof.
  induction l as [|x rest IH]; intros best; simpl.
  - exists [], []. repeat split; intros ? [].
  - destruct (score_ltb (key best) (key x)) eqn:Elt.
    + specialize (IH x). remember (max_from key x rest) as m eqn:Em. clear Em.
      destruct IH as (before & after & E & Hb & Ha).
      exists (best :: before), after.
      split; [simpl; f_equal; exact E |].
      split; [| exact Ha].
      intros y [<- | Hy]; [| apply Hb; assumption].
      destruct before as [|b0 before'].
      * simpl in E. injection E as E _. rewrite <- E. exact Elt.
      * simpl in E. injection E as E _. subst b0.
        eapply score_ltb_trans; [exact Elt |]. apply Hb. left; reflexivity.
    + specialize (IH best). remember (max_from key best rest) as m eqn:Em. clear Em.
      destruct IH as (before & after & E & Hb & Ha).
      assert (Hx : score_leb (key x) (key best) = true)
        by (unfold score_leb; rewrite Elt; reflexivity).
      destruct before as [|b0 before'].
      * simpl in E. injection E as E1 E2. subst m.
        exists [], (x :: after). split; [simpl; do 2 f_equal; exact E2 |].
        split; [intros ? [] |].
        intros y [<- | Hy]; [exact Hx | apply Ha; assumption].
      * simpl in E. injection E as E1 E2. subst b0.
        exists (best :: x :: before'), after.
        split; [simpl; do 2 f_equal; exact E2 |].
        split; [| exact Ha].
        assert (Hbest : score_ltb (key best) (key m) = true)
          by (apply Hb; left; reflexivity).
        intros y [<- | [<- | Hy]].
        -- exact Hbest.
        -- eapply score_leb_ltb_trans; eauto.
        -- apply Hb. right; assumption.
Qed.

Lemma py_max_first_maximum {A : Type} (key : A -> Score) (l : list A) :
  l <> [] -> exists best, py_max key l = OK best /\ first_maximum key l best.
Proof.
  destruct l as [|x rest]; [congruence |]. intros _.
  exists (max_from key x rest). split; [reflexivity |].
  apply max_from_first_maximum.
Qed.

Lemma all_nonpos_spec (momentum_scores : Dict Score) (assets : list Ticker) :
  (forall a, In a assets -> dict_get momentum_scores a <> None) ->
  exists b, all_nonpos momentum_scores assets = OK b /\
    (b = true <->
     forall a, In a assets ->
       exists s, dict_get momentum_scores a = Some s /\ score_nonpos s = true).
Proof.
  induction assets as [|a rest IH]; intros Hall.
  - exists true. split; [reflexivity |]. split; [intros _ ? [] | reflexivity].
  - destruct IH as (b & Hb & Hiff); [intros; apply Hall; right; assumption |].
    simpl. unfold getitem.
    destruct (dict_get momentum_scores a) as [s|] eqn:Es;
      [| exfalso; apply (Hall a); [left; reflexivity | assumption]].
    simpl. destruct (score_nonpos s) eqn:Ens.
    + exists b. split; [assumption |]. rewrite Hiff. split.
      * intros H x [<- | Hx]; [eauto | auto].
      * intros H x Hx. apply H. right; assumption.
    + exists false. split; [reflexivity |]. split; [discriminate |].
      intros H. destruct (H a (or_introl eq_refl)) as (s' & Es' & Hs').
      congruence.
Qed.

(** C1: with a score for every risk asset, the decision always succeeds;
    it is the safety regime exactly when every risk-asset score is <= 0 (a
    score of exactly 0 is non-positive), and the risk regime otherwise; the
    target is then the best asset of the chosen set, the first one in the
    declared order whose score is maximal. *)
Theorem regime_decision (attack safe : list Ticker) (momentum_scores : Dict Score) :
  attack <> [] -> safe <> [] ->
  (forall a, In a attack -> dict_get momentum_scores a <> None) ->
  exists best_asset strategy,
    choose attack safe momentum_scores = OK (best_asset, strategy) /\
    (strategy = SafeInvest <->
     forall a, In a attack ->
       exists s, dict_get momentum_scores a = Some s /\ score_nonpos s = true) /\
    (strategy = SafeInvest ->
     first_maximum (fun x => get_default momentum_scores x NegInf) safe best_asset) /\
    (strategy = AttackInvest ->
     first_maximum (fun x => get_default momentum_scores x NegInf) attack best_asset) /\
    score_nonpos (Fin 0) = true /\
    (forall q, score_nonpos (Fin q) = true <-> q <= 0).
Proof.
  intros Ha Hs Hall.
  destruct (py_max_first_maximum (fun x => get_default momentum_scores x NegInf)
              attack Ha) as (ba & Eba & Hba).
  destruct (py_max_first_maximum (fun x => get_default momentum_scores x NegInf)
              safe Hs) as (bs & Ebs & Hbs).
  destruct (all_nonpos_spec momentum_scores attack Hall) as (b & Eb & Hb).
  unfold choose. rewrite Eba, Ebs. simpl bind. rewrite Eb. simpl bind.
  destruct b.
  - exists bs, SafeInvest. split; [reflexivity |].
    split; [split; [intros _; apply Hb; reflexivity | reflexivity] |].
    split; [intros _; exact Hbs |].
    split; [discriminate |].
    split; [reflexivity |].
    intros q. simpl. apply Qle_bool_iff.
  - exists ba, AttackInvest. split; [reflexivity |].
    split; [split; [discriminate | intros H; apply Hb in H; discriminate] |].
    split; [discriminate |].
    split; [intros _; exact Hba |].
    split; [reflexivity |].
    intros q. simpl. apply Qle_bool_iff.
Qed.

Lemma regime_decision_witness :
  exists best_asset strategy,
    choose_asset [("SPY", Fin 0); ("EFA", Fin (-1)); ("EEM", NegInf);
                  ("AGG", Fin 0); ("QQQ", Fin (-2));
                  ("LQD", Fin (-3)); ("IEF", Fin (1 # 2)); ("SHY", Fin (1 # 2))]
      = OK (best_asset, strategy) /\
    strategy = SafeInvest /\ best_asset = "IEF".
Proof.
  destruct (regime_decision attack_assets safe_assets
              [("SPY", Fin 0); ("EFA", Fin (-1)); ("EEM", NegInf);
               ("AGG", Fin 0); ("QQQ", Fin (-2));
               ("LQD", Fin (-3)); ("IEF", Fin (1 # 2)); ("SHY", Fin (1 # 2))])
    as (best & strategy & E & _).
  - discriminate.
  - discriminate.
  - intros a Ha. simpl in Ha.
    repeat (destruct Ha as [<- | Ha]; [discriminate |]). destruct Ha.
  - exists best, strategy. split; [exact E |].
    vm_compute in E. injection E as <- <-. split; reflexivity.
Defined.

(* ================================================================== *)
(** * Selling and buying *)

Lemma getitem_OK {V : Type} (d : Dict V) (k : Ticker) (v : V) :
  getitem d k = OK v <-> dict_get d k = Some v.
Proof.
  unfold getitem. destruct (dict_get d k); split; congruence.
Qed.

Lemma price_at_cell (data : DataFrame) (ticker : Ticker) (date : Timestamp) (p : Q) :
  price_at data ticker date = OK p ->
  exists d, In d (index data) /\ cell data d ticker = Some p.
Proof.
  unfold price_at. intros H. unbind H. unbind H.
  destruct v as [d|]; [| discriminate].
  unfold loc in E0.
  destruct (In_dates d (index data)) eqn:Ein; [| discriminate].
  destruct (In_tickers ticker (columns data)); [| discriminate].
  injection E0 as <-. exists d. split; [apply In_dates_iff; assumption |].
  destruct (cell data d ticker); [congruence | discriminate].
Qed.

Lemma price_at_positive (data : DataFrame) (ticker : Ticker) (date : Timestamp) (p : Q) :
  positive_prices data -> price_at data ticker date = OK p -> 0 < p.
Proof.
  intros Hpos H. apply price_at_cell in H. destruct H as (d & Hin & Hd). eauto.
Qed.

(** The holdings the selling loop leaves: a positive one among the tickers
    visited becomes 0, the others stay. *)
Lemma sell_loop_get (data : DataFrame) (sc : Q) (date : Timestamp) (todo : list Ticker) :
  forall cash pf cash1 pf1,
  sell_loop data sc date todo cash pf = OK (cash1, pf1) ->
  forall t, dict_get pf1 t =
    match dict_get pf t with
    | Some h => Some (if In_tickers t todo && Qlt_bool 0 h then 0 else h)
    | None => None
    end.
Proof.
  induction todo as [|t0 rest IH]; intros cash pf cash1 pf1 H t.
  - injection H as <- <-. simpl. destruct (dict_get pf t); reflexivity.
  - simpl in H. unbind H. apply getitem_OK in E.
    change (In_tickers t (t0 :: rest)) with (String.eqb t t0 || In_tickers t rest).
    destruct (Qlt_bool 0 v) eqn:Epos.
    + unbind H. rewrite (IH _ _ _ _ H t), dict_get_set.
      destruct (String.eqb_spec t t0) as [-> | Hn].
      * rewrite E. simpl. rewrite Epos.
        destruct (In_tickers t0 rest && Qlt_bool 0 0); reflexivity.
      * simpl. reflexivity.
    + rewrite (IH _ _ _ _ H t).
      destruct (String.eqb_spec t t0) as [-> | Hn]; [| reflexivity].
      rewrite E. simpl. rewrite Epos, andb_false_r. reflexivity.
Qed.

Lemma credit_dict_set (data : DataFrame) (sc : Q) (date : Timestamp)
  (pf : Dict Q) (k t : Ticker) (v : Q) :
  t <> k -> credit data sc date (dict_set pf k v) t = credit data sc date pf t.
Proof.
  intros Hn. unfold credit. rewrite dict_get_set.
  destruct (String.eqb_spec t k); [congruence | reflexivity].
Qed.

Lemma proceeds_dict_set (data : DataFrame) (sc : Q) (date : Timestamp)
  (pf : Dict Q) (k : Ticker) (v : Q) (l : list Ticker) :
  ~ In k l ->
  proceeds data sc date (dict_set pf k v) l = proceeds data sc date pf l.
Proof.
  induction l as [|t rest IH]; intros Hn; [reflexivity |].
  simpl. rewrite credit_dict_set, IH.
  - reflexivity.
  - intros H; apply Hn; right; assumption.
  - intros ->; apply Hn; left; reflexivity.
Qed.

(** The cash the selling loop leaves: what it had plus the credits. *)
Lemma sell_loop_cash (data : DataFrame) (sc : Q) (date : Timestamp) (todo : list Ticker) :
  NoDup todo ->
  forall cash pf cash1 pf1,
  sell_loop data sc date todo cash pf = OK (cash1, pf1) ->
  cash1 == cash + proceeds data sc date pf todo.
Proof.
  induction 1 as [|t0 rest Hnotin Hnd IH]; intros cash pf cash1 pf1 H.
  - injection H as <- <-. simpl. ring.
  - simpl in H. unbind H. apply getitem_OK in E.
    simpl proceeds. unfold credit at 1. rewrite E.
    destruct (Qlt_bool 0 v) eqn:Epos.
    + unbind H. rewrite E0. rewrite (IH _ _ _ _ H).
      rewrite proceeds_dict_set by assumption. ring.
    + rewrite (IH _ _ _ _ H).
      destruct (price_at data t0 date); ring.
Qed.

Lemma floordiv_spec (cash cost : Q) :
  0 < cost ->
  floordiv cash cost * cost <= cash /\
  (forall k : Z, inject_Z k * cost <= cash -> inject_Z k <= floordiv cash cost) /\
  (0 <= cash -> 0 <= floordiv cash cost) /\
  (0 <= cash -> cash < cost -> floordiv cash cost == 0).
Proof.
  intros Hc. unfold floordiv.
  assert (Hdiv : cash / cost * cost == cash) by (field; lra).
  assert (Hfl := Qfloor_le (cash / cost)).
  assert (Hmax : forall k : Z, inject_Z k * cost <= cash ->
                               (k <= Qfloor (cash / cost))%Z).
  { intros k Hk. rewrite <- (Qfloor_Z k). apply Qfloor_resp_le.
    apply Qle_shift_div_l; assumption. }
  assert (Hzero : inject_Z 0 * cost == 0) by ring.
  assert (Hone : inject_Z 1 * cost == cost) by ring.
  split; [| split; [| split]].
  - rewrite <- Hdiv at 2. apply Qmult_le_compat_r; [assumption | lra].
  - intros k Hk. rewrite <- Zle_Qle. apply Hmax; assumption.
  - intros H0. change 0 with (inject_Z 0). rewrite <- Zle_Qle.
    apply Hmax. rewrite Hzero. assumption.
  - intros H0 Hlt.
    assert (H1 : (0 <= Qfloor (cash / cost))%Z)
      by (apply Hmax; rewrite Hzero; assumption).
    assert (H2 : (Qfloor (cash / cost) < 1)%Z).
    { rewrite Zlt_Qlt. eapply Qle_lt_trans; [exact Hfl |].
      apply Qlt_shift_div_r; [assumption | rewrite Hone; assumption]. }
    assert (E : Qfloor (cash / cost) = 0%Z) by lia.
    rewrite E. reflexivity.
Qed.

Lemma sell_loop_prices (data : DataFrame) (sc : Q) (date : Timestamp) (todo : list Ticker) :
  NoDup todo ->
  forall cash pf cash1 pf1,
  sell_loop data sc date todo cash pf = OK (cash1, pf1) ->
  forall t h, In t todo -> dict_get pf t = Some h -> 0 < h ->
  exists p, price_at data t date = OK p.
Proof.
  induction 1 as [|t0 rest Hnotin Hnd IH]; intros cash pf cash1 pf1 H t h Hin Hget Hpos.
  - destruct Hin.
  - simpl in H. unbind H. apply getitem_OK in E.
    destruct Hin as [<- | Hin].
    + rewrite Hget in E. injection E as <-.
      rewrite (proj2 (Qlt_bool_iff 0 h) Hpos) in H.
      unbind H. eauto.
    + assert (Hne : t <> t0) by (intros ->; contradiction).
      destruct (Qlt_bool 0 v).
      * unbind H. eapply IH; eauto.
        rewrite dict_get_set.
        destruct (String.eqb_spec t t0); [contradiction | eassumption].
      * eapply IH; eauto.
Qed.

Lemma In_tickers_keys {V : Type} (d : Dict V) (t : Ticker) (v : V) :
  dict_get d t = Some v -> In_tickers t (keys d) = true.
Proof.
  intros H. apply In_tickers_iff, dict_get_keys. congruence.
Qed.

(** After the sale no holding is positive. *)
Lemma sell_get (data : DataFrame) (sc : Q) (date : Timestamp)
  (cash : Q) (pf : Dict Q) (cash1 : Q) (pf1 : Dict Q) :
  sell data sc date cash pf = OK (cash1, pf1) ->
  forall t, dict_get pf1 t =
    match dict_get pf t with
    | Some h => Some (if Qlt_bool 0 h then 0 else h)
    | None => None
    end.
Proof.
  intros H t. unfold sell in H. rewrite (sell_loop_get _ _ _ _ _ _ _ _ H t).
  destruct (dict_get pf t) as [h|] eqn:E; [| reflexivity].
  rewrite (In_tickers_keys _ _ _ E). reflexivity.
Qed.

Lemma sell_not_positive (data : DataFrame) (sc : Q) (date : Timestamp)
  (cash : Q) (pf : Dict Q) (cash1 : Q) (pf1 : Dict Q) :
  sell data sc date cash pf = OK (cash1, pf1) ->
  forall t h, dict_get pf1 t = Some h -> ~ 0 < h.
Proof.
  intros H t h Hget. rewrite (sell_get _ _ _ _ _ _ _ H t) in Hget.
  destruct (dict_get pf t) as [h0|]; [| discriminate].
  injection Hget as <-.
  destruct (Qlt_bool 0 h0) eqn:E.
  - lra.
  - rewrite <- Qlt_bool_iff. congruence.
Qed.

Lemma buy_OK (data : DataFrame) (bc : Q) (date : Timestamp) (best_asset : Ticker)
  (cash : Q) (pf : Dict Q) (cash' : Q) (pf' : Dict Q) :
  best_asset <> "" ->
  buy data bc date best_asset cash pf = OK (cash', pf') ->
  exists unit_price held,
    price_at data best_asset date = OK unit_price /\
    ~ unit_price * (1 + bc) == 0 /\
    dict_get pf best_asset = Some held /\
    cash' = cash - floordiv cash (unit_price * (1 + bc)) * unit_price * (1 + bc) /\
    pf' = dict_set pf best_asset (held + floordiv cash (unit_price * (1 + bc))).
Proof.
  intros Hne H. unfold buy in H.
  destruct (String.eqb_spec best_asset ""); [contradiction |].
  unbind H. destruct (is_zero (v * (1 + bc))) eqn:Ez; [discriminate |].
  unbind H. injection H as <- <-.
  exists v, v0. apply is_zero_false in Ez. apply getitem_OK in E0. auto.
Qed.

(** The purchase over the rationals: the quantity bought is the greatest
    whole number of units whose cost, commission included, fits in the cash,
    the floor of cash over the unit cost; the cash is debited by exactly
    quantity x price x (1 + commission) and the target's holding, zero after
    the sale, becomes the quantity; with cash short of one unit the quantity
    is 0, the cash is unchanged, and the purchase still succeeds.  With cash
    1,000,000 and a unit cost of 333,334 the quantity is 2 and
    1,000,000 - 2 x 333,334 is left.  In binary64 the first part fails, as
    the evaluation after this lemma shows. *)
Lemma acquisition_floor_exact (data : DataFrame) (buy_commission : Q) (date : Timestamp)
  (best_asset : Ticker) (cash : Q) (pf : Dict Q) (unit_price held : Q) :
  best_asset <> "" ->
  price_at data best_asset date = OK unit_price ->
  dict_get pf best_asset = Some held ->
  0 < unit_price * (1 + buy_commission) ->
  exists (shares : Z) (cash' : Q) (pf' : Dict Q),
    buy data buy_commission date best_asset cash pf = OK (cash', pf') /\
    inject_Z shares = floordiv cash (unit_price * (1 + buy_commission)) /\
    inject_Z shares * unit_price * (1 + buy_commission) <= cash /\
    (forall k : Z, inject_Z k * unit_price * (1 + buy_commission) <= cash ->
                   (k <= shares)%Z) /\
    cash' = cash - inject_Z shares * unit_price * (1 + buy_commission) /\
    dict_get pf' best_asset = Some (held + inject_Z shares) /\
    (forall sell_commission cash0 pf0,
       no_short pf0 ->
       sell data sell_commission date cash0 pf0 = OK (cash, pf) ->
       held + inject_Z shares == inject_Z shares) /\
    (0 <= cash -> cash < unit_price * (1 + buy_commission) ->
     shares = 0%Z /\ cash' == cash) /\
    (cash == 1000000 -> unit_price * (1 + buy_commission) == 333334 ->
     shares = 2%Z /\ cash' == 1000000 - 2 * 333334).
Proof.
  intros Hne Hprice Hheld Hcost.
  set (cost := unit_price * (1 + buy_commission)) in *.
  destruct (floordiv_spec cash cost Hcost) as (Hle & Hmax & Hnn & Hz).
  exists (Qfloor (cash / cost)),
    (cash - floordiv cash cost * unit_price * (1 + buy_commission)),
    (dict_set pf best_asset (held + floordiv cash cost)).
  assert (Hassoc : forall x, x * unit_price * (1 + buy_commission) == x * cost)
    by (intros x; unfold cost; ring).
  split.
  { unfold buy. destruct (String.eqb_spec best_asset ""); [contradiction |].
    rewrite Hprice. simpl bind.
    assert (Ez : is_zero (unit_price * (1 + buy_commission)) = false)
      by (apply is_zero_false; fold cost; lra).
    rewrite Ez. unfold getitem. rewrite Hheld. reflexivity. }
  split; [reflexivity |].
  split; [rewrite Hassoc; exact Hle |].
  split; [intros k Hk; rewrite Zle_Qle; apply Hmax; rewrite <- Hassoc; exact Hk |].
  split; [reflexivity |].
  split; [rewrite dict_get_set, String.eqb_refl; reflexivity |].
  split.
  { intros sc cash0 pf0 Hns Hsell.
    rewrite (sell_get _ _ _ _ _ _ _ Hsell best_asset) in Hheld.
    destruct (dict_get pf0 best_asset) as [h0|] eqn:E0; [| discriminate].
    injection Hheld as Hheld. specialize (Hns _ _ E0).
    destruct (Qlt_bool 0 h0) eqn:Epos.
    - rewrite <- Hheld. ring.
    - assert (~ 0 < h0) by (rewrite <- Qlt_bool_iff; congruence).
      assert (held == 0) by (rewrite <- Hheld; lra).
      lra. }
  split.
  { intros H0 Hlt. pose proof (Hz H0 Hlt) as E.
    unfold floordiv in E.
    assert (Ez : Qfloor (cash / cost) = 0%Z).
    { remember (Qfloor (cash / cost)) as z eqn:Ezz. clear Ezz.
      unfold Qeq in E. simpl in E. lia. }
    split; [exact Ez |]. unfold floordiv. rewrite Ez. ring. }
  intros Hcash Hunit.
  assert (Ez : Qfloor (cash / cost) = 2%Z).
  { assert (Eq : cash / cost == 1000000 / 333334) by (rewrite Hcash, Hunit; reflexivity).
    rewrite Eq. vm_compute. reflexivity. }
  split; [exact Ez |].
  unfold floordiv. rewrite Ez, Hassoc, Hunit, Hcash. reflexivity.
Qed.

Lemma acquisition_floor_exact_witness :
  exists (shares : Z) (cash' : Q) (pf' : Dict Q),
    buy scenario_data (1 # 1000) (mkDate 2023 3 1) "SPY" 1000000
        (new_portfolio tickers) = OK (cash', pf') /\
    shares = 2%Z /\ cash' == 333332 /\
    dict_get pf' "SPY" = Some (0 + inject_Z shares).
Proof.
  destruct (acquisition_floor_exact scenario_data (1 # 1000) (mkDate 2023 3 1) "SPY"
              1000000 (new_portfolio tickers) (333334000 # 1001) 0)
    as (shares & cash' & pf' & Hbuy & _ & _ & _ & _ & Hget & _ & _ & Hscen).
  - discriminate.
  - vm_compute. reflexivity.
  - vm_compute. reflexivity.
  - vm_compute. reflexivity.
  - destruct Hscen as [E2 Ecash]; [reflexivity | vm_compute; reflexivity |].
    exists shares, cash', pf'.
    split; [exact Hbuy |]. split; [exact E2 |].
    split; [rewrite Ecash; vm_compute; reflexivity | exact Hget].
Defined.

(** C2 (the program against the claim): in binary64, with cash
    39820.53074999999, price 134.85 and the default buy commission 0.001,
    line 97 buys 295 shares and line 98 debits 39820.53075, which is more
    than the cash, although 295 times the divisor of line 97 is not.  The
    quantity bought does not satisfy quantity x price x (1 + commission) <=
    cash, neither as the program computes the product nor in exact
    arithmetic on the same three numbers, where the greatest quantity that
    fits is 294.  The scenario of the claim
    (cash 1,000,000, unit cost 333,334) comes out as stated: 2 shares and
    333,332 left. *)
Theorem purchase_quantity_binary64 :
  Binary64.shares_to_buy tight_cash tight_price default_commission = 295%float /\
  Binary64.total_price tight_cash tight_price default_commission
    = 39820.53075%float /\
  (tight_cash <? Binary64.total_price tight_cash tight_price default_commission)%float
    = true /\
  (295 * (tight_price * (1 + default_commission)) <=? tight_cash)%float = true /\
  (exists cash unit_price factor : Q,
     Binary64.to_Q tight_cash = Some cash /\
     Binary64.to_Q tight_price = Some unit_price /\
     Binary64.to_Q (1 + default_commission)%float = Some factor /\
     cash < 295 * unit_price * factor /\
     floordiv cash (unit_price * factor) == 294) /\
  Binary64.shares_to_buy 1000000 333334 0 = 2%float /\
  Binary64.cash_after 1000000 333334 0 = 333332%float.
Proof.
  split; [vm_compute; reflexivity |].
  split; [vm_compute; reflexivity |].
  split; [vm_compute; reflexivity |].
  split; [vm_compute; reflexivity |].
  split; [| split; vm_compute; reflexivity].
  eexists _, _, _.
  split; [vm_compute; reflexivity |].
  split; [vm_compute; reflexivity |].
  split; [vm_compute; reflexivity |].
  split; vm_compute; reflexivity.
Qed.

(** C4: right after the purchase at most one ticker of the whole universe
    has a positive holding. *)
Theorem single_position (data : DataFrame) (buy_commission sell_commission : Q)
  (date : Timestamp) (best_asset : Ticker)
  (cash : Q) (pf : Dict Q) (cash1 : Q) (pf1 : Dict Q) (cash2 : Q) (pf2 : Dict Q) :
  sell data sell_commission date cash pf = OK (cash1, pf1) ->
  buy data buy_commission date best_asset cash1 pf1 = OK (cash2, pf2) ->
  forall t1 t2 h1 h2,
    dict_get pf2 t1 = Some h1 -> dict_get pf2 t2 = Some h2 ->
    0 < h1 -> 0 < h2 -> t1 = t2.
Proof.
  intros Hsell Hbuy.
  assert (Hone : forall t h, dict_get pf2 t = Some h -> 0 < h -> t = best_asset).
  { intros t h Hget Hpos.
    destruct (String.eqb_spec best_asset "") as [Hempty | Hne].
    - unfold buy in Hbuy. rewrite Hempty, String.eqb_refl in Hbuy.
      injection Hbuy as _ <-.
      exfalso. exact (sell_not_positive _ _ _ _ _ _ _ Hsell t h Hget Hpos).
    - destruct (buy_OK _ _ _ _ _ _ _ _ Hne Hbuy) as (p & held & _ & _ & _ & _ & ->).
      rewrite dict_get_set in Hget.
      destruct (String.eqb_spec t best_asset) as [-> | Hn]; [reflexivity |].
      exfalso. exact (sell_not_positive _ _ _ _ _ _ _ Hsell t h Hget Hpos). }
  intros t1 t2 h1 h2 G1 G2 P1 P2.
  rewrite (Hone t1 h1 G1 P1), (Hone t2 h2 G2 P2). reflexivity.
Qed.

Lemma single_position_witness :
  exists cash1 pf1 cash2 pf2,
    sell demo_data (1 # 1000) (mkDate 2023 4 1) 100
         (dict_set (new_portfolio tickers) "SPY" 50) = OK (cash1, pf1) /\
    buy demo_data (1 # 1000) (mkDate 2023 4 1) "QQQ" cash1 pf1 = OK (cash2, pf2) /\
    dict_get pf2 "SPY" = Some 0 /\
    dict_get pf2 "QQQ" = Some (0 + 24) /\
    (forall t1 t2 h1 h2,
       dict_get pf2 t1 = Some h1 -> dict_get pf2 t2 = Some h2 ->
       0 < h1 -> 0 < h2 -> t1 = t2).
Proof.
  destruct (sell demo_data (1 # 1000) (mkDate 2023 4 1) 100
              (dict_set (new_portfolio tickers) "SPY" 50))
    as [[cash1 pf1]|e] eqn:Hsell; [| vm_compute in Hsell; discriminate].
  destruct (buy demo_data (1 # 1000) (mkDate 2023 4 1) "QQQ" cash1 pf1)
    as [[cash2 pf2]|e] eqn:Hbuy;
    [| vm_compute in Hsell; injection Hsell as <- <-;
       vm_compute in Hbuy; discriminate].
  exists cash1, pf1, cash2, pf2.
  split; [reflexivity |]. split; [exact Hbuy |].
  pose proof (single_position demo_data (1 # 1000) (1 # 1000) (mkDate 2023 4 1)
                "QQQ" _ _ _ _ _ _ Hsell Hbuy) as Hone.
  vm_compute in Hsell. injection Hsell as <- <-.
  vm_compute in Hbuy. injection Hbuy as <- <-.
  split; [vm_compute; reflexivity |].
  split; [vm_compute; reflexivity |].
  exact Hone.
Defined.

(* ================================================================== *)
(** * The store *)

Lemma store_length (h : Heap) (l : Loc) (d : Dict Q) :
  List.length (store h l d) = List.length h.
Proof.
  revert l. induction h as [|x rest IH]; intros l; [reflexivity |].
  destruct l; simpl; [reflexivity | rewrite IH; reflexivity].
Qed.

Lemma deref_store_same (h : Heap) (d : Dict Q) :
  h <> [] -> deref (store h portfolio d) portfolio = d.
Proof.
  destruct h; [congruence | reflexivity].
Qed.

Lemma deref_store_other (h : Heap) (l l' : Loc) (d : Dict Q) :
  l <> l' -> deref (store h l d) l' = deref h l'.
Proof.
  revert l l'. induction h as [|x rest IH]; intros l l' Hn; [reflexivity |].
  destruct l, l'; simpl; try reflexivity; [congruence |].
  apply IH. congruence.
Qed.

(* ================================================================== *)
(** * One pass of the loop *)

(** What a successful pass did, phase by phase. *)
Lemma step_OK (data : DataFrame) (bc sc ic : Q) (date : Timestamp) (st st' : State) :
  heap st <> [] ->
  step data bc sc ic date st = OK st' ->
  exists momentum_scores best_asset strategy cash1 pf1 total_value,
    calculate_momentum_scores data date = OK momentum_scores /\
    choose_asset momentum_scores = OK (best_asset, strategy) /\
    sell data sc date (cash st) (holdings st) = OK (cash1, pf1) /\
    buy data bc date best_asset cash1 pf1 = OK (cash st', holdings st') /\
    total_value_of data date (cash st') (holdings st') = OK total_value /\
    heap st' = store (heap st) portfolio (holdings st') ++ [holdings st'] /\
    value_history st' = value_history st ++ [total_value] /\
    trade_history st' =
      trade_history st ++
        [mkRecord date strategy best_asset (cash st') total_value
                  (current_return total_value ic) (List.length (heap st))].
Proof.
  intros Hheap H. unfold step in H.
  unbind H. unbind H. destruct v0 as [best_asset strategy].
  unbind H. destruct v0 as [cash1 pf1].
  unbind H. destruct v0 as [cash2 pf2].
  unbind H. rename v0 into total_value.
  unfold alloc in H. rewrite (deref_store_same _ pf2 Hheap) in H.
  rewrite store_length in H. injection H as <-.
  assert (Hhold : holdings
            {| cash := cash2;
               heap := store (heap st) portfolio pf2 ++ [pf2];
               value_history := value_history st ++ [total_value];
               trade_history := trade_history st ++
                 [mkRecord date strategy best_asset cash2 total_value
                           (current_return total_value ic) (List.length (heap st))] |}
            = pf2).
  { unfold holdings, deref. simpl heap.
    destruct (heap st) as [|x rest]; [congruence | reflexivity]. }
  exists v, best_asset, strategy, cash1, pf1, total_value.
  rewrite Hhold. simpl. repeat split; assumption.
Qed.

Lemma first_maximum_In {A : Type} (key : A -> Score) (l : list A) (best : A) :
  first_maximum key l best -> In best l.
Proof.
  intros (before & after & -> & _). apply in_or_app. right; left; reflexivity.
Qed.

Lemma py_max_In {A : Type} (key : A -> Score) (l : list A) (best : A) :
  py_max key l = OK best -> In best l.
Proof.
  destruct l as [|x rest]; [discriminate |]. intros H.
  injection H as <-.
  exact (first_maximum_In _ _ _ (max_from_first_maximum key rest x)).
Qed.

Lemma choose_asset_In (momentum_scores : Dict Score) (best_asset : Ticker) (strategy : Strategy) :
  choose_asset momentum_scores = OK (best_asset, strategy) ->
  In best_asset tickers.
Proof.
  unfold choose_asset, choose. intros H.
  unbind H. unbind H. unbind H.
  apply py_max_In in E, E0.
  unfold tickers. apply in_or_app.
  destruct v1; injection H as <- _; auto.
Qed.

Lemma tickers_nonempty (t : Ticker) : In t tickers -> t <> "".
Proof.
  intros H. vm_compute in H.
  repeat (destruct H as [<- | H]; [discriminate |]). destruct H.
Qed.

(** C8: every pass sells before it buys, whatever the target: each ticker
    held with a positive quantity is sold in full, the cash receiving
    quantity x as-of price x (1 - sell commission) for it and its holding
    becoming 0; this includes the target itself when it is already held, so
    keeping an asset still means selling it and buying it back. *)
Theorem liquidation_unconditional (data : DataFrame)
  (buy_commission sell_commission initial_cash : Q) (date : Timestamp) (st st' : State) :
  heap st <> [] ->
  is_dict (holdings st) ->
  step data buy_commission sell_commission initial_cash date st = OK st' ->
  exists cash1 pf1 best_asset,
    sell data sell_commission date (cash st) (holdings st) = OK (cash1, pf1) /\
    cash1 == cash st + proceeds data sell_commission date (holdings st)
                                (keys (holdings st)) /\
    (forall t h, dict_get (holdings st) t = Some h -> 0 < h ->
       exists unit_price,
         price_at data t date = OK unit_price /\
         credit data sell_commission date (holdings st) t
           = h * unit_price * (1 - sell_commission) /\
         dict_get pf1 t = Some 0) /\
    (forall t h, dict_get (holdings st) t = Some h -> ~ 0 < h ->
       credit data sell_commission date (holdings st) t == 0 /\
       dict_get pf1 t = Some h) /\
    buy data buy_commission date best_asset cash1 pf1 = OK (cash st', holdings st') /\
    (exists r, trade_history st' = trade_history st ++ [r] /\
               tr_best_asset r = best_asset) /\
    (forall h, dict_get (holdings st) best_asset = Some h -> 0 < h ->
       dict_get pf1 best_asset = Some 0).
Proof.
  intros Hheap Hdict Hstep.
  destruct (step_OK _ _ _ _ _ _ _ Hheap Hstep)
    as (ms & best & strategy & cash1 & pf1 & total & _ & _ & Hsell & Hbuy & _ & _ & _ & Hhist).
  exists cash1, pf1, best.
  assert (Hsold : forall t h, dict_get (holdings st) t = Some h -> 0 < h ->
                              dict_get pf1 t = Some 0).
  { intros t h Hget Hpos. rewrite (sell_get _ _ _ _ _ _ _ Hsell t), Hget.
    rewrite (proj2 (Qlt_bool_iff 0 h) Hpos). reflexivity. }
  split; [exact Hsell |].
  split; [exact (sell_loop_cash _ _ _ _ Hdict _ _ _ _ Hsell) |].
  split.
  { intros t h Hget Hpos.
    destruct (sell_loop_prices _ _ _ _ Hdict _ _ _ _ Hsell t h) as [p Hp]; auto.
    { apply dict_get_keys. congruence. }
    exists p. split; [exact Hp |]. split; [| eauto].
    unfold credit. rewrite Hget, Hp, (proj2 (Qlt_bool_iff 0 h) Hpos). reflexivity. }
  split.
  { intros t h Hget Hnpos.
    assert (E : Qlt_bool 0 h = false).
    { apply not_true_iff_false. rewrite Qlt_bool_iff. assumption. }
    split.
    - unfold credit. rewrite Hget, E. destruct (price_at data t date); reflexivity.
    - rewrite (sell_get _ _ _ _ _ _ _ Hsell t), Hget, E. reflexivity. }
  split; [exact Hbuy |].
  split; [eexists; split; [exact Hhist | reflexivity] |].
  intros h; apply Hsold.
Qed.

(** Settles [NoDup] on a list of distinct string literals. *)
Ltac nodup_strings :=
  repeat (constructor;
          [ let H := fresh in
            simpl; intros H;
            repeat (destruct H as [H | H]; [discriminate |]); exact H | ]);
  try apply NoDup_nil.

Lemma liquidation_unconditional_witness :
  exists st' cash1 pf1,
    step demo_data (1 # 1000) (1 # 1000) 1000 (mkDate 2023 4 1) held_state = OK st' /\
    sell demo_data (1 # 1000) (mkDate 2023 4 1) (cash held_state) (holdings held_state)
      = OK (cash1, pf1) /\
    cash1 == 100 + 10 * 265 * (1 - (1 # 1000)) /\
    dict_get pf1 "QQQ" = Some 0 /\
    buy demo_data (1 # 1000) (mkDate 2023 4 1) "QQQ" cash1 pf1
      = OK (cash st', holdings st').
Proof.
  destruct (step demo_data (1 # 1000) (1 # 1000) 1000 (mkDate 2023 4 1) held_state)
    as [st'|e] eqn:Hstep; [| vm_compute in Hstep; discriminate].
  assert (Hheap : heap held_state <> []) by discriminate.
  assert (Hdict : is_dict (holdings held_state))
    by (unfold is_dict; vm_compute; nodup_strings).
  destruct (liquidation_unconditional demo_data (1 # 1000) (1 # 1000) 1000
              (mkDate 2023 4 1) held_state st' Hheap Hdict Hstep)
    as (cash1 & pf1 & best & Hsell & Hcash & _ & _ & Hbuy & (r & Hr & Hb) & Hhold).
  exists st', cash1, pf1.
  split; [reflexivity |]. split; [exact Hsell |].
  split; [rewrite Hcash; vm_compute; reflexivity |].
  assert (Ebest : best = "QQQ").
  { vm_compute in Hstep. injection Hstep as <-. simpl in Hr.
    injection Hr as <-. simpl in Hb. symmetry; exact Hb. }
  clear Hb. subst best.
  split; [| exact Hbuy].
  apply (Hhold 10); [vm_compute; reflexivity | reflexivity].
Defined.

(** The same for a whole pass: the ledger it leaves holds at most one
    ticker. *)
Lemma step_one_holding (data : DataFrame) (bc sc ic : Q) (date : Timestamp) (st st' : State) :
  heap st <> [] ->
  step data bc sc ic date st = OK st' ->
  forall t1 t2 h1 h2,
    dict_get (holdings st') t1 = Some h1 -> dict_get (holdings st') t2 = Some h2 ->
    0 < h1 -> 0 < h2 -> t1 = t2.
Proof.
  intros Hheap Hstep.
  destruct (step_OK _ _ _ _ _ _ _ Hheap Hstep)
    as (ms & best & strategy & cash1 & pf1 & total & _ & _ & Hsell & Hbuy & _).
  intros t1 t2 h1 h2 G1 G2 P1 P2.
  destruct (String.eqb_spec best "") as [Hempty | Hne].
  - exfalso. unfold buy in Hbuy. rewrite Hempty, String.eqb_refl in Hbuy.
    injection Hbuy as _ E. rewrite <- E in G1.
    exact (sell_not_positive _ _ _ _ _ _ _ Hsell t1 h1 G1 P1).
  - destruct (buy_OK _ _ _ _ _ _ _ _ Hne Hbuy) as (p & held & _ & _ & _ & _ & E).
    rewrite E, dict_get_set in G1, G2.
    destruct (String.eqb_spec t1 best) as [-> | N1];
      [| exfalso; exact (sell_not_positive _ _ _ _ _ _ _ Hsell t1 h1 G1 P1)].
    destruct (String.eqb_spec t2 best) as [-> | N2];
      [reflexivity
      | exfalso; exact (sell_not_positive _ _ _ _ _ _ _ Hsell t2 h2 G2 P2)].
Qed.

(* ================================================================== *)
(** * The ledger never goes negative *)

Lemma sell_loop_keys (data : DataFrame) (sc : Q) (date : Timestamp) (todo : list Ticker) :
  forall cash pf cash1 pf1,
  sell_loop data sc date todo cash pf = OK (cash1, pf1) -> keys pf1 = keys pf.
Proof.
  induction todo as [|t0 rest IH]; intros cash pf cash1 pf1 H.
  - injection H as _ <-. reflexivity.
  - simpl in H. unbind H. apply getitem_OK in E.
    destruct (Qlt_bool 0 v).
    + unbind H. rewrite (IH _ _ _ _ H). apply keys_dict_set. congruence.
    + exact (IH _ _ _ _ H).
Qed.

Section Soundness.

Variable data : DataFrame.
Variables buy_commission sell_commission initial_cash : Q.

Hypothesis prices_positive : positive_prices data.
Hypothesis buy_commission_nonneg : 0 <= buy_commission.
Hypothesis sell_commission_below_one : sell_commission < 1.

Lemma credit_nonneg (date : Timestamp) (pf : Dict Q) (t : Ticker) :
  0 <= credit data sell_commission date pf t.
Proof.
  unfold credit.
  destruct (dict_get pf t) as [h|]; [| lra].
  destruct (price_at data t date) as [p|e] eqn:Ep; [| lra].
  destruct (Qlt_bool 0 h) eqn:Eh; [| lra].
  apply Qlt_bool_iff in Eh.
  apply (price_at_positive _ _ _ _ prices_positive) in Ep.
  apply Qmult_le_0_compat; [apply Qmult_le_0_compat |]; lra.
Qed.

Lemma proceeds_nonneg (date : Timestamp) (pf : Dict Q) (l : list Ticker) :
  0 <= proceeds data sell_commission date pf l.
Proof.
  induction l as [|t rest IH]; simpl; [lra |].
  pose proof (credit_nonneg date pf t). lra.
Qed.

Lemma sell_sound (date : Timestamp) (cash : Q) (pf : Dict Q) (cash1 : Q) (pf1 : Dict Q) :
  0 <= cash -> is_dict pf -> no_short pf ->
  sell data sell_commission date cash pf = OK (cash1, pf1) ->
  0 <= cash1 /\ is_dict pf1 /\ no_short pf1.
Proof.
  intros Hcash Hdict Hns Hsell.
  split; [| split].
  - rewrite (sell_loop_cash _ _ _ _ Hdict _ _ _ _ Hsell).
    pose proof (proceeds_nonneg date pf (keys pf)). lra.
  - unfold is_dict. unfold sell in Hsell.
    rewrite (sell_loop_keys _ _ _ _ _ _ _ _ Hsell). exact Hdict.
  - intros t h Hget. rewrite (sell_get _ _ _ _ _ _ _ Hsell t) in Hget.
    destruct (dict_get pf t) as [h0|] eqn:E0; [| discriminate].
    injection Hget as <-. destruct (Qlt_bool 0 h0); [lra | eauto].
Qed.

Lemma buy_sound (date : Timestamp) (best_asset : Ticker)
  (cash1 : Q) (pf1 : Dict Q) (cash2 : Q) (pf2 : Dict Q) :
  0 <= cash1 -> is_dict pf1 -> no_short pf1 ->
  buy data buy_commission date best_asset cash1 pf1 = OK (cash2, pf2) ->
  0 <= cash2 /\ is_dict pf2 /\ no_short pf2.
Proof.
  intros Hcash Hdict Hns Hbuy.
  destruct (String.eqb_spec best_asset "") as [Hempty | Hne].
  - unfold buy in Hbuy. rewrite Hempty, String.eqb_refl in Hbuy.
    injection Hbuy as <- <-. auto.
  - destruct (buy_OK _ _ _ _ _ _ _ _ Hne Hbuy)
      as (p & held & Hp & _ & Hheld & -> & ->).
    apply (price_at_positive _ _ _ _ prices_positive) in Hp.
    assert (Hcost : 0 < p * (1 + buy_commission))
      by (apply Qmult_lt_0_compat; lra).
    destruct (floordiv_spec cash1 (p * (1 + buy_commission)) Hcost)
      as (Hle & _ & Hnn & _).
    specialize (Hnn Hcash).
    split; [| split].
    + assert (E : floordiv cash1 (p * (1 + buy_commission)) * p * (1 + buy_commission)
                  == floordiv cash1 (p * (1 + buy_commission))
                     * (p * (1 + buy_commission))) by ring.
      rewrite E. lra.
    + unfold is_dict. rewrite keys_dict_set; [exact Hdict | congruence].
    + intros t h Hget. rewrite dict_get_set in Hget.
      destruct (String.eqb t best_asset).
      * injection Hget as <-. specialize (Hns _ _ Hheld). lra.
      * eauto.
Qed.

Lemma step_sound (date : Timestamp) (st st' : State) :
  sound_ledger st ->
  step data buy_commission sell_commission initial_cash date st = OK st' ->
  sound_ledger st'.
Proof.
  intros (Hcash & Hheap & Hdict & Hns) Hstep.
  destruct (step_OK _ _ _ _ _ _ _ Hheap Hstep)
    as (ms & best & strategy & cash1 & pf1 & total
        & _ & _ & Hsell & Hbuy & _ & Hh & _).
  destruct (sell_sound _ _ _ _ _ Hcash Hdict Hns Hsell) as (H1 & D1 & N1).
  destruct (buy_sound _ _ _ _ _ _ H1 D1 N1 Hbuy) as (H2 & D2 & N2).
  unfold sound_ledger. repeat split; try assumption.
  rewrite Hh. intros C. apply app_eq_nil in C. destruct C; discriminate.
Qed.

Lemma run_sound (dates : list Timestamp) :
  forall st st',
  sound_ledger st ->
  (forall r, In r (trade_history st) -> 0 <= tr_cash r) ->
  run data buy_commission sell_commission initial_cash dates st = OK st' ->
  sound_ledger st' /\ (forall r, In r (trade_history st') -> 0 <= tr_cash r).
Proof.
  induction dates as [|date rest IH]; intros st st' Hst Hrec Hrun.
  - injection Hrun as <-. auto.
  - simpl in Hrun. unbind Hrun.
    pose proof (step_sound _ _ _ Hst E) as Hv.
    apply (IH v st' Hv); [| exact Hrun].
    destruct Hst as (_ & Hheap & _).
    destruct (step_OK _ _ _ _ _ _ _ Hheap E)
      as (ms & best & strategy & cash1 & pf1 & total
          & _ & _ & _ & _ & _ & _ & _ & Hh).
    intros r Hr. rewrite Hh in Hr. apply in_app_or in Hr.
    destruct Hr as [Hr | [<- | []]]; [auto |].
    simpl. destruct Hv as [Hc _]. exact Hc.
Qed.

End Soundness.

Lemma new_portfolio_sound : is_dict (new_portfolio tickers) /\ no_short (new_portfolio tickers).
Proof.
  split.
  - unfold is_dict. vm_compute. nodup_strings.
  - intros t h. vm_compute.
    repeat match goal with
    | |- context [if ?b then _ else _] => destruct b
    end; intros H; try discriminate; injection H as <-; discriminate.
Qed.

Lemma initial_state_sound (initial_cash : Q) :
  0 <= initial_cash -> sound_ledger (initial_state initial_cash).
Proof.
  intros H. destruct new_portfolio_sound as [Hd Hn].
  unfold sound_ledger. repeat split; try assumption. discriminate.
Qed.

(** The cash over the rationals: in every run with commission rates in
    [0, 1), a non-negative initial cash and positive prices, the cash is
    never negative: not after any completed step (neither in the ledger nor
    in a record), and not after the sale or after the purchase of the step
    that follows.  In binary64 a purchase can leave it negative, as the
    evaluation after this lemma shows. *)
Lemma cash_never_negative_exact (data : DataFrame) (dates : list Timestamp)
  (initial_cash buy_commission sell_commission : Q) (st : State) :
  0 <= buy_commission -> buy_commission < 1 ->
  0 <= sell_commission -> sell_commission < 1 ->
  0 <= initial_cash ->
  positive_prices data ->
  simulate data dates initial_cash buy_commission sell_commission = OK st ->
  0 <= cash st /\
  (forall r, In r (trade_history st) -> 0 <= tr_cash r) /\
  (forall date cash1 pf1,
     sell data sell_commission date (cash st) (holdings st) = OK (cash1, pf1) ->
     0 <= cash1 /\
     forall best_asset cash2 pf2,
       buy data buy_commission date best_asset cash1 pf1 = OK (cash2, pf2) ->
       0 <= cash2).
Proof.
  intros Hbc _ _ Hsc Hic Hpos Hrun. unfold simulate in Hrun.
  destruct (run_sound data buy_commission sell_commission initial_cash
              Hpos Hbc Hsc dates _ _ (initial_state_sound _ Hic)
              (fun r (H : In r []) => match H with end) Hrun)
    as ((Hcash & Hheap & Hdict & Hns) & Hrec).
  split; [exact Hcash |]. split; [exact Hrec |].
  intros date cash1 pf1 Hsell.
  destruct (sell_sound data sell_commission Hpos Hsc _ _ _ _ _ Hcash Hdict Hns Hsell)
    as (H1 & D1 & N1).
  split; [exact H1 |].
  intros best cash2 pf2 Hbuy.
  exact (proj1 (buy_sound data buy_commission Hpos Hbc _ _ _ _ _ _ H1 D1 N1 Hbuy)).
Qed.

Lemma demo_data_positive : positive_prices demo_data.
Proof.
  intros d t p Hin. vm_compute in Hin.
  repeat (destruct Hin as [<- | Hin];
          [ unfold demo_data, cell, demo_price;
            repeat match goal with
            | |- context [String.eqb t ?s] => destruct (String.eqb t s)
            end;
            intros H; injection H as <-; reflexivity | ]).
  destruct Hin.
Qed.

Lemma cash_never_negative_exact_witness :
  exists st,
    simulate demo_data (date_range (mkDate 2023 3 1) (mkDate 2023 8 7))
             1000000 (1 # 1000) (1 # 1000) = OK st /\
    0 <= cash st /\
    (forall r, In r (trade_history st) -> 0 <= tr_cash r) /\
    List.length (trade_history st) = 6%nat.
Proof.
  destruct (simulate demo_data (date_range (mkDate 2023 3 1) (mkDate 2023 8 7))
              1000000 (1 # 1000) (1 # 1000)) as [st|e] eqn:Hrun;
    [| vm_compute in Hrun; discriminate].
  exists st. split; [reflexivity |].
  assert (H0 : 0 <= 1 # 1000) by (unfold Qle; simpl; lia).
  assert (H1 : 1 # 1000 < 1) by reflexivity.
  assert (Hic : 0 <= 1000000) by (unfold Qle; simpl; lia).
  destruct (cash_never_negative_exact demo_data
              (date_range (mkDate 2023 3 1) (mkDate 2023 8 7))
              1000000 (1 # 1000) (1 # 1000) st H0 H1 H0 H1 Hic
              demo_data_positive Hrun) as (Hc & Hr & _).
  split; [exact Hc |]. split; [exact Hr |].
  vm_compute in Hrun. injection Hrun as <-. reflexivity.
Defined.

(** C3 (the program against the claim): in binary64 the purchase of a first
    step, where the cash is still the initial cash, can leave the cash
    negative with a commission in [0, 1), a non-negative cash and a positive
    price.  With cash 39820.53074999999, price 134.85 and the default
    commission 0.001 lines 97-100 leave -2^-37 (about -7.3e-12); with cash
    6, price 1.6 and commission 0.25 they leave -2^-50 (about -8.9e-16). *)
Theorem cash_negative_binary64 :
  ((0 <=? default_commission) && (default_commission <? 1)
   && (0 <=? tight_cash) && (0 <? tight_price))%float = true /\
  Binary64.cash_after tight_cash tight_price default_commission
    = (-0x1p-37)%float /\
  (Binary64.cash_after tight_cash tight_price default_commission <? 0)%float
    = true /\
  Binary64.shares_to_buy 6 1.6 0.25 = 3%float /\
  Binary64.total_price 6 1.6 0.25 = 6.000000000000001%float /\
  Binary64.cash_after 6 1.6 0.25 = (-0x1p-50)%float /\
  (Binary64.cash_after 6 1.6 0.25 <? 0)%float = true.
Proof.
  repeat split; vm_compute; reflexivity.
Qed.

(* ================================================================== *)
(** * The history and its snapshots *)

Lemma run_app (data : DataFrame) (bc sc ic : Q) (ds1 ds2 : list Timestamp) :
  forall st,
  run data bc sc ic (ds1 ++ ds2) st =
  (st1 <- run data bc sc ic ds1 st ;; run data bc sc ic ds2 st1).
Proof.
  induction ds1 as [|d rest IH]; intros st; [reflexivity |].
  simpl. destruct (step data bc sc ic d st) as [st'|e]; simpl; [apply IH | reflexivity].
Qed.

(** What a pass does to the store and to the trade history. *)
Lemma step_frame (data : DataFrame) (bc sc ic : Q) (date : Timestamp) (st st' : State) :
  heap st <> [] ->
  step data bc sc ic date st = OK st' ->
  List.length (heap st') = S (List.length (heap st)) /\
  (forall l, l <> portfolio -> (l < List.length (heap st))%nat ->
             deref (heap st') l = deref (heap st) l) /\
  exists r, trade_history st' = trade_history st ++ [r] /\
            tr_portfolio r = List.length (heap st) /\
            deref (heap st') (tr_portfolio r) = holdings st'.
Proof.
  intros Hheap Hstep.
  destruct (step_OK _ _ _ _ _ _ _ Hheap Hstep)
    as (ms & best & strategy & cash1 & pf1 & total & _ & _ & _ & _ & _ & Hh & _ & Hhist).
  split; [| split].
  - rewrite Hh, length_app, store_length. simpl. lia.
  - intros l Hl Hlt. rewrite Hh. unfold deref.
    rewrite app_nth1 by (rewrite store_length; assumption).
    apply deref_store_other. congruence.
  - eexists. split; [exact Hhist |]. split; [reflexivity |].
    simpl tr_portfolio. rewrite Hh. unfold deref.
    rewrite app_nth2 by (rewrite store_length; lia).
    rewrite store_length, Nat.sub_diag. reflexivity.
Qed.

Lemma step_heap_nonempty (data : DataFrame) (bc sc ic : Q) (date : Timestamp) (st st' : State) :
  heap st <> [] -> step data bc sc ic date st = OK st' -> heap st' <> [].
Proof.
  intros Hheap Hstep. destruct (step_frame _ _ _ _ _ _ _ Hheap Hstep) as [Hlen _].
  destruct (heap st'); [discriminate | congruence].
Qed.

(** A run only appends to the trade history, and leaves every dict of the
    store but the live one as it was. *)
Lemma run_frame (data : DataFrame) (bc sc ic : Q) (dates : list Timestamp) :
  forall st st',
  heap st <> [] ->
  run data bc sc ic dates st = OK st' ->
  heap st' <> [] /\
  (List.length (heap st) <= List.length (heap st'))%nat /\
  (forall l, l <> portfolio -> (l < List.length (heap st))%nat ->
             deref (heap st') l = deref (heap st) l) /\
  exists new, trade_history st' = trade_history st ++ new /\
              List.length new = List.length dates.
Proof.
  induction dates as [|d rest IH]; intros st st' Hheap Hrun.
  - injection Hrun as <-. repeat split; auto.
    exists []. rewrite app_nil_r. auto.
  - simpl in Hrun. unbind Hrun.
    destruct (step_frame _ _ _ _ _ _ _ Hheap E) as (Hlen & Hfr & r & Hhist & _).
    pose proof (step_heap_nonempty _ _ _ _ _ _ _ Hheap E) as Hheap'.
    destruct (IH _ _ Hheap' Hrun) as (Hne & Hle & Hfr' & new & Hhist' & Hnew).
    split; [exact Hne |]. split; [lia |]. split.
    + intros l Hl Hlt. rewrite Hfr' by (auto; lia). apply Hfr; assumption.
    + exists (r :: new). split; [| simpl; congruence].
      rewrite Hhist', Hhist, <- app_assoc. reflexivity.
Qed.

Lemma step_snapshots (data : DataFrame) (bc sc ic : Q) (date : Timestamp) (st st' : State) :
  snapshots_in_place st ->
  step data bc sc ic date st = OK st' ->
  snapshots_in_place st'.
Proof.
  intros [Hlen Hloc] Hstep.
  assert (Hheap : heap st <> []) by (destruct (heap st); [discriminate | congruence]).
  destruct (step_frame _ _ _ _ _ _ _ Hheap Hstep) as (Hlen' & _ & r & Hhist & Hr & _).
  split.
  - rewrite Hlen', Hhist, length_app, Hlen. simpl. lia.
  - intros k r0 Hk. rewrite Hhist in Hk.
    destruct (Nat.lt_ge_cases k (List.length (trade_history st))) as [Hlt | Hge].
    + rewrite nth_error_app1 in Hk by assumption. apply Hloc; assumption.
    + rewrite nth_error_app2 in Hk by assumption.
      destruct (k - List.length (trade_history st))%nat as [|n] eqn:En.
      * injection Hk as <-. rewrite Hr, Hlen. f_equal. lia.
      * destruct n; discriminate.
Qed.

Lemma run_snapshots (data : DataFrame) (bc sc ic : Q) (dates : list Timestamp) :
  forall st st',
  snapshots_in_place st ->
  run data bc sc ic dates st = OK st' ->
  snapshots_in_place st'.
Proof.
  induction dates as [|d rest IH]; intros st st' Hinv Hrun.
  - injection Hrun as <-. assumption.
  - simpl in Hrun. unbind Hrun. eapply IH; [| exact Hrun].
    eapply step_snapshots; eauto.
Qed.

(** After a run that made at least one pass, the last record's snapshot is
    the ledger's holdings. *)
Lemma run_last_snapshot (data : DataFrame) (bc sc ic : Q) (dates : list Timestamp) :
  forall st st',
  heap st <> [] ->
  (forall hist r, trade_history st = hist ++ [r] ->
                  deref (heap st) (tr_portfolio r) = holdings st) ->
  run data bc sc ic dates st = OK st' ->
  forall hist r, trade_history st' = hist ++ [r] ->
                 deref (heap st') (tr_portfolio r) = holdings st'.
Proof.
  induction dates as [|d rest IH]; intros st st' Hheap Hlast Hrun.
  - injection Hrun as <-. assumption.
  - simpl in Hrun. unbind Hrun.
    destruct (step_frame _ _ _ _ _ _ _ Hheap E) as (_ & _ & r & Hhist & _ & Hsnap).
    apply (IH v st'); [eapply step_heap_nonempty; eauto | | exact Hrun].
    intros hist r0 Hh. rewrite Hhist in Hh.
    apply app_inj_tail in Hh. destruct Hh as [_ <-]. exact Hsnap.
Qed.

Lemma initial_snapshots (initial_cash : Q) : snapshots_in_place (initial_state initial_cash).
Proof.
  split; [reflexivity |]. intros k r H. destruct k; discriminate.
Qed.

(** C10: a record's holdings are a copy of their own.  Between the end of
    step i (state [st_i]) and the end of any later step j of the same run
    (state [st_j]) the history only grows at its end; no record of [st_i]
    refers to the live dict, and the dict it refers to is the same in the
    later store; for the record of step i that dict is the ledger's
    holdings as they were at the end of step i. *)
Theorem snapshots_immutable (data : DataFrame)
  (initial_cash buy_commission sell_commission : Q)
  (ds1 ds2 : list Timestamp) (st_i st_j : State) :
  simulate data ds1 initial_cash buy_commission sell_commission = OK st_i ->
  run data buy_commission sell_commission initial_cash ds2 st_i = OK st_j ->
  simulate data (ds1 ++ ds2) initial_cash buy_commission sell_commission = OK st_j /\
  (exists new, trade_history st_j = trade_history st_i ++ new /\
               List.length new = List.length ds2) /\
  (forall r, In r (trade_history st_i) ->
     tr_portfolio r <> portfolio /\
     deref (heap st_j) (tr_portfolio r) = deref (heap st_i) (tr_portfolio r)) /\
  (forall hist r, trade_history st_i = hist ++ [r] ->
     deref (heap st_i) (tr_portfolio r) = holdings st_i /\
     deref (heap st_j) (tr_portfolio r) = holdings st_i).
Proof.
  intros Hi Hj. unfold simulate in *.
  pose proof (run_snapshots _ _ _ _ _ _ _ (initial_snapshots initial_cash) Hi)
    as [Hlen Hloc].
  assert (Hheap : heap st_i <> [])
    by (destruct (heap st_i); [discriminate | congruence]).
  destruct (run_frame _ _ _ _ _ _ _ Hheap Hj) as (_ & _ & Hfr & Hnew).
  assert (Hrec : forall r, In r (trade_history st_i) ->
            tr_portfolio r <> portfolio /\
            deref (heap st_j) (tr_portfolio r) = deref (heap st_i) (tr_portfolio r)).
  { intros r Hr. apply In_nth_error in Hr. destruct Hr as [k Hk].
    pose proof (Hloc _ _ Hk) as Hl.
    assert (Hk' : (k < List.length (trade_history st_i))%nat)
      by (apply nth_error_Some; congruence).
    assert (Hp : tr_portfolio r <> portfolio) by (rewrite Hl; discriminate).
    split; [exact Hp |]. apply Hfr; [exact Hp | lia]. }
  split; [rewrite run_app, Hi; exact Hj |].
  split; [exact Hnew |]. split; [exact Hrec |].
  intros hist r Hh.
  assert (Hsnap : deref (heap st_i) (tr_portfolio r) = holdings st_i).
  { apply (run_last_snapshot _ _ _ _ _ _ _
             (ltac:(discriminate) : heap (initial_state initial_cash) <> [])
             (fun hist0 r0 (H : trade_history (initial_state initial_cash) = hist0 ++ [r0]) =>
                match app_cons_not_nil hist0 [] r0 H with end)
             Hi hist r Hh). }
  split; [exact Hsnap |].
  rewrite <- Hsnap. apply Hrec. rewrite Hh. apply in_or_app. right; left; reflexivity.
Qed.

Lemma snapshots_immutable_witness :
  simulate demo_data [mkDate 2023 3 1; mkDate 2023 4 1] 1000000 (1 # 1000) (1 # 1000)
    = OK demo_state_2 /\
  run demo_data (1 # 1000) (1 # 1000) 1000000 [mkDate 2023 5 1; mkDate 2023 6 1]
      demo_state_2 = OK demo_state_4 /\
  (forall hist r, trade_history demo_state_2 = hist ++ [r] ->
     deref (heap demo_state_4) (tr_portfolio r) = holdings demo_state_2) /\
  List.length (trade_history demo_state_2) = 2%nat /\
  dict_get (holdings demo_state_2) "QQQ" = Some 3834 /\
  dict_get (holdings demo_state_4) "QQQ" = Some 3819.
Proof.
  assert (Hi : simulate demo_data [mkDate 2023 3 1; mkDate 2023 4 1]
                        1000000 (1 # 1000) (1 # 1000) = OK demo_state_2)
    by (vm_compute; reflexivity).
  assert (Hj : run demo_data (1 # 1000) (1 # 1000) 1000000
                   [mkDate 2023 5 1; mkDate 2023 6 1] demo_state_2 = OK demo_state_4)
    by (vm_compute; reflexivity).
  destruct (snapshots_immutable demo_data 1000000 (1 # 1000) (1 # 1000)
              [mkDate 2023 3 1; mkDate 2023 4 1] [mkDate 2023 5 1; mkDate 2023 6 1]
              demo_state_2 demo_state_4 Hi Hj) as (_ & _ & _ & Hlast).
  split; [exact Hi |]. split; [exact Hj |].
  split; [intros hist r Hh; exact (proj2 (Hlast hist r Hh)) |].
  split; [reflexivity |]. split; vm_compute; reflexivity.
Defined.

(* ================================================================== *)
(** * The figures returned *)

Lemma step_histories (data : DataFrame) (bc sc ic : Q) (date : Timestamp) (st st' : State) :
  heap st <> [] -> histories_agree st ->
  step data bc sc ic date st = OK st' ->
  histories_agree st'.
Proof.
  intros Hheap Hag Hstep.
  destruct (step_OK _ _ _ _ _ _ _ Hheap Hstep)
    as (ms & best & strategy & cash1 & pf1 & total & _ & _ & _ & _ & _ & _ & Hv & Hh).
  unfold histories_agree in *. rewrite Hv, Hh, map_app, Hag. reflexivity.
Qed.

Lemma run_histories (data : DataFrame) (bc sc ic : Q) (dates : list Timestamp) :
  forall st st',
  heap st <> [] -> histories_agree st ->
  run data bc sc ic dates st = OK st' ->
  histories_agree st'.
Proof.
  induction dates as [|d rest IH]; intros st st' Hheap Hag Hrun.
  - injection Hrun as <-. assumption.
  - simpl in Hrun. unbind Hrun. apply (IH v st'); [| | exact Hrun].
    + eapply step_heap_nonempty; eauto.
    + eapply step_histories; eauto.
Qed.

Lemma last_value_OK (l : list Q) (v : Q) :
  last_value l = OK v -> exists front, l = front ++ [v].
Proof.
  unfold last_value. intros H.
  destruct (rev l) as [|x rest] eqn:E; [discriminate |].
  injection H as ->. exists (rev rest).
  rewrite <- (rev_involutive l), E. reflexivity.
Qed.

Lemma map_snoc_inv {A B : Type} (f : A -> B) (l : list A) (front : list B) (v : B) :
  map f l = front ++ [v] -> exists l' r, l = l' ++ [r] /\ f r = v.
Proof.
  induction l as [|x l' _] using rev_ind; intros H.
  - destruct front; discriminate.
  - rewrite map_app in H. simpl in H. apply app_inj_tail in H.
    destruct H as [_ Hv]. exists l', x. auto.
Qed.

Lemma annual_return_OK (final_value initial_cash : Q) (n : nat) (a : R) :
  annual_return final_value initial_cash n = OK a ->
  ~ initial_cash == 0 /\
  (0 < final_value / initial_cash ->
   a = ((Rpower (Q2R (final_value / initial_cash)) (1 / (INR n / 12)) - 1) * 100)%R) /\
  (final_value / initial_cash == 0 -> a = ((0 - 1) * 100)%R).
Proof.
  unfold annual_return. intros H.
  destruct (is_zero initial_cash) eqn:Ez; [discriminate |].
  apply is_zero_false in Ez. split; [exact Ez |].
  destruct (Qlt_bool (final_value / initial_cash) 0) eqn:En; [discriminate |].
  destruct (is_zero (final_value / initial_cash)) eqn:Er.
  - apply is_zero_iff in Er. injection H as <-.
    split; [intros Hp; rewrite Er in Hp; discriminate | reflexivity].
  - apply is_zero_false in Er. injection H as <-.
    split; [reflexivity | intros C; contradiction].
Qed.

(** C9, as the code has it: the final value returned is the total value of
    the last record, there is one record per scheduled date, and the
    annualized return is returned in percent: ((final / initial) ^ (12 /
    number of steps) - 1) x 100. *)
Theorem final_figures (data : DataFrame) (dates : list Timestamp)
  (initial_cash buy_commission sell_commission : Q) (st : State)
  (final_value : Q) (annual : R) :
  simulate data dates initial_cash buy_commission sell_commission = OK st ->
  returned st dates initial_cash = OK (final_value, annual) ->
  (exists hist r, trade_history st = hist ++ [r] /\ tr_total_value r = final_value) /\
  List.length (trade_history st) = List.length dates /\
  (0 < final_value / initial_cash ->
   annual = ((Rpower (Q2R (final_value / initial_cash))
                     (12 / INR (List.length dates)) - 1) * 100)%R).
Proof.
  intros Hrun Hret. unfold simulate in Hrun.
  assert (Hheap : heap (initial_state initial_cash) <> []) by discriminate.
  pose proof (run_histories _ _ _ _ _ _ _ Hheap eq_refl Hrun) as Hag.
  destruct (run_frame _ _ _ _ _ _ _ Hheap Hrun) as (_ & _ & _ & new & Hnew & Hlen).
  simpl in Hnew. subst new.
  unfold returned in Hret. unbind Hret. unbind Hret. injection Hret as <- <-.
  apply last_value_OK in E. destruct E as [front Hfront].
  assert (Hn : (0 < List.length dates)%nat).
  { rewrite <- Hlen, <- (length_map tr_total_value). fold (histories_agree st) in Hag.
    unfold histories_agree in Hag. rewrite <- Hag, Hfront, length_app. simpl. lia. }
  split; [| split; [exact Hlen |]].
  - unfold histories_agree in Hag. rewrite Hfront in Hag.
    symmetry in Hag. exact (map_snoc_inv _ _ _ _ Hag).
  - intros Hpos. destruct (annual_return_OK _ _ _ _ E0) as (_ & Hp & _).
    rewrite (Hp Hpos). do 3 f_equal.
    assert (Hr : (0 < INR (List.length dates))%R) by (apply lt_0_INR; exact Hn).
    field. Lra.lra.
Qed.

Lemma annual_return_pos (final_value initial_cash : Q) (n : nat) :
  ~ initial_cash == 0 -> 0 < final_value / initial_cash ->
  annual_return final_value initial_cash n =
  OK ((Rpower (Q2R (final_value / initial_cash)) (1 / (INR n / 12)) - 1) * 100)%R.
Proof.
  intros Hic Hpos. unfold annual_return.
  rewrite (proj2 (is_zero_false initial_cash) Hic).
  assert (E1 : Qlt_bool (final_value / initial_cash) 0 = false).
  { apply not_true_iff_false. rewrite Qlt_bool_iff. lra. }
  assert (E2 : is_zero (final_value / initial_cash) = false).
  { apply is_zero_false. lra. }
  rewrite E1, E2. reflexivity.
Qed.

Lemma demo_run_1 :
  simulate demo_data [mkDate 2023 3 1] 1000000 (1 # 1000) (1 # 1000) = OK demo_state_1 /\
  last_value (value_history demo_state_1) = OK demo_final_1 /\
  ~ 1000000 == 0 /\
  0 < demo_final_1 / 1000000 /\
  demo_final_1 / 1000000 < 1.
Proof.
  split; [vm_compute; reflexivity |].
  split; [vm_compute; reflexivity |].
  split; [discriminate |].
  split; reflexivity.
Qed.

Lemma demo_returned_1 :
  returned demo_state_1 [mkDate 2023 3 1] 1000000 =
  OK (demo_final_1,
      ((Rpower (Q2R (demo_final_1 / 1000000)) (1 / (INR 1 / 12)) - 1) * 100)%R).
Proof.
  destruct demo_run_1 as (_ & Hlast & Hic & Hpos & _).
  unfold returned. rewrite Hlast. unfold bind.
  change (List.length [mkDate 2023 3 1]) with 1%nat.
  rewrite (annual_return_pos _ _ 1 Hic Hpos). reflexivity.
Qed.

Lemma final_figures_witness :
  (exists hist r, trade_history demo_state_1 = hist ++ [r] /\
                  tr_total_value r = demo_final_1) /\
  List.length (trade_history demo_state_1) = 1%nat /\
  ((Rpower (Q2R (demo_final_1 / 1000000)) (1 / (INR 1 / 12)) - 1) * 100)%R =
  ((Rpower (Q2R (demo_final_1 / 1000000)) (12 / INR 1) - 1) * 100)%R.
Proof.
  destruct (final_figures demo_data [mkDate 2023 3 1] 1000000 (1 # 1000) (1 # 1000)
              demo_state_1 demo_final_1 _ (proj1 demo_run_1) demo_returned_1)
    as (Hlast & Hlen & Hannual).
  split; [exact Hlast |]. split; [exact Hlen |].
  apply Hannual. reflexivity.
Defined.

(** C9, as the specification words it, does not hold: after the one-step run on [demo_data]
    the annualized return that is returned is not (final / initial) ^ (12 /
    number of steps) - 1; it is a hundred times that. *)
Lemma annual_return_not_fraction :
  exists st final_value annual,
    simulate demo_data [mkDate 2023 3 1] 1000000 (1 # 1000) (1 # 1000) = OK st /\
    returned st [mkDate 2023 3 1] 1000000 = OK (final_value, annual) /\
    annual <> (Rpower (Q2R (final_value / 1000000))
                      (12 / INR (List.length [mkDate 2023 3 1])) - 1)%R.
Proof.
  destruct demo_run_1 as (Hrun & _ & _ & Hpos & Hlt).
  exists demo_state_1, demo_final_1,
    ((Rpower (Q2R (demo_final_1 / 1000000)) (1 / (INR 1 / 12)) - 1) * 100)%R.
  split; [exact Hrun |]. split; [exact demo_returned_1 |].
  change (List.length [mkDate 2023 3 1]) with 1%nat.
  apply Qlt_Rlt in Hpos, Hlt.
  rewrite RMicromega.Q2R_0 in Hpos. rewrite RMicromega.Q2R_1 in Hlt.
  remember (Q2R (demo_final_1 / 1000000)) as q eqn:Eq. clear Eq.
  replace (1 / (INR 1 / 12))%R with 12%R by (simpl; field).
  replace (12 / INR 1)%R with 12%R by (simpl; field).
  assert (Hln : (ln q < 0)%R).
  { rewrite <- ln_1. apply ln_increasing; assumption. }
  assert (Hp : (Rpower q 12 < 1)%R).
  { unfold Rpower. rewrite <- exp_0. apply exp_increasing. Lra.lra. }
  intros C. Lra.lra.
Qed.

(* ================================================================== *)
(** * The schedule *)

Lemma month_index_add_months (d : Timestamp) (k : Z) :
  month_index (add_months d k) = (month_index d + k)%Z /\
  (1 <= month (add_months d k) <= 12)%Z.
Proof.
  unfold month_index, add_months. simpl.
  pose proof (Z.div_mod (year d * 12 + (month d - 1) + k) 12).
  pose proof (Z.mod_pos_bound (year d * 12 + (month d - 1) + k) 12).
  lia.
Qed.

Lemma past_the_end (cur end_date : Timestamp) :
  (1 <= month cur <= 12)%Z -> (1 <= month end_date <= 12)%Z ->
  (month_index end_date < month_index cur)%Z ->
  date_leb cur end_date = false.
Proof.
  intros Hc He Hlt. apply date_leb_false. apply date_ltb_lt.
  unfold month_index in Hlt. lia.
Qed.

(** The fuel of [date_range] is enough: more of it yields the same dates. *)
Lemma date_range_from_stable (end_date : Timestamp) :
  (1 <= month end_date <= 12)%Z ->
  forall fuel cur extra,
  (1 <= month cur <= 12)%Z ->
  (month_index end_date - month_index cur + 1 <= Z.of_nat fuel)%Z ->
  date_range_from (fuel + extra) cur end_date = date_range_from fuel cur end_date.
Proof.
  intros He. induction fuel as [|fuel IH]; intros cur extra Hc Hfuel.
  - simpl. destruct extra; [reflexivity |]. simpl.
    rewrite past_the_end by (auto; lia). reflexivity.
  - simpl. destruct (date_leb cur end_date); [| reflexivity].
    f_equal. destruct (month_index_add_months cur 1) as [Hmi Hm].
    apply IH; [exact Hm | lia].
Qed.

Lemma date_range_complete (start end_date : Timestamp) (extra : nat) :
  (1 <= month start <= 12)%Z -> (1 <= month end_date <= 12)%Z ->
  date_range_from
    (Z.to_nat (month_index end_date - month_index start + 1) + extra)
    start end_date
  = date_range start end_date.
Proof.
  intros Hs He. unfold date_range. apply date_range_from_stable; auto. lia.
Qed.

(* ================================================================== *)
(** * More on the resolver *)

Lemma date_leb_refl (a : Timestamp) : date_leb a a = true.
Proof. apply date_leb_le. right; reflexivity. Qed.

Lemma date_leb_antisym (a b : Timestamp) :
  date_leb a b = true -> date_leb b a = true -> a = b.
Proof.
  rewrite !date_leb_le. intros [H1 | H1] [H2 | H2]; auto.
  pose proof (date_ltb_trans _ _ _ H1 H2) as C.
  rewrite date_ltb_irrefl in C. discriminate.
Qed.

(** The date the resolver answers, characterised: the greatest observed
    date not after the target. *)
Lemma get_closest_date_char (data : DataFrame) (ticker : Ticker) (date r : Timestamp) :
  strictly_increasing (index data) = true ->
  In_tickers ticker (columns data) = true ->
  (get_closest_date data ticker date = OK (Some r) <->
   observed data ticker r /\ date_leb r date = true /\
   (forall d, observed data ticker d -> date_leb d date = true ->
              date_leb d r = true)).
Proof.
  intros Hs Hcol.
  assert (Hf : strictly_increasing (dropna_index data ticker) = true)
    by (apply strictly_increasing_filter; assumption).
  unfold get_closest_date. rewrite Hcol.
  destruct (In_dates date (dropna_index data ticker)) eqn:Ein; simpl.
  - apply In_dates_iff, dropna_index_In in Ein. split.
    + intros H. injection H as <-.
      split; [exact Ein |]. split; [apply date_leb_refl | auto].
    + intros (Hobs & Hle & Hmax). do 2 f_equal.
      apply date_leb_antisym; [| exact Hle].
      apply Hmax; [exact Ein | apply date_leb_refl].
  - split.
    + intros H. injection H as H.
      destruct (asof_Some _ _ _ Hf H) as (Hin & Hle & Hmax).
      split; [apply dropna_index_In; exact Hin |]. split; [exact Hle |].
      intros d Hd Hdle. apply Hmax; [apply dropna_index_In; exact Hd | exact Hdle].
    + intros (Hobs & Hle & Hmax).
      destruct (asof (dropna_index data ticker) date) as [r'|] eqn:Er.
      * destruct (asof_Some _ _ _ Hf Er) as (Hin' & Hle' & Hmax').
        do 2 f_equal. apply date_leb_antisym.
        -- apply Hmax; [apply dropna_index_In; exact Hin' | exact Hle'].
        -- apply Hmax'; [apply dropna_index_In; exact Hobs | exact Hle].
      * exfalso. pose proof (proj1 (asof_None _ date Hf) Er r
                               (proj2 (dropna_index_In _ _ _) Hobs)) as C.
        congruence.
Qed.

Lemma get_closest_date_column (data : DataFrame) (ticker : Ticker) (date : Timestamp)
  (x : option Timestamp) :
  get_closest_date data ticker date = OK x ->
  In_tickers ticker (columns data) = true.
Proof.
  unfold get_closest_date.
  destruct (In_tickers ticker (columns data)); [reflexivity | discriminate].
Qed.

(** X1: the date the resolver answers is an observed date not after the
    target, resolving it again gives it back, and every target between it
    and the original target resolves to it as well (the last observation is
    carried forward). *)
Theorem resolver_carries_forward (data : DataFrame) (ticker : Ticker)
  (date r : Timestamp) :
  strictly_increasing (index data) = true ->
  get_closest_date data ticker date = OK (Some r) ->
  observed data ticker r /\
  date_leb r date = true /\
  get_closest_date data ticker r = OK (Some r) /\
  (forall date', date_leb r date' = true -> date_leb date' date = true ->
                 get_closest_date data ticker date' = OK (Some r)).
Proof.
  intros Hs H.
  pose proof (get_closest_date_column _ _ _ _ H) as Hcol.
  destruct (proj1 (get_closest_date_char _ _ _ _ Hs Hcol) H) as (Hobs & Hle & Hmax).
  assert (Hbetween : forall date', date_leb r date' = true ->
            date_leb date' date = true ->
            get_closest_date data ticker date' = OK (Some r)).
  { intros date' H1 H2. apply (get_closest_date_char _ _ _ _ Hs Hcol).
    split; [exact Hobs |]. split; [exact H1 |].
    intros d Hd Hdle. apply Hmax; [exact Hd |].
    eapply date_leb_trans; eauto. }
  split; [exact Hobs |]. split; [exact Hle |].
  split; [apply Hbetween; [apply date_leb_refl | exact Hle] | exact Hbetween].
Qed.

Lemma resolver_carries_forward_witness :
  get_closest_date demo_data "SPY" (mkDate 2023 3 20) = OK (Some (mkDate 2023 3 1)) /\
  get_closest_date demo_data "SPY" (mkDate 2023 3 1) = OK (Some (mkDate 2023 3 1)) /\
  get_closest_date demo_data "SPY" (mkDate 2023 3 9) = OK (Some (mkDate 2023 3 1)).
Proof.
  assert (Hs : strictly_increasing (index demo_data) = true)
    by (vm_compute; reflexivity).
  assert (H : get_closest_date demo_data "SPY" (mkDate 2023 3 20)
              = OK (Some (mkDate 2023 3 1))) by (vm_compute; reflexivity).
  destruct (resolver_carries_forward demo_data "SPY" (mkDate 2023 3 20)
              (mkDate 2023 3 1) Hs H) as (_ & _ & Hsame & Hbetween).
  split; [exact H |]. split; [exact Hsame |].
  apply Hbetween; vm_compute; reflexivity.
Defined.

(** X2: the resolver is monotone: when a target resolves, every later
    target resolves too, to a date that is not earlier. *)
Theorem resolver_monotone (data : DataFrame) (ticker : Ticker)
  (date1 date2 r1 : Timestamp) :
  strictly_increasing (index data) = true ->
  date_leb date1 date2 = true ->
  get_closest_date data ticker date1 = OK (Some r1) ->
  exists r2, get_closest_date data ticker date2 = OK (Some r2) /\
             date_leb r1 r2 = true.
Proof.
  intros Hs H12 H.
  pose proof (get_closest_date_column _ _ _ _ H) as Hcol.
  destruct (proj1 (get_closest_date_char _ _ _ _ Hs Hcol) H) as (Hobs & Hle & _).
  assert (Hle2 : date_leb r1 date2 = true) by (eapply date_leb_trans; eauto).
  assert (Hf : strictly_increasing (dropna_index data ticker) = true)
    by (apply strictly_increasing_filter; assumption).
  destruct (get_closest_date data ticker date2) as [[r2|]|e] eqn:E2.
  - exists r2. split; [reflexivity |].
    destruct (proj1 (get_closest_date_char _ _ _ _ Hs Hcol) E2) as (_ & _ & Hmax).
    apply Hmax; assumption.
  - exfalso. unfold get_closest_date in E2. rewrite Hcol in E2.
    destruct (In_dates date2 (dropna_index data ticker)); simpl in E2;
      [discriminate |].
    injection E2 as E2.
    pose proof (proj1 (asof_None _ date2 Hf) E2 r1
                  (proj2 (dropna_index_In _ _ _) Hobs)) as C.
    congruence.
  - exfalso. unfold get_closest_date in E2. rewrite Hcol in E2.
    destruct (negb _); discriminate.
Qed.

Lemma resolver_monotone_witness :
  exists r2,
    get_closest_date demo_data "SPY" (mkDate 2023 5 20) = OK (Some r2) /\
    date_leb (mkDate 2023 3 1) r2 = true.
Proof.
  apply (resolver_monotone demo_data "SPY" (mkDate 2023 3 20) (mkDate 2023 5 20)
           (mkDate 2023 3 1)); vm_compute; reflexivity.
Defined.

(* ================================================================== *)
(** * More on the scorer *)

(** One resolution followed by its price lookup, when both succeed. *)
Lemma resolve_and_read (data : DataFrame) (ticker : Ticker) (date : Timestamp)
  (x : option Timestamp) (c : Cell) :
  strictly_increasing (index data) = true ->
  get_closest_date data ticker date = OK x ->
  loc data x ticker = OK c ->
  exists r p, x = Some r /\ c = Some p /\
              observed data ticker r /\ cell data r ticker = Some p /\
              date_leb r date = true.
Proof.
  intros Hs Hg Hl. destruct x as [r|]; [| discriminate].
  pose proof (get_closest_date_column _ _ _ _ Hg) as Hcol.
  destruct (proj1 (get_closest_date_char _ _ _ _ Hs Hcol) Hg) as (Hobs & Hle & _).
  destruct (resolved_price _ _ _ _ Hs Hg) as [_ [p Hp]].
  exists r, p. rewrite Hp in Hl. injection Hl as <-.
  repeat split; try assumption; try reflexivity.
  - destruct Hobs; assumption.
  - destruct Hobs; assumption.
  - unfold loc in Hp. destruct (In_dates r (index data) && _); [| discriminate].
    injection Hp as Hp. exact Hp.
Qed.

(** The loop body on given resolutions and prices. *)
Lemma ticker_score_of_prices (data : DataFrame) (ticker : Ticker) (date : Timestamp)
  (d0 d1 d3 d6 d12 : Timestamp) (p0 p1 p3 p6 p12 : Q) :
  get_closest_date data ticker date = OK (Some d0) ->
  get_closest_date data ticker (sub_months date 1) = OK (Some d1) ->
  get_closest_date data ticker (sub_months date 3) = OK (Some d3) ->
  get_closest_date data ticker (sub_months date 6) = OK (Some d6) ->
  get_closest_date data ticker (sub_months date 12) = OK (Some d12) ->
  loc data (Some d0) ticker = OK (Some p0) ->
  loc data (Some d1) ticker = OK (Some p1) ->
  loc data (Some d3) ticker = OK (Some p3) ->
  loc data (Some d6) ticker = OK (Some p6) ->
  loc data (Some d12) ticker = OK (Some p12) ->
  ticker_score data ticker date =
  if is_zero p1 || is_zero p3 || is_zero p6 || is_zero p12
  then Raise NonFinite
  else OK (Fin (momentum p0 p1 p3 p6 p12)).
Proof.
  intros G0 G1 G3 G6 G12 L0 L1 L3 L6 L12.
  unfold ticker_score, bind. rewrite G0, G1, G3, G6, G12. cbv beta iota.
  rewrite L0, L1, L3, L6, L12. reflexivity.
Qed.

(** A successful loop body, taken apart. *)
Lemma ticker_score_OK (data : DataFrame) (ticker : Ticker) (date : Timestamp) (s : Score) :
  strictly_increasing (index data) = true ->
  ticker_score data ticker date = OK s ->
  exists d0 d1 d3 d6 d12 p0 p1 p3 p6 p12,
    get_closest_date data ticker date = OK (Some d0) /\
    get_closest_date data ticker (sub_months date 1) = OK (Some d1) /\
    get_closest_date data ticker (sub_months date 3) = OK (Some d3) /\
    get_closest_date data ticker (sub_months date 6) = OK (Some d6) /\
    get_closest_date data ticker (sub_months date 12) = OK (Some d12) /\
    loc data (Some d0) ticker = OK (Some p0) /\
    loc data (Some d1) ticker = OK (Some p1) /\
    loc data (Some d3) ticker = OK (Some p3) /\
    loc data (Some d6) ticker = OK (Some p6) /\
    loc data (Some d12) ticker = OK (Some p12) /\
    is_zero p1 || is_zero p3 || is_zero p6 || is_zero p12 = false /\
    s = Fin (momentum p0 p1 p3 p6 p12).
Proof.
  intros Hs H. pose proof H as Hcopy. unfold ticker_score in H.
  unbind H. unbind H. unbind H. unbind H. unbind H.
  unbind H. unbind H. unbind H. unbind H. unbind H.
  destruct (resolve_and_read _ _ _ _ _ Hs E E4) as (d0 & p0 & -> & -> & _).
  destruct (resolve_and_read _ _ _ _ _ Hs E0 E5) as (d1 & p1 & -> & -> & _).
  destruct (resolve_and_read _ _ _ _ _ Hs E1 E6) as (d3 & p3 & -> & -> & _).
  destruct (resolve_and_read _ _ _ _ _ Hs E2 E7) as (d6 & p6 & -> & -> & _).
  destruct (resolve_and_read _ _ _ _ _ Hs E3 E8) as (d12 & p12 & -> & -> & _).
  exists d0, d1, d3, d6, d12, p0, p1, p3, p6, p12.
  destruct (is_zero p1 || is_zero p3 || is_zero p6 || is_zero p12);
    [discriminate |].
  injection H as <-. repeat split; assumption.
Qed.

Lemma keys_dict_set_new {V : Type} (d : Dict V) (k : Ticker) (v : V) :
  dict_get d k = None -> keys (dict_set d k v) = keys d ++ [k].
Proof.
  induction d as [|[k0 v0] rest IH]; simpl; intros H; [reflexivity |].
  destruct (String.eqb k k0); [discriminate |].
  change (k0 :: keys (dict_set rest k v) = k0 :: (keys rest ++ [k])).
  f_equal. apply IH. assumption.
Qed.

Lemma scores_loop_keys (data : DataFrame) (date : Timestamp) (cols : list Ticker) :
  forall acc m,
  NoDup (keys acc ++ cols) ->
  scores_loop data date cols acc = OK m ->
  keys m = keys acc ++ cols.
Proof.
  induction cols as [|c rest IH]; intros acc m Hnd H.
  - injection H as <-. rewrite app_nil_r. reflexivity.
  - simpl in H. unbind H.
    assert (Hnew : dict_get acc c = None).
    { destruct (dict_get acc c) eqn:Eg; [| reflexivity]. exfalso.
      apply NoDup_remove_2 in Hnd. apply Hnd. apply in_or_app. left.
      apply dict_get_keys. congruence. }
    assert (Hnd' : NoDup (keys (dict_set acc c v) ++ rest)).
    { rewrite keys_dict_set_new by assumption.
      rewrite <- app_assoc. exact Hnd. }
    rewrite (IH _ _ Hnd' H), keys_dict_set_new by assumption.
    rewrite <- app_assoc. reflexivity.
Qed.

(** X3: on an increasing index, whatever the resolver returns for a ticker
    and a target date, a price lookup that succeeds there finds a number,
    never NaN: the test of line 45 is false whenever it is reached and the
    assignment of line 46 is dead code.  With distinct columns a successful
    scorer answers one score per column, in column order, each the result
    of the loop body for its column. *)
Theorem scorer_reads_numbers (data : DataFrame) (date : Timestamp) :
  strictly_increasing (index data) = true ->
  NoDup (columns data) ->
  (forall ticker target x c,
     get_closest_date data ticker target = OK x ->
     loc data x ticker = OK c ->
     exists p, c = Some p) /\
  (forall momentum_scores,
     calculate_momentum_scores data date = OK momentum_scores ->
     keys momentum_scores = columns data /\
     forall t s, dict_get momentum_scores t = Some s ->
       In t (columns data) /\ ticker_score data t date = OK s).
Proof.
  intros Hs Hnd. split.
  - intros ticker target x c Hg Hl.
    destruct (resolve_and_read _ _ _ _ _ Hs Hg Hl) as (r & p & _ & -> & _).
    exists p. reflexivity.
  - intros ms H. unfold calculate_momentum_scores in H.
    split; [exact (scores_loop_keys data date (columns data) [] _ Hnd H) |].
    intros t s Hget. rewrite (scores_loop_get _ _ _ _ _ H t) in Hget.
    destruct (In_tickers t (columns data)) eqn:Ein; [| discriminate].
    destruct (ticker_score data t date) as [s0|e] eqn:Es; [| discriminate].
    injection Hget as <-.
    split; [apply In_tickers_iff; exact Ein | reflexivity].
Qed.

Lemma scorer_reads_numbers_witness :
  (exists p, loc late_listing (Some (mkDate 2022 6 1)) "QQQ" = OK (Some p)) /\
  exists momentum_scores,
    calculate_momentum_scores demo_data (mkDate 2023 3 15) = OK momentum_scores /\
    keys momentum_scores = tickers.
Proof.
  assert (Hs : strictly_increasing (index demo_data) = true)
    by (vm_compute; reflexivity).
  assert (Hnd : NoDup (columns demo_data)) by (vm_compute; nodup_strings).
  split.
  - destruct (scorer_reads_numbers late_listing (mkDate 2023 3 15) Hs Hnd)
      as [Hread _].
    destruct (Hread "QQQ" (mkDate 2022 6 20) (Some (mkDate 2022 6 1))
                (Some 215)) as [p Hp];
      [vm_compute; reflexivity | vm_compute; reflexivity |].
    exists p. rewrite <- Hp. vm_compute. reflexivity.
  - destruct (calculate_momentum_scores demo_data (mkDate 2023 3 15))
      as [ms|e] eqn:H; [| vm_compute in H; discriminate].
    destruct (scorer_reads_numbers demo_data (mkDate 2023 3 15) Hs Hnd)
      as [_ Hall].
    exists ms. split; [reflexivity |]. exact (proj1 (Hall ms H)).
Defined.

(** X4: the scorer succeeds only if every column of the table, held or
    not, has an observation on or before the evaluation date and on or
    before each of the dates 1, 3, 6 and 12 months earlier. *)
Theorem scorer_needs_lookback (data : DataFrame) (date : Timestamp)
  (momentum_scores : Dict Score) :
  strictly_increasing (index data) = true ->
  calculate_momentum_scores data date = OK momentum_scores ->
  forall t target,
    In t (columns data) ->
    In target [date; sub_months date 1; sub_months date 3;
               sub_months date 6; sub_months date 12] ->
    exists d, observed data t d /\ date_leb d target = true.
Proof.
  intros Hs H t target Ht Htarget. unfold calculate_momentum_scores in H.
  destruct (scores_loop_all_OK _ _ _ _ _ H t Ht) as [s Hscore].
  destruct (ticker_score_OK _ _ _ _ Hs Hscore)
    as (d0 & d1 & d3 & d6 & d12 & p0 & p1 & p3 & p6 & p12
        & G0 & G1 & G3 & G6 & G12 & _).
  pose proof (get_closest_date_column _ _ _ _ G0) as Hcol.
  assert (Hres : forall x r, get_closest_date data t x = OK (Some r) ->
                             observed data t r /\ date_leb r x = true).
  { intros x r G.
    destruct (proj1 (get_closest_date_char _ _ _ _ Hs Hcol) G) as (Ho & Hl & _).
    auto. }
  simpl in Htarget.
  destruct Htarget as [<- | [<- | [<- | [<- | [<- | []]]]]]; eauto.
Qed.

Lemma scorer_needs_lookback_witness :
  exists d, observed demo_data "AGG" d /\
            date_leb d (sub_months (mkDate 2023 3 15) 12) = true.
Proof.
  destruct (calculate_momentum_scores demo_data (mkDate 2023 3 15))
    as [ms|e] eqn:H; [| vm_compute in H; discriminate].
  assert (Hs : strictly_increasing (index demo_data) = true)
    by (vm_compute; reflexivity).
  apply (scorer_needs_lookback demo_data (mkDate 2023 3 15) ms Hs H "AGG").
  - vm_compute. auto.
  - simpl. auto 6.
Defined.

Lemma get_closest_date_scaled (data : DataFrame) (ticker : Ticker) (c : Q)
  (date : Timestamp) :
  get_closest_date (scale_column data ticker c) ticker date
  = get_closest_date data ticker date.
Proof.
  assert (E : dropna_index (scale_column data ticker c) ticker
              = dropna_index data ticker).
  { unfold dropna_index. apply filter_ext. intros d.
    unfold scale_column. cbn [cell]. rewrite String.eqb_refl.
    destruct (cell data d ticker); reflexivity. }
  unfold get_closest_date. rewrite E. reflexivity.
Qed.

Lemma loc_scaled (data : DataFrame) (ticker : Ticker) (c : Q)
  (d : Timestamp) (p : Q) :
  loc data (Some d) ticker = OK (Some p) ->
  loc (scale_column data ticker c) (Some d) ticker = OK (Some (c * p)).
Proof.
  unfold loc, scale_column. simpl. rewrite String.eqb_refl.
  destruct (In_dates d (index data) && In_tickers ticker (columns data));
    [| discriminate].
  intros H. injection H as ->. reflexivity.
Qed.

Lemma momentum_scaled (c p0 p1 p3 p6 p12 : Q) :
  ~ c == 0 -> ~ p1 == 0 -> ~ p3 == 0 -> ~ p6 == 0 -> ~ p12 == 0 ->
  momentum (c * p0) (c * p1) (c * p3) (c * p6) (c * p12)
  == momentum p0 p1 p3 p6 p12.
Proof.
  intros. unfold momentum. field. auto.
Qed.

(** X5: the score has no unit: multiplying every price of a ticker by the
    same non-zero factor leaves its score unchanged, and changes no other
    ticker's score. *)
Theorem score_scale_invariant (data : DataFrame) (ticker : Ticker) (c : Q)
  (date : Timestamp) (s : Q) :
  strictly_increasing (index data) = true ->
  ~ c == 0 ->
  ticker_score data ticker date = OK (Fin s) ->
  (exists s', ticker_score (scale_column data ticker c) ticker date = OK (Fin s') /\
              s' == s) /\
  (forall t', t' <> ticker ->
     ticker_score (scale_column data ticker c) t' date = ticker_score data t' date).
Proof.
  intros Hs Hc H. split.
  - destruct (ticker_score_OK _ _ _ _ Hs H)
      as (d0 & d1 & d3 & d6 & d12 & p0 & p1 & p3 & p6 & p12
          & G0 & G1 & G3 & G6 & G12 & L0 & L1 & L3 & L6 & L12 & Hz & Es).
    injection Es as ->.
    repeat rewrite orb_false_iff in Hz. destruct Hz as (((Z1 & Z3) & Z6) & Z12).
    apply is_zero_false in Z1, Z3, Z6, Z12.
    exists (momentum (c * p0) (c * p1) (c * p3) (c * p6) (c * p12)).
    split; [| apply momentum_scaled; assumption].
    rewrite (ticker_score_of_prices (scale_column data ticker c) ticker date
               d0 d1 d3 d6 d12 (c * p0) (c * p1) (c * p3) (c * p6) (c * p12));
      try (rewrite get_closest_date_scaled; assumption);
      try (apply loc_scaled; assumption).
    assert (N : forall p, ~ p == 0 -> is_zero (c * p) = false).
    { intros p Hp. apply is_zero_false. intros E.
      apply Qmult_integral in E. tauto. }
    rewrite (N p1 Z1), (N p3 Z3), (N p6 Z6), (N p12 Z12). reflexivity.
  - intros t' Hne. apply ticker_score_ext; try reflexivity.
    intros d. unfold scale_column. simpl.
    destruct (String.eqb_spec t' ticker); [contradiction | reflexivity].
Qed.

Lemma score_scale_invariant_witness :
  exists s s',
    ticker_score demo_data "SPY" (mkDate 2023 3 15) = OK (Fin s) /\
    ticker_score (scale_column demo_data "SPY" 1300) "SPY" (mkDate 2023 3 15)
      = OK (Fin s') /\
    s' == s.
Proof.
  destruct (ticker_score demo_data "SPY" (mkDate 2023 3 15)) as [[|s]|e] eqn:H;
    try (vm_compute in H; discriminate).
  assert (Hs : strictly_increasing (index demo_data) = true)
    by (vm_compute; reflexivity).
  assert (Hc : ~ 1300 == 0) by discriminate.
  destruct (score_scale_invariant demo_data "SPY" 1300 (mkDate 2023 3 15) s Hs Hc H)
    as [(s' & Hs' & Heq) _].
  exists s, s'. split; [reflexivity |]. split; assumption.
Defined.

(* ================================================================== *)
(** * More on selling and buying *)

Lemma sell_loop_nothing (data : DataFrame) (sc : Q) (date : Timestamp)
  (cash : Q) (pf : Dict Q) :
  (forall t h, dict_get pf t = Some h -> ~ 0 < h) ->
  forall todo,
  (forall t, In t todo -> dict_get pf t <> None) ->
  sell_loop data sc date todo cash pf = OK (cash, pf).
Proof.
  intros Hnone. induction todo as [|t rest IH]; intros Hkeys; [reflexivity |].
  simpl. unfold getitem.
  destruct (dict_get pf t) as [h|] eqn:E;
    [| exfalso; apply (Hkeys t); [left; reflexivity | assumption]].
  simpl. assert (Eh : Qlt_bool 0 h = false).
  { apply not_true_iff_false. rewrite Qlt_bool_iff. eapply Hnone; eauto. }
  rewrite Eh. apply IH. intros t' Ht'. apply Hkeys. right; assumption.
Qed.

(** X6: a sale on a ledger without a positive holding changes nothing and
    reads no price, whatever the table, the date and the commission; so
    selling again right after a sale gives the same ledger back. *)
Theorem sell_idempotent (data : DataFrame) (sell_commission : Q) (date : Timestamp)
  (cash : Q) (pf : Dict Q) (cash1 : Q) (pf1 : Dict Q) :
  sell data sell_commission date cash pf = OK (cash1, pf1) ->
  forall data' sell_commission' date' cash',
    sell data' sell_commission' date' cash' pf1 = OK (cash', pf1).
Proof.
  intros Hsell data' sc' date' cash'. unfold sell.
  apply sell_loop_nothing.
  - exact (sell_not_positive _ _ _ _ _ _ _ Hsell).
  - intros t Ht. apply dict_get_keys. exact Ht.
Qed.

Lemma sell_idempotent_witness :
  exists cash1 pf1,
    sell demo_data (1 # 1000) (mkDate 2023 4 1) (cash held_state) (holdings held_state)
      = OK (cash1, pf1) /\
    sell demo_data (1 # 1000) (mkDate 2023 4 1) cash1 pf1 = OK (cash1, pf1) /\
    sell late_listing (1 # 2) (mkDate 1999 1 1) cash1 pf1 = OK (cash1, pf1).
Proof.
  destruct (sell demo_data (1 # 1000) (mkDate 2023 4 1) (cash held_state)
              (holdings held_state)) as [[cash1 pf1]|e] eqn:Hsell;
    [| vm_compute in Hsell; discriminate].
  exists cash1, pf1. split; [reflexivity |].
  split; apply (sell_idempotent _ _ _ _ _ _ _ Hsell).
Defined.

(* ================================================================== *)
(** * The valuation *)

Lemma holdings_value_sum (data : DataFrame) (date : Timestamp) (pf : Dict Q)
  (todo : list Ticker) :
  forall acc v,
  holdings_value data date pf todo acc = OK v ->
  v == acc + position_value data date pf todo.
Proof.
  induction todo as [|t rest IH]; intros acc v H.
  - injection H as <-. simpl. ring.
  - simpl in H. unbind H. unbind H. apply getitem_OK in E.
    rewrite (IH _ _ H). simpl. rewrite E, E0. ring.
Qed.

Lemma holdings_value_prices (data : DataFrame) (date : Timestamp) (pf : Dict Q)
  (todo : list Ticker) :
  forall acc v,
  holdings_value data date pf todo acc = OK v ->
  forall t, In t todo -> exists p, price_at data t date = OK p.
Proof.
  induction todo as [|t0 rest IH]; intros acc v H t Ht; [destruct Ht |].
  simpl in H. unbind H. unbind H.
  destruct Ht as [<- | Ht]; [eauto | eapply IH; eauto].
Qed.

Lemma holdings_value_total (data : DataFrame) (date : Timestamp) (pf : Dict Q)
  (todo : list Ticker) :
  (forall t, In t todo -> dict_get pf t <> None /\
                          exists p, price_at data t date = OK p) ->
  forall acc, exists v, holdings_value data date pf todo acc = OK v.
Proof.
  induction todo as [|t rest IH]; intros Hall acc; [eexists; reflexivity |].
  destruct (Hall t (or_introl eq_refl)) as [Hk [p Hp]].
  simpl. unfold getitem. destruct (dict_get pf t) as [h|]; [| congruence].
  simpl. rewrite Hp. simpl. apply IH.
  intros t' Ht'. apply Hall. right; assumption.
Qed.

Lemma position_value_zero (data : DataFrame) (date : Timestamp) (pf : Dict Q)
  (l : list Ticker) :
  (forall t h, dict_get pf t = Some h -> h == 0) ->
  position_value data date pf l == 0.
Proof.
  intros Hz. induction l as [|t rest IH]; simpl; [reflexivity |].
  rewrite IH. destruct (dict_get pf t) as [h|] eqn:E; [| reflexivity].
  destruct (price_at data t date); [| reflexivity].
  rewrite (Hz _ _ E). ring.
Qed.

Lemma position_value_other (data : DataFrame) (date : Timestamp) (pf : Dict Q)
  (k : Ticker) (v : Q) (l : list Ticker) :
  ~ In k l ->
  position_value data date (dict_set pf k v) l = position_value data date pf l.
Proof.
  induction l as [|t rest IH]; intros Hn; [reflexivity |].
  simpl. rewrite dict_get_set.
  destruct (String.eqb_spec t k) as [-> | Hne];
    [exfalso; apply Hn; left; reflexivity |].
  rewrite IH; [reflexivity | intros H; apply Hn; right; assumption].
Qed.

Lemma position_value_dict_set (data : DataFrame) (date : Timestamp) (pf : Dict Q)
  (k : Ticker) (h v p : Q) (l : list Ticker) :
  NoDup l -> In k l ->
  dict_get pf k = Some h -> price_at data k date = OK p ->
  position_value data date (dict_set pf k v) l
  == position_value data date pf l - h * p + v * p.
Proof.
  intros Hnd Hin Hget Hp. induction Hnd as [|t rest Hnotin Hnd IH]; [destruct Hin |].
  simpl. rewrite dict_get_set. destruct Hin as [-> | Hin].
  - rewrite String.eqb_refl, Hget, Hp.
    rewrite position_value_other by assumption. ring.
  - destruct (String.eqb_spec t k) as [-> | Hne]; [contradiction |].
    rewrite (IH Hin). ring.
Qed.

Lemma sell_all_zero (data : DataFrame) (sc : Q) (date : Timestamp)
  (cash : Q) (pf : Dict Q) (cash1 : Q) (pf1 : Dict Q) :
  no_short pf ->
  sell data sc date cash pf = OK (cash1, pf1) ->
  forall t h, dict_get pf1 t = Some h -> h == 0.
Proof.
  intros Hns Hsell t h Hget.
  rewrite (sell_get _ _ _ _ _ _ _ Hsell t) in Hget.
  destruct (dict_get pf t) as [h0|] eqn:E; [| discriminate].
  injection Hget as <-. specialize (Hns _ _ E).
  destruct (Qlt_bool 0 h0) eqn:Eh; [reflexivity |].
  assert (~ 0 < h0) by (rewrite <- Qlt_bool_iff; congruence). lra.
Qed.

Lemma step_keys (data : DataFrame) (bc sc ic : Q) (date : Timestamp) (st st' : State) :
  heap st <> [] ->
  step data bc sc ic date st = OK st' ->
  keys (holdings st') = keys (holdings st).
Proof.
  intros Hheap Hstep.
  destruct (step_OK _ _ _ _ _ _ _ Hheap Hstep)
    as (ms & best & strategy & cash1 & pf1 & total & _ & Hch & Hsell & Hbuy & _).
  pose proof (tickers_nonempty _ (choose_asset_In _ _ _ Hch)) as Hne.
  destruct (buy_OK _ _ _ _ _ _ _ _ Hne Hbuy) as (p & held & _ & _ & Hheld & _ & ->).
  rewrite keys_dict_set by congruence.
  unfold sell in Hsell. exact (sell_loop_keys _ _ _ _ _ _ _ _ Hsell).
Qed.

(** The books of one pass, for a ledger without negative holdings. *)
Lemma step_books (data : DataFrame) (bc sc ic : Q) (date : Timestamp) (st st' : State) :
  sound_ledger st ->
  step data bc sc ic date st = OK st' ->
  exists r unit_price shares,
    trade_history st' = trade_history st ++ [r] /\
    tr_date r = date /\
    tr_cash r = cash st' /\
    price_at data (tr_best_asset r) date = OK unit_price /\
    dict_get (holdings st') (tr_best_asset r) = Some shares /\
    (forall t h, t <> tr_best_asset r ->
                 dict_get (holdings st') t = Some h -> h == 0) /\
    tr_total_value r == cash st' + shares * unit_price /\
    tr_total_value r ==
      cash st + proceeds data sc date (holdings st) (keys (holdings st))
      - shares * unit_price * bc.
Proof.
  intros (Hcash & Hheap & Hdict & Hns) Hstep.
  destruct (step_OK _ _ _ _ _ _ _ Hheap Hstep)
    as (ms & best & strategy & cash1 & pf1 & total
        & _ & Hch & Hsell & Hbuy & Htotal & _ & _ & Hhist).
  pose proof (tickers_nonempty _ (choose_asset_In _ _ _ Hch)) as Hne.
  destruct (buy_OK _ _ _ _ _ _ _ _ Hne Hbuy) as (p & held & Hp & _ & Hheld & Ecash & Epf).
  pose proof (sell_all_zero _ _ _ _ _ _ _ Hns Hsell) as Hzero.
  pose proof (sell_loop_cash _ _ _ _ Hdict _ _ _ _ Hsell) as Hcash1.
  assert (Hkeys1 : keys pf1 = keys (holdings st))
    by (unfold sell in Hsell; exact (sell_loop_keys _ _ _ _ _ _ _ _ Hsell)).
  remember (floordiv cash1 (p * (1 + bc))) as fd eqn:Efd in *.
  set (shares := held + fd) in *.
  eexists _, p, shares. split; [exact Hhist |]. simpl.
  split; [reflexivity |]. split; [reflexivity |]. split; [exact Hp |].
  split; [rewrite Epf, dict_get_set, String.eqb_refl; reflexivity |].
  split.
  { intros t h Hn Hget. rewrite Epf, dict_get_set in Hget.
    destruct (String.eqb_spec t best); [contradiction | eauto]. }
  assert (Hheld0 : held == 0) by eauto.
  assert (Hval : total == cash st' + shares * p).
  { unfold total_value_of in Htotal. unbind Htotal. injection Htotal as <-.
    rewrite (holdings_value_sum _ _ _ _ _ _ E), Epf.
    rewrite position_value_dict_set with (h := held) (p := p).
    - rewrite (position_value_zero _ _ pf1) by exact Hzero.
      rewrite Hheld0. ring.
    - rewrite keys_dict_set by congruence. rewrite Hkeys1. exact Hdict.
    - rewrite keys_dict_set by congruence. apply dict_get_keys. congruence.
    - exact Hheld.
    - exact Hp. }
  split; [exact Hval |].
  rewrite Hval, Ecash. unfold shares. rewrite Hcash1, Hheld0. ring.
Qed.

(** X8: the total value a pass records is the cash left plus the shares
    of the target at its as-of price, every other holding being zero; it is
    also the cash after the sale less the buy commission paid on the
    purchase. *)
Theorem step_value_accounting (data : DataFrame)
  (buy_commission sell_commission initial_cash : Q) (date : Timestamp) (st st' : State) :
  sound_ledger st ->
  step data buy_commission sell_commission initial_cash date st = OK st' ->
  exists r unit_price shares,
    trade_history st' = trade_history st ++ [r] /\
    tr_cash r = cash st' /\
    price_at data (tr_best_asset r) date = OK unit_price /\
    dict_get (holdings st') (tr_best_asset r) = Some shares /\
    (forall t h, t <> tr_best_asset r ->
                 dict_get (holdings st') t = Some h -> h == 0) /\
    tr_total_value r == cash st' + shares * unit_price /\
    tr_total_value r ==
      cash st + proceeds data sell_commission date (holdings st) (keys (holdings st))
      - shares * unit_price * buy_commission.
Proof.
  intros Hst Hstep.
  destruct (step_books _ _ _ _ _ _ _ Hst Hstep)
    as (r & p & shares & H1 & _ & H2 & H3 & H4 & H5 & H6 & H7).
  exists r, p, shares. repeat split; assumption.
Qed.

Lemma held_state_sound : sound_ledger held_state.
Proof.
  unfold sound_ledger. split; [unfold Qle; simpl; lia |].
  split; [discriminate |]. split.
  - unfold is_dict. vm_compute. nodup_strings.
  - intros t h. vm_compute.
    repeat match goal with
    | |- context [if ?b then _ else _] => destruct b
    end; intros H; try discriminate; injection H as <-; discriminate.
Qed.

Lemma step_value_accounting_witness :
  exists st' r unit_price shares,
    step demo_data (1 # 1000) (1 # 1000) 1000 (mkDate 2023 4 1) held_state = OK st' /\
    trade_history st' = trade_history held_state ++ [r] /\
    price_at demo_data (tr_best_asset r) (mkDate 2023 4 1) = OK unit_price /\
    dict_get (holdings st') (tr_best_asset r) = Some shares /\
    tr_total_value r == cash st' + shares * unit_price.
Proof.
  destruct (step demo_data (1 # 1000) (1 # 1000) 1000 (mkDate 2023 4 1) held_state)
    as [st'|e] eqn:Hstep; [| vm_compute in Hstep; discriminate].
  destruct (step_value_accounting demo_data (1 # 1000) (1 # 1000) 1000
              (mkDate 2023 4 1) held_state st' held_state_sound Hstep)
    as (r & p & shares & H1 & _ & H3 & H4 & _ & H6 & _).
  exists st', r, p, shares. auto.
Defined.

Lemma proceeds_le_position (data : DataFrame) (sc : Q) (date : Timestamp)
  (pf : Dict Q) (l : list Ticker) :
  positive_prices data -> 0 <= sc -> no_short pf ->
  proceeds data sc date pf l <= position_value data date pf l.
Proof.
  intros Hpos Hsc Hns. induction l as [|t rest IH]; simpl; [lra |].
  unfold credit.
  destruct (dict_get pf t) as [h|] eqn:E; [| lra].
  destruct (price_at data t date) as [p|e] eqn:Ep; [| lra].
  apply price_at_positive in Ep; [| assumption].
  specialize (Hns _ _ E).
  assert (Hhp : 0 <= h * p) by (apply Qmult_le_0_compat; lra).
  destruct (Qlt_bool 0 h).
  - assert (Hc : 0 <= h * p * sc) by (apply Qmult_le_0_compat; lra).
    assert (E1 : h * p * (1 - sc) == h * p - h * p * sc) by ring.
    rewrite E1. lra.
  - lra.
Qed.

(** X9: a pass never adds value: the total value it records is at most
    what the ledger was worth at the same as-of prices before the pass
    (its cash plus holdings x price); the difference is the commissions. *)
Theorem rebalance_never_gains (data : DataFrame)
  (buy_commission sell_commission initial_cash : Q) (date : Timestamp) (st st' : State) :
  positive_prices data ->
  0 <= buy_commission ->
  0 <= sell_commission -> sell_commission < 1 ->
  sound_ledger st ->
  step data buy_commission sell_commission initial_cash date st = OK st' ->
  exists before r,
    total_value_of data date (cash st) (holdings st) = OK before /\
    trade_history st' = trade_history st ++ [r] /\
    tr_total_value r <= before.
Proof.
  intros Hpos Hbc Hsc0 Hsc1 Hst Hstep.
  pose proof (step_sound data buy_commission sell_commission initial_cash
                Hpos Hbc Hsc1 date st st' Hst Hstep) as (_ & _ & _ & Hns').
  destruct (step_books _ _ _ _ _ _ _ Hst Hstep)
    as (r & p & shares & Hhist & _ & _ & Hp & Hshares & _ & _ & Hacc).
  destruct Hst as (Hcash & Hheap & Hdict & Hns).
  destruct (step_OK _ _ _ _ _ _ _ Hheap Hstep)
    as (ms & best & strategy & cash1 & pf1 & total
        & _ & _ & _ & _ & Htotal & _).
  pose proof (step_keys _ _ _ _ _ _ _ Hheap Hstep) as Hkeys.
  unfold total_value_of in Htotal. unbind Htotal.
  destruct (holdings_value_total data date (holdings st) (keys (holdings st))) with (acc := 0)
    as [v0 Hv0].
  { intros t Ht. split; [apply dict_get_keys; exact Ht |].
    apply (holdings_value_prices _ _ _ _ _ _ E). rewrite Hkeys. exact Ht. }
  exists (cash st + v0), r.
  split; [unfold total_value_of; rewrite Hv0; reflexivity |].
  split; [exact Hhist |].
  rewrite Hacc, (holdings_value_sum _ _ _ _ _ _ Hv0).
  pose proof (proceeds_le_position data sell_commission date (holdings st)
                (keys (holdings st)) Hpos Hsc0 Hns) as Hle.
  apply price_at_positive in Hp; [| assumption].
  specialize (Hns' _ _ Hshares).
  assert (Hfee : 0 <= shares * p * buy_commission)
    by (apply Qmult_le_0_compat; [apply Qmult_le_0_compat |]; lra).
  lra.
Qed.

Lemma rebalance_never_gains_witness :
  exists st' before r,
    step demo_data (1 # 1000) (1 # 1000) 1000 (mkDate 2023 4 1) held_state = OK st' /\
    total_value_of demo_data (mkDate 2023 4 1) (cash held_state) (holdings held_state)
      = OK before /\
    trade_history st' = trade_history held_state ++ [r] /\
    tr_total_value r <= before.
Proof.
  destruct (step demo_data (1 # 1000) (1 # 1000) 1000 (mkDate 2023 4 1) held_state)
    as [st'|e] eqn:Hstep; [| vm_compute in Hstep; discriminate].
  assert (H0 : 0 <= 1 # 1000) by (unfold Qle; simpl; lia).
  assert (H1 : 1 # 1000 < 1) by reflexivity.
  destruct (rebalance_never_gains demo_data (1 # 1000) (1 # 1000) 1000
              (mkDate 2023 4 1) held_state st' demo_data_positive H0 H0 H1
              held_state_sound Hstep) as (before & r & Hb & Hh & Hle).
  exists st', before, r. auto.
Defined.

(* ================================================================== *)
(** * The records of a run *)

(** A property every pass gives its new record holds of the records a run
    adds, date by date. *)
Lemma run_new_records (data : DataFrame) (bc sc ic : Q)
  (P : Timestamp -> TradeRecord -> Prop) :
  (forall date st st' r,
     heap st <> [] ->
     step data bc sc ic date st = OK st' ->
     trade_history st' = trade_history st ++ [r] ->
     P date r) ->
  forall dates st st',
  heap st <> [] ->
  run data bc sc ic dates st = OK st' ->
  exists new, trade_history st' = trade_history st ++ new /\ Forall2 P dates new.
Proof.
  intros HP. induction dates as [|date rest IH]; intros st st' Hheap Hrun.
  - injection Hrun as <-. exists []. rewrite app_nil_r. split; [reflexivity | constructor].
  - simpl in Hrun. unbind Hrun.
    destruct (step_frame _ _ _ _ _ _ _ Hheap E) as (_ & _ & r & Hhist & _).
    destruct (IH _ _ (step_heap_nonempty _ _ _ _ _ _ _ Hheap E) Hrun)
      as (new & Hnew & Hall).
    exists (r :: new). split.
    + rewrite Hnew, Hhist, <- app_assoc. reflexivity.
    + constructor; [eapply HP; eauto | exact Hall].
Qed.

Lemma Forall2_map_eq {A B : Type} (f : B -> A) (l : list A) (l' : list B) :
  Forall2 (fun a b => f b = a) l l' -> map f l' = l.
Proof.
  induction 1 as [|a b l l' Hab _ IH]; simpl; [reflexivity | congruence].
Qed.

Lemma Forall2_In_r {A B : Type} (P : A -> B -> Prop) (l : list A) (l' : list B) (b : B) :
  Forall2 P l l' -> In b l' -> exists a, In a l /\ P a b.
Proof.
  induction 1 as [|a0 b0 l l' Hab _ IH]; intros Hin; [destruct Hin |].
  destruct Hin as [<- | Hin].
  - exists a0. split; [left; reflexivity | exact Hab].
  - destruct (IH Hin) as (a & Ha & HP). exists a. split; [right; exact Ha | exact HP].
Qed.

(** X10: a run writes one record per scheduled date, in the order of the
    schedule, each dated with its rebalancing date; the value history lists
    the records' total values; and a record's cumulative return is its
    total value over the initial cash, less 1, times 100. *)
Theorem records_follow_schedule (data : DataFrame) (dates : list Timestamp)
  (initial_cash buy_commission sell_commission : Q) (st : State) :
  simulate data dates initial_cash buy_commission sell_commission = OK st ->
  map tr_date (trade_history st) = dates /\
  value_history st = map tr_total_value (trade_history st) /\
  (forall r, In r (trade_history st) ->
     tr_current_return r = current_return (tr_total_value r) initial_cash).
Proof.
  intros Hrun. unfold simulate in Hrun.
  assert (Hheap : heap (initial_state initial_cash) <> []) by discriminate.
  destruct (run_new_records data buy_commission sell_commission initial_cash
              (fun date r => tr_date r = date /\
                 tr_current_return r = current_return (tr_total_value r) initial_cash))
    with (dates := dates) (st := initial_state initial_cash) (st' := st)
    as (new & Hnew & Hall); try assumption.
  { intros date s s' r Hh Hstep Hhist.
    destruct (step_OK _ _ _ _ _ _ _ Hh Hstep)
      as (ms & best & strategy & cash1 & pf1 & total & _ & _ & _ & _ & _ & _ & _ & Hh').
    rewrite Hh' in Hhist. apply app_inj_tail in Hhist. destruct Hhist as [_ <-].
    split; reflexivity. }
  simpl in Hnew. rewrite Hnew.
  split; [| split].
  - apply Forall2_map_eq. eapply Forall2_impl; [| exact Hall].
    intros a b [H _]. exact H.
  - rewrite <- Hnew. exact (run_histories _ _ _ _ _ _ _ Hheap eq_refl Hrun).
  - intros r Hr. destruct (Forall2_In_r _ _ _ _ Hall Hr) as (d & _ & _ & H). exact H.
Qed.

Lemma records_follow_schedule_witness :
  map tr_date (trade_history demo_state_2) = [mkDate 2023 3 1; mkDate 2023 4 1] /\
  value_history demo_state_2 = map tr_total_value (trade_history demo_state_2).
Proof.
  assert (Hi : simulate demo_data [mkDate 2023 3 1; mkDate 2023 4 1]
                        1000000 (1 # 1000) (1 # 1000) = OK demo_state_2)
    by (vm_compute; reflexivity).
  destruct (records_follow_schedule _ _ _ _ _ _ Hi) as (H1 & H2 & _).
  split; assumption.
Defined.

Lemma run_records_valued (data : DataFrame) (bc sc ic : Q) (dates : list Timestamp) :
  forall st st',
  snapshots_in_place st ->
  (forall r, In r (trade_history st) ->
     total_value_of data (tr_date r) (tr_cash r) (deref (heap st) (tr_portfolio r))
     = OK (tr_total_value r)) ->
  run data bc sc ic dates st = OK st' ->
  forall r, In r (trade_history st') ->
    total_value_of data (tr_date r) (tr_cash r) (deref (heap st') (tr_portfolio r))
    = OK (tr_total_value r).
Proof.
  induction dates as [|date rest IH]; intros st st' Hsnap Hold Hrun.
  - injection Hrun as <-. exact Hold.
  - simpl in Hrun. unbind Hrun. destruct Hsnap as [Hlen Hloc].
    assert (Hheap : heap st <> []) by (destruct (heap st); [discriminate | congruence]).
    apply (IH v st'); [eapply step_snapshots; eauto; split; assumption | | exact Hrun].
    destruct (step_frame _ _ _ _ _ _ _ Hheap E) as (_ & Hfr & r0 & Hhist & _ & Hsnap0).
    destruct (step_OK _ _ _ _ _ _ _ Hheap E)
      as (ms & best & strategy & cash1 & pf1 & total
          & _ & _ & _ & _ & Htotal & _ & _ & Hh').
    intros r Hr. rewrite Hhist in Hr. apply in_app_or in Hr.
    destruct Hr as [Hr | [<- | []]].
    + rewrite Hfr; [apply Hold; exact Hr | |].
      * apply In_nth_error in Hr. destruct Hr as [k Hk].
        rewrite (Hloc _ _ Hk). discriminate.
      * apply In_nth_error in Hr. destruct Hr as [k Hk].
        rewrite (Hloc _ _ Hk), Hlen.
        assert (k < List.length (trade_history st))%nat
          by (apply nth_error_Some; congruence).
        lia.
    + rewrite Hsnap0. rewrite Hh' in Hhist.
      apply app_inj_tail in Hhist. destruct Hhist as [_ <-]. simpl. exact Htotal.
Qed.

(** X11: at the end of a run every record still adds up: valuing the
    holdings it refers to at its own date, with its own cash, gives the
    total value it stores. *)
Theorem records_add_up (data : DataFrame) (dates : list Timestamp)
  (initial_cash buy_commission sell_commission : Q) (st : State) :
  simulate data dates initial_cash buy_commission sell_commission = OK st ->
  forall r, In r (trade_history st) ->
    total_value_of data (tr_date r) (tr_cash r) (deref (heap st) (tr_portfolio r))
    = OK (tr_total_value r).
Proof.
  intros Hrun. unfold simulate in Hrun.
  apply (run_records_valued _ _ _ _ _ _ _ (initial_snapshots initial_cash)
           (fun r (H : In r []) => match H with end) Hrun).
Qed.

Lemma records_add_up_witness :
  simulate demo_data [mkDate 2023 3 1; mkDate 2023 4 1; mkDate 2023 5 1; mkDate 2023 6 1]
           1000000 (1 # 1000) (1 # 1000) = OK demo_state_4 /\
  Forall (fun r =>
            total_value_of demo_data (tr_date r) (tr_cash r)
                           (deref (heap demo_state_4) (tr_portfolio r))
            = OK (tr_total_value r))
         (trade_history demo_state_4).
Proof.
  assert (Hrun : simulate demo_data
                   [mkDate 2023 3 1; mkDate 2023 4 1; mkDate 2023 5 1; mkDate 2023 6 1]
                   1000000 (1 # 1000) (1 # 1000) = OK demo_state_4)
    by (vm_compute; reflexivity).
  split; [exact Hrun |].
  apply Forall_forall. exact (records_add_up _ _ _ _ _ _ Hrun).
Defined.

Lemma all_nonpos_false (momentum_scores : Dict Score) (assets : list Ticker) :
  all_nonpos momentum_scores assets = OK false ->
  exists a s, In a assets /\ dict_get momentum_scores a = Some s /\
              score_nonpos s = false.
Proof.
  induction assets as [|a rest IH]; intros H; [discriminate |].
  simpl in H. unbind H. apply getitem_OK in E.
  destruct (score_nonpos v) eqn:Es.
  - destruct (IH H) as (a' & s & Hin & Hget & Hs).
    exists a', s. split; [right; exact Hin | auto].
  - exists a, v. split; [left; reflexivity | auto].
Qed.

Lemma all_nonpos_true (momentum_scores : Dict Score) (assets : list Ticker) :
  all_nonpos momentum_scores assets = OK true ->
  forall a, In a assets ->
    exists s, dict_get momentum_scores a = Some s /\ score_nonpos s = true.
Proof.
  induction assets as [|a0 rest IH]; intros H a Ha; [destruct Ha |].
  simpl in H. unbind H. apply getitem_OK in E.
  destruct (score_nonpos v) eqn:Es; [| discriminate].
  destruct Ha as [<- | Ha]; [eauto | apply IH; assumption].
Qed.

Lemma first_maximum_ge {A : Type} (key : A -> Score) (l : list A) (best x : A) :
  first_maximum key l best -> In x l -> score_leb (key x) (key best) = true.
Proof.
  intros (before & after & -> & Hb & Ha) Hin.
  apply in_app_or in Hin. destruct Hin as [Hin | [<- | Hin]].
  - apply score_ltb_leb. apply Hb. exact Hin.
  - apply score_leb_refl.
  - apply Ha. exact Hin.
Qed.

(** What the decision of lines 74-82 guarantees about the asset chosen. *)
Lemma choose_asset_grounds (momentum_scores : Dict Score)
  (best_asset : Ticker) (strategy : Strategy) :
  choose_asset momentum_scores = OK (best_asset, strategy) ->
  match strategy with
  | AttackInvest =>
      In best_asset attack_assets /\
      exists q, dict_get momentum_scores best_asset = Some (Fin q) /\ 0 < q
  | SafeInvest =>
      In best_asset safe_assets /\
      forall a, In a attack_assets ->
        exists s, dict_get momentum_scores a = Some s /\ score_nonpos s = true
  end.
Proof.
  unfold choose_asset, choose. intros H.
  unbind H. unbind H. unbind H.
  destruct v1; injection H as <- <-.
  - split; [exact (py_max_In _ _ _ E0) |]. exact (all_nonpos_true _ _ E1).
  - split; [exact (py_max_In _ _ _ E) |].
    destruct (all_nonpos_false _ _ E1) as (a & s & Hin & Hget & Hs).
    assert (Hmax : first_maximum (fun x => get_default momentum_scores x NegInf)
                                 attack_assets v).
    { destruct (py_max_first_maximum (fun x => get_default momentum_scores x NegInf)
                  attack_assets) as (b & Eb & Hb); [discriminate |].
      rewrite E in Eb. injection Eb as <-. exact Hb. }
    pose proof (first_maximum_ge _ _ _ a Hmax Hin) as Hge.
    cbv beta in Hge. unfold get_default in Hge. rewrite Hget in Hge.
    destruct s as [|q]; [discriminate |]. simpl in Hs.
    assert (Hq : 0 < q).
    { apply Qnot_le_lt. intros C. apply Qle_bool_iff in C. congruence. }
    destruct (dict_get momentum_scores v) as [[|q']|] eqn:Ev;
      try discriminate.
    exists q'. split; [reflexivity |].
    unfold score_leb in Hge. simpl in Hge. apply negb_true_iff in Hge.
    apply not_true_iff_false in Hge. rewrite Qlt_bool_iff in Hge. lra.
Qed.

(** What every pass puts in its record about the decision. *)
Lemma step_decision (data : DataFrame) (bc sc ic : Q) (date : Timestamp)
  (st st' : State) (r : TradeRecord) :
  heap st <> [] ->
  step data bc sc ic date st = OK st' ->
  trade_history st' = trade_history st ++ [r] ->
  tr_date r = date /\
  exists momentum_scores,
    calculate_momentum_scores data date = OK momentum_scores /\
    choose_asset momentum_scores = OK (tr_best_asset r, tr_strategy r).
Proof.
  intros Hheap Hstep Hhist.
  destruct (step_OK _ _ _ _ _ _ _ Hheap Hstep)
    as (ms & best & strategy & cash1 & pf1 & total & Hms & Hch & _ & _ & _ & _ & _ & Hh').
  rewrite Hh' in Hhist. apply app_inj_tail in Hhist. destruct Hhist as [_ <-].
  split; [reflexivity |]. exists ms. split; assumption.
Qed.

(** X12: what is chosen at each date depends on the price table and the
    date alone: two runs over the same table and schedule, with any initial
    cash and any commissions, record the same dates, labels and tickers. *)
Theorem decisions_ignore_money (data : DataFrame) (dates : list Timestamp)
  (initial_cash buy_commission sell_commission : Q)
  (initial_cash' buy_commission' sell_commission' : Q) (st st' : State) :
  simulate data dates initial_cash buy_commission sell_commission = OK st ->
  simulate data dates initial_cash' buy_commission' sell_commission' = OK st' ->
  map decision (trade_history st) = map decision (trade_history st').
Proof.
  intros H1 H2. unfold simulate in *.
  set (P := fun (date : Timestamp) (r : TradeRecord) =>
              tr_date r = date /\
              exists momentum_scores,
                calculate_momentum_scores data date = OK momentum_scores /\
                choose_asset momentum_scores = OK (tr_best_asset r, tr_strategy r)).
  assert (Hheap : forall c, heap (initial_state c) <> []) by discriminate.
  destruct (run_new_records data buy_commission sell_commission initial_cash P
              (fun date s s' r => step_decision data _ _ _ date s s' r)
              dates _ _ (Hheap initial_cash) H1) as (new1 & E1 & F1).
  destruct (run_new_records data buy_commission' sell_commission' initial_cash' P
              (fun date s s' r => step_decision data _ _ _ date s s' r)
              dates _ _ (Hheap initial_cash') H2) as (new2 & E2 & F2).
  simpl in E1, E2. rewrite E1, E2. clear E1 E2 H1 H2.
  revert new2 F2. induction F1 as [|d r1 ds n1 Hr1 _ IH]; intros new2 F2.
  - inversion F2. reflexivity.
  - inversion F2 as [|d' r2 ds' n2 Hr2 F2']; subst. simpl.
    rewrite (IH _ F2'). f_equal.
    destruct Hr1 as (D1 & ms1 & M1 & C1), Hr2 as (D2 & ms2 & M2 & C2).
    unfold decision. rewrite M1 in M2. injection M2 as <-.
    rewrite C1 in C2. injection C2 as -> ->. congruence.
Qed.

Lemma decisions_ignore_money_witness :
  exists st st',
    simulate demo_data [mkDate 2023 3 1; mkDate 2023 4 1] 1000000 (1 # 1000) (1 # 1000)
      = OK st /\
    simulate demo_data [mkDate 2023 3 1; mkDate 2023 4 1] 500 (1 # 4) 0 = OK st' /\
    map decision (trade_history st) = map decision (trade_history st').
Proof.
  destruct (simulate demo_data [mkDate 2023 3 1; mkDate 2023 4 1]
              1000000 (1 # 1000) (1 # 1000)) as [st|e] eqn:H1;
    [| vm_compute in H1; discriminate].
  destruct (simulate demo_data [mkDate 2023 3 1; mkDate 2023 4 1] 500 (1 # 4) 0)
    as [st'|e] eqn:H2; [| vm_compute in H2; discriminate].
  exists st, st'. split; [reflexivity |]. split; [reflexivity |].
  exact (decisions_ignore_money _ _ _ _ _ _ _ _ _ _ H1 H2).
Defined.

(** X13: every record is grounded in the scores of its own date: one
    labelled attack names a risk asset whose score that date is positive; one
    labelled safe names a safety asset, and no risk asset's score that date
    is positive. *)
Theorem records_grounded_in_scores (data : DataFrame) (dates : list Timestamp)
  (initial_cash buy_commission sell_commission : Q) (st : State) :
  simulate data dates initial_cash buy_commission sell_commission = OK st ->
  forall r, In r (trade_history st) ->
    exists momentum_scores,
      calculate_momentum_scores data (tr_date r) = OK momentum_scores /\
      match tr_strategy r with
      | AttackInvest =>
          In (tr_best_asset r) attack_assets /\
          exists q, dict_get momentum_scores (tr_best_asset r) = Some (Fin q) /\ 0 < q
      | SafeInvest =>
          In (tr_best_asset r) safe_assets /\
          forall a, In a attack_assets ->
            exists s, dict_get momentum_scores a = Some s /\ score_nonpos s = true
      end.
Proof.
  intros Hrun r Hr. unfold simulate in Hrun.
  assert (Hheap : heap (initial_state initial_cash) <> []) by discriminate.
  destruct (run_new_records data buy_commission sell_commission initial_cash _
              (fun date s s' r => step_decision data _ _ _ date s s' r)
              dates _ _ Hheap Hrun) as (new & Enew & Hall).
  simpl in Enew. rewrite Enew in Hr.
  destruct (Forall2_In_r _ _ _ _ Hall Hr) as (d & _ & Hd & ms & Hms & Hch).
  exists ms. rewrite Hd. split; [exact Hms |].
  exact (choose_asset_grounds _ _ _ Hch).
Qed.

Lemma records_grounded_in_scores_witness :
  Forall (fun r =>
            exists momentum_scores q,
              calculate_momentum_scores demo_data (tr_date r) = OK momentum_scores /\
              tr_strategy r = AttackInvest /\
              dict_get momentum_scores (tr_best_asset r) = Some (Fin q) /\ 0 < q)
         (trade_history demo_state_2).
Proof.
  assert (Hrun : simulate demo_data [mkDate 2023 3 1; mkDate 2023 4 1]
                          1000000 (1 # 1000) (1 # 1000) = OK demo_state_2)
    by (vm_compute; reflexivity).
  apply Forall_forall. intros r Hr.
  destruct (records_grounded_in_scores _ _ _ _ _ _ Hrun r Hr) as (ms & Hms & Hg).
  assert (Hs : tr_strategy r = AttackInvest).
  { simpl in Hr. destruct Hr as [<- | [<- | []]]; reflexivity. }
  rewrite Hs in Hg. destruct Hg as (_ & q & Hq & Hpos).
  exists ms, q. auto.
Defined.

(* ================================================================== *)
(** * What a run needs and what it keeps *)

Lemma step_prices (data : DataFrame) (bc sc ic : Q) (date : Timestamp) (st st' : State) :
  heap st <> [] ->
  step data bc sc ic date st = OK st' ->
  forall t, In t (keys (holdings st)) -> exists p, price_at data t date = OK p.
Proof.
  intros Hheap Hstep t Ht.
  destruct (step_OK _ _ _ _ _ _ _ Hheap Hstep)
    as (ms & best & strategy & cash1 & pf1 & total & _ & _ & _ & _ & Htotal & _).
  unfold total_value_of in Htotal. unbind Htotal.
  apply (holdings_value_prices _ _ _ _ _ _ E).
  rewrite (step_keys _ _ _ _ _ _ _ Hheap Hstep). exact Ht.
Qed.

Lemma step_lookback (data : DataFrame) (bc sc ic : Q) (date : Timestamp) (st st' : State) :
  strictly_increasing (index data) = true ->
  step data bc sc ic date st = OK st' ->
  forall t, In t (columns data) ->
    exists d, observed data t d /\ date_leb d (sub_months date 12) = true.
Proof.
  intros Hs Hstep t Ht. unfold step in Hstep. unbind Hstep.
  unfold calculate_momentum_scores in E.
  destruct (scores_loop_all_OK _ _ _ _ _ E t Ht) as [s Hscore].
  destruct (ticker_score_OK _ _ _ _ Hs Hscore)
    as (d0 & d1 & d3 & d6 & d12 & p0 & p1 & p3 & p6 & p12
        & _ & _ & _ & _ & G12 & _).
  pose proof (get_closest_date_column _ _ _ _ G12) as Hcol.
  destruct (proj1 (get_closest_date_char _ _ _ _ Hs Hcol) G12) as (Ho & Hl & _).
  eauto.
Qed.

Lemma run_keys (data : DataFrame) (bc sc ic : Q) (dates : list Timestamp) :
  forall st st',
  heap st <> [] ->
  run data bc sc ic dates st = OK st' ->
  keys (holdings st') = keys (holdings st).
Proof.
  induction dates as [|date rest IH]; intros st st' Hheap Hrun.
  - injection Hrun as <-. reflexivity.
  - simpl in Hrun. unbind Hrun.
    rewrite (IH _ _ (step_heap_nonempty _ _ _ _ _ _ _ Hheap E) Hrun).
    exact (step_keys _ _ _ _ _ _ _ Hheap E).
Qed.

Lemma run_steps (data : DataFrame) (bc sc ic : Q) (dates : list Timestamp) :
  forall st st',
  heap st <> [] ->
  run data bc sc ic dates st = OK st' ->
  forall date, In date dates ->
    exists s s', heap s <> [] /\ keys (holdings s) = keys (holdings st) /\
                 step data bc sc ic date s = OK s'.
Proof.
  induction dates as [|d rest IH]; intros st st' Hheap Hrun date Hin; [destruct Hin |].
  simpl in Hrun. unbind Hrun. destruct Hin as [<- | Hin].
  - exists st, v. auto.
  - destruct (IH _ _ (step_heap_nonempty _ _ _ _ _ _ _ Hheap E) Hrun date Hin)
      as (s & s' & Hh & Hk & Hstep).
    exists s, s'. split; [exact Hh |]. split; [| exact Hstep].
    rewrite Hk. exact (step_keys _ _ _ _ _ _ _ Hheap E).
Qed.

(** X14: a run succeeds only if each of the eight tickers, held or not, is
    a column of the table and has, at every rebalancing date, an observation
    on or before that date and one on or before the date twelve months
    earlier. *)
Theorem run_needs_every_ticker (data : DataFrame) (dates : list Timestamp)
  (initial_cash buy_commission sell_commission : Q) (st : State) :
  strictly_increasing (index data) = true ->
  simulate data dates initial_cash buy_commission sell_commission = OK st ->
  forall date t, In date dates -> In t tickers ->
    In t (columns data) /\
    (exists d, observed data t d /\ date_leb d date = true) /\
    (exists d, observed data t d /\ date_leb d (sub_months date 12) = true).
Proof.
  intros Hs Hrun date t Hdate Ht. unfold simulate in Hrun.
  assert (Hheap : heap (initial_state initial_cash) <> []) by discriminate.
  destruct (run_steps _ _ _ _ _ _ _ Hheap Hrun date Hdate) as (s & s' & Hh & Hk & Hstep).
  assert (Hkt : In t (keys (holdings s))).
  { rewrite Hk. vm_compute. vm_compute in Ht. exact Ht. }
  destruct (step_prices _ _ _ _ _ _ _ Hh Hstep t Hkt) as [p Hp].
  unfold price_at in Hp. unbind Hp. unbind Hp.
  pose proof (get_closest_date_column _ _ _ _ E) as Hcol.
  destruct (resolve_and_read _ _ _ _ _ Hs E E0) as (r & p' & _ & _ & Hobs & _ & Hle).
  assert (Hc : In t (columns data)) by (apply In_tickers_iff; exact Hcol).
  split; [exact Hc |]. split; [eauto |].
  exact (step_lookback _ _ _ _ _ _ _ Hs Hstep t Hc).
Qed.

Lemma run_needs_every_ticker_witness :
  In "SHY" (columns demo_data) /\
  (exists d, observed demo_data "SHY" d /\ date_leb d (mkDate 2023 4 1) = true) /\
  (exists d, observed demo_data "SHY" d /\
             date_leb d (sub_months (mkDate 2023 4 1) 12) = true).
Proof.
  assert (Hs : strictly_increasing (index demo_data) = true)
    by (vm_compute; reflexivity).
  assert (Hrun : simulate demo_data [mkDate 2023 3 1; mkDate 2023 4 1]
                          1000000 (1 # 1000) (1 # 1000) = OK demo_state_2)
    by (vm_compute; reflexivity).
  apply (run_needs_every_ticker _ _ _ _ _ _ Hs Hrun (mkDate 2023 4 1) "SHY").
  - simpl. auto.
  - vm_compute. auto 10.
Defined.

(** X15: when the start date is after the end date the schedule is empty,
    no step runs, and [simulate_trading] raises IndexError on the last
    value of an empty history, whatever the table. *)
Theorem empty_schedule_raises (data : DataFrame) (start end_date : Timestamp)
  (initial_cash buy_commission sell_commission : Q) :
  date_leb start end_date = false ->
  date_range start end_date = [] /\
  simulate_trading data start end_date initial_cash buy_commission sell_commission
  = Raise IndexError.
Proof.
  intros H.
  assert (E : date_range start end_date = []).
  { unfold date_range.
    destruct (Z.to_nat (month_index end_date - month_index start + 1));
      [reflexivity |].
    simpl. rewrite H. reflexivity. }
  split; [exact E |].
  unfold simulate_trading. rewrite E. reflexivity.
Qed.

Lemma empty_schedule_raises_witness :
  simulate_trading demo_data (mkDate 2024 9 1) (mkDate 2024 8 7)
                   1000000 (1 # 1000) (1 # 1000) = Raise IndexError.
Proof.
  apply (empty_schedule_raises demo_data (mkDate 2024 9 1) (mkDate 2024 8 7)).
  vm_compute. reflexivity.
Defined.

Lemma heap_keys_step (data : DataFrame) (bc sc ic : Q) (date : Timestamp)
  (st st' : State) (K : list Ticker) :
  heap st <> [] ->
  (forall l, (l < List.length (heap st))%nat -> keys (deref (heap st) l) = K) ->
  step data bc sc ic date st = OK st' ->
  forall l, (l < List.length (heap st'))%nat -> keys (deref (heap st') l) = K.
Proof.
  intros Hheap Hall Hstep l Hl.
  destruct (step_frame _ _ _ _ _ _ _ Hheap Hstep) as (Hlen & Hfr & r & _ & Hr & Hsnap).
  assert (Hlive : keys (holdings st') = K).
  { rewrite (step_keys _ _ _ _ _ _ _ Hheap Hstep). apply (Hall 0%nat).
    destruct (heap st); [congruence | simpl; lia]. }
  destruct (Nat.eq_dec l portfolio) as [-> | Hne]; [exact Hlive |].
  destruct (Nat.eq_dec l (List.length (heap st))) as [-> | Hne'].
  - rewrite <- Hr, Hsnap. exact Hlive.
  - rewrite Hfr by (auto; lia). apply Hall. lia.
Qed.

Lemma heap_keys_run (data : DataFrame) (bc sc ic : Q) (dates : list Timestamp)
  (K : list Ticker) :
  forall st st',
  heap st <> [] ->
  (forall l, (l < List.length (heap st))%nat -> keys (deref (heap st) l) = K) ->
  run data bc sc ic dates st = OK st' ->
  forall l, (l < List.length (heap st'))%nat -> keys (deref (heap st') l) = K.
Proof.
  induction dates as [|date rest IH]; intros st st' Hheap Hall Hrun.
  - injection Hrun as <-. exact Hall.
  - simpl in Hrun. unbind Hrun.
    apply (IH v st'); [eapply step_heap_nonempty; eauto | | exact Hrun].
    eapply heap_keys_step; eauto.
Qed.

(** X16: the portfolio never gains or loses a key: after any run the
    ledger's holdings, and the holdings every record refers to, list the
    eight tickers in the declared order, risk assets first. *)
Theorem portfolio_keys_fixed (data : DataFrame) (dates : list Timestamp)
  (initial_cash buy_commission sell_commission : Q) (st : State) :
  simulate data dates initial_cash buy_commission sell_commission = OK st ->
  keys (holdings st) = attack_assets ++ safe_assets /\
  (forall r, In r (trade_history st) ->
     keys (deref (heap st) (tr_portfolio r)) = attack_assets ++ safe_assets).
Proof.
  intros Hrun. unfold simulate in Hrun.
  assert (Hheap : heap (initial_state initial_cash) <> []) by discriminate.
  assert (Hinit : forall l, (l < List.length (heap (initial_state initial_cash)))%nat ->
            keys (deref (heap (initial_state initial_cash)) l)
            = attack_assets ++ safe_assets).
  { intros l Hl. simpl in Hl. destruct l; [vm_compute; reflexivity | lia]. }
  pose proof (heap_keys_run _ _ _ _ _ _ _ _ Hheap Hinit Hrun) as Hall.
  destruct (run_snapshots _ _ _ _ _ _ _ (initial_snapshots initial_cash) Hrun)
    as [Hlen Hloc].
  split.
  - apply (Hall 0%nat). lia.
  - intros r Hr. apply Hall. apply In_nth_error in Hr. destruct Hr as [k Hk].
    rewrite (Hloc _ _ Hk), Hlen.
    assert (k < List.length (trade_history st))%nat
      by (apply nth_error_Some; congruence).
    lia.
Qed.

Lemma portfolio_keys_fixed_witness :
  keys (holdings demo_state_2) = attack_assets ++ safe_assets /\
  Forall (fun r => keys (deref (heap demo_state_2) (tr_portfolio r))
                   = attack_assets ++ safe_assets)
         (trade_history demo_state_2).
Proof.
  assert (Hrun : simulate demo_data [mkDate 2023 3 1; mkDate 2023 4 1]
                          1000000 (1 # 1000) (1 # 1000) = OK demo_state_2)
    by (vm_compute; reflexivity).
  destruct (portfolio_keys_fixed _ _ _ _ _ _ Hrun) as [H1 H2].
  split; [exact H1 |]. apply Forall_forall. exact H2.
Defined.

(* ================================================================== *)
(** * The final figures are defined *)

Section Funded.

Variable data : DataFrame.
Variables buy_commission sell_commission initial_cash : Q.

Hypothesis prices_positive : positive_prices data.
Hypothesis buy_commission_nonneg : 0 <= buy_commission.
Hypothesis sell_commission_below_one : sell_commission < 1.

Lemma credit_le_proceeds (date : Timestamp) (pf : Dict Q) (t : Ticker) (l : list Ticker) :
  In t l ->
  credit data sell_commission date pf t <= proceeds data sell_commission date pf l.
Proof.
  induction l as [|t0 rest IH]; intros Hin; [destruct Hin |].
  simpl. destruct Hin as [<- | Hin].
  - pose proof (proceeds_nonneg data sell_commission prices_positive
                  sell_commission_below_one date pf rest). lra.
  - pose proof (credit_nonneg data sell_commission prices_positive
                  sell_commission_below_one date pf t0).
    specialize (IH Hin). lra.
Qed.

(** A funded ledger has cash once everything is sold. *)
Lemma sell_funded (date : Timestamp) (st : State) (cash1 : Q) (pf1 : Dict Q) :
  sound_ledger st -> funded st ->
  sell data sell_commission date (cash st) (holdings st) = OK (cash1, pf1) ->
  0 < cash1.
Proof.
  intros (Hcash & _ & Hdict & _) Hf Hsell.
  rewrite (sell_loop_cash _ _ _ _ Hdict _ _ _ _ Hsell).
  pose proof (proceeds_nonneg data sell_commission prices_positive
                sell_commission_below_one date (holdings st) (keys (holdings st)))
    as Hnn.
  destruct Hf as [Hpos | (t & h & Hget & Hh)]; [lra |].
  destruct (sell_loop_prices _ _ _ _ Hdict _ _ _ _ Hsell t h) as [p Hp]; auto.
  { apply dict_get_keys. congruence. }
  assert (Hin : In t (keys (holdings st))) by (apply dict_get_keys; congruence).
  pose proof (credit_le_proceeds date (holdings st) t _ Hin) as Hle.
  unfold credit in Hle. rewrite Hget, Hp, (proj2 (Qlt_bool_iff 0 h) Hh) in Hle.
  apply price_at_positive in Hp; [| assumption].
  assert (0 < h * p * (1 - sell_commission))
    by (apply Qmult_lt_0_compat; [apply Qmult_lt_0_compat |]; lra).
  lra.
Qed.

Lemma step_funded (date : Timestamp) (st st' : State) :
  sound_ledger st -> funded st ->
  step data buy_commission sell_commission initial_cash date st = OK st' ->
  funded st' /\
  exists r, trade_history st' = trade_history st ++ [r] /\ 0 < tr_total_value r.
Proof.
  intros Hst Hf Hstep.
  pose proof (step_sound data buy_commission sell_commission initial_cash
                prices_positive buy_commission_nonneg sell_commission_below_one
                date st st' Hst Hstep) as (Hcash' & _ & _ & Hns').
  destruct (step_books _ _ _ _ _ _ _ Hst Hstep)
    as (r & p & shares & Hhist & _ & _ & Hp & Hshares & _ & Hval & _).
  pose proof Hst as (Hcash & Hheap & Hdict & Hns).
  destruct (step_OK _ _ _ _ _ _ _ Hheap Hstep)
    as (ms & best & strategy & cash1 & pf1 & total
        & _ & Hch & Hsell & Hbuy & _ & _ & _ & Hh').
  assert (Hbest : tr_best_asset r = best).
  { rewrite Hh' in Hhist. apply app_inj_tail in Hhist.
    destruct Hhist as [_ <-]. reflexivity. }
  rewrite Hbest in *.
  pose proof (sell_funded date st cash1 pf1 Hst Hf Hsell) as Hcash1.
  pose proof (tickers_nonempty _ (choose_asset_In _ _ _ Hch)) as Hne.
  destruct (buy_OK _ _ _ _ _ _ _ _ Hne Hbuy)
    as (p0 & held & Hp0 & _ & Hheld & Ecash & Epf).
  rewrite Hp in Hp0. injection Hp0 as <-.
  rewrite Epf, dict_get_set, String.eqb_refl in Hshares. injection Hshares as Eshares.
  pose proof (price_at_positive _ _ _ _ prices_positive Hp) as Hppos.
  assert (Hcost : 0 < p * (1 + buy_commission)) by (apply Qmult_lt_0_compat; lra).
  destruct (floordiv_spec cash1 (p * (1 + buy_commission)) Hcost) as (_ & _ & Hnn & _).
  specialize (Hnn (Qlt_le_weak _ _ Hcash1)).
  remember (floordiv cash1 (p * (1 + buy_commission))) as fd eqn:Efd.
  assert (Hheld0 : 0 <= held).
  { destruct (sell_sound data sell_commission prices_positive
                sell_commission_below_one _ _ _ _ _ Hcash Hdict Hns Hsell)
      as (_ & _ & N1). eauto. }
  assert (Hsp : 0 <= shares * p).
  { apply Qmult_le_0_compat; [| lra]. rewrite <- Eshares. lra. }
  destruct (Qlt_le_dec 0 fd) as [Hfd | Hfd].
  - assert (Hs : 0 < shares) by (rewrite <- Eshares; lra).
    split.
    + right. exists best, shares. split; [| exact Hs].
      rewrite Epf, dict_get_set, String.eqb_refl, Eshares. reflexivity.
    + exists r. split; [exact Hhist |]. rewrite Hval.
      assert (0 < shares * p) by (apply Qmult_lt_0_compat; lra). lra.
  - assert (Ez : fd == 0) by lra.
    assert (Ec : cash st' == cash1) by (rewrite Ecash, Ez; ring).
    split.
    + left. rewrite Ec. exact Hcash1.
    + exists r. split; [exact Hhist |]. rewrite Hval, Ec. lra.
Qed.

Lemma run_funded (dates : list Timestamp) :
  forall st st',
  sound_ledger st -> funded st ->
  (forall v, In v (value_history st) -> 0 < v) ->
  run data buy_commission sell_commission initial_cash dates st = OK st' ->
  forall v, In v (value_history st') -> 0 < v.
Proof.
  induction dates as [|date rest IH]; intros st st' Hst Hf Hold Hrun.
  - injection Hrun as <-. exact Hold.
  - simpl in Hrun. unbind Hrun.
    destruct (step_funded date st v Hst Hf E) as (Hf' & r & Hhist & Hpos).
    pose proof (step_sound data buy_commission sell_commission initial_cash
                  prices_positive buy_commission_nonneg sell_commission_below_one
                  date st v Hst E) as Hst'.
    apply (IH v st' Hst' Hf'); [| exact Hrun].
    destruct Hst as (_ & Hheap & _).
    destruct (step_OK _ _ _ _ _ _ _ Hheap E)
      as (ms & best & strategy & cash1 & pf1 & total
          & _ & _ & _ & _ & _ & _ & Hv & Hh').
    rewrite Hh' in Hhist. apply app_inj_tail in Hhist. destruct Hhist as [_ <-].
    simpl in Hpos.
    intros x Hx. rewrite Hv in Hx. apply in_app_or in Hx.
    destruct Hx as [Hx | [<- | []]]; [auto | exact Hpos].
Qed.

End Funded.

(** X17: with positive prices, a buy commission that is not negative, a
    sell commission below 1 and a positive initial cash, every total value
    of a run is positive, so after a run of at least one step the final
    value and the annualized return are both defined: the last lines of
    [simulate_trading] do not fail. *)
Theorem final_figures_defined (data : DataFrame) (dates : list Timestamp)
  (initial_cash buy_commission sell_commission : Q) (st : State) :
  positive_prices data ->
  0 <= buy_commission ->
  sell_commission < 1 ->
  0 < initial_cash ->
  dates <> [] ->
  simulate data dates initial_cash buy_commission sell_commission = OK st ->
  (forall v, In v (value_history st) -> 0 < v) /\
  exists final_value annual,
    returned st dates initial_cash = OK (final_value, annual) /\
    0 < final_value.
Proof.
  intros Hpos Hbc Hsc Hic Hdates Hrun. unfold simulate in Hrun.
  assert (Hinit : sound_ledger (initial_state initial_cash))
    by (apply initial_state_sound; lra).
  assert (Hf : funded (initial_state initial_cash)) by (left; exact Hic).
  pose proof (run_funded data buy_commission sell_commission initial_cash
                Hpos Hbc Hsc dates _ _ Hinit Hf
                (fun v (H : In v []) => match H with end) Hrun) as Hall.
  split; [exact Hall |].
  assert (Hheap : heap (initial_state initial_cash) <> []) by discriminate.
  pose proof (run_histories _ _ _ _ _ _ _ Hheap eq_refl Hrun) as Hag.
  destruct (run_frame _ _ _ _ _ _ _ Hheap Hrun) as (_ & _ & _ & new & Hnew & Hlen).
  simpl in Hnew.
  unfold histories_agree in Hag.
  assert (Hne : value_history st <> []).
  { rewrite Hag, Hnew. destruct new; [| discriminate].
    destruct dates; [congruence | discriminate]. }
  destruct (exists_last Hne) as (front & x & Ev).
  exists x.
  assert (Hx : 0 < x) by (apply Hall; rewrite Ev; apply in_or_app; right; left; reflexivity).
  assert (Hratio : 0 < x / initial_cash).
  { apply Qlt_shift_div_l; [exact Hic | lra]. }
  assert (Hnz : ~ initial_cash == 0) by lra.
  eexists. split; [| exact Hx].
  unfold returned, last_value. rewrite Ev, rev_app_distr. simpl rev.
  change ([x] ++ rev front) with (x :: rev front). unfold bind. cbv beta iota.
    rewrite (annual_return_pos _ _ _ Hnz Hratio). reflexivity.
Qed.

Lemma final_figures_defined_witness :
  exists final_value annual,
    returned demo_state_2 [mkDate 2023 3 1; mkDate 2023 4 1] 1000000
      = OK (final_value, annual) /\
    0 < final_value.
Proof.
  assert (Hrun : simulate demo_data [mkDate 2023 3 1; mkDate 2023 4 1]
                          1000000 (1 # 1000) (1 # 1000) = OK demo_state_2)
    by (vm_compute; reflexivity).
  assert (H0 : 0 <= 1 # 1000) by (unfold Qle; simpl; lia).
  assert (H1 : 1 # 1000 < 1) by reflexivity.
  assert (Hic : 0 < 1000000) by reflexivity.
  assert (Hd : [mkDate 2023 3 1; mkDate 2023 4 1] <> []) by discriminate.
  exact (proj2 (final_figures_defined demo_data _ _ _ _ _
                  demo_data_positive H0 H1 Hic Hd Hrun)).
Defined.

Lemma proceeds_eq_position (data : DataFrame) (date : Timestamp)
  (pf : Dict Q) (l : list Ticker) :
  no_short pf ->
  proceeds data 0 date pf l == position_value data date pf l.
Proof.
  intros Hns. induction l as [|t rest IH]; simpl; [reflexivity |].
  rewrite IH. unfold credit.
  destruct (dict_get pf t) as [h|] eqn:E; [| reflexivity].
  destruct (price_at data t date) as [p|e]; [| reflexivity].
  specialize (Hns _ _ E).
  destruct (Qlt_bool 0 h) eqn:Eh; [ring |].
  assert (~ 0 < h) by (rewrite <- Qlt_bool_iff; congruence).
  assert (Ez : h == 0) by lra. rewrite Ez. ring.
Qed.

(** X18: without commissions a pass moves value around and loses none:
    with both rates 0 the total value recorded equals what the ledger was
    worth at the same as-of prices before the pass. *)
Theorem zero_commission_conserves (data : DataFrame) (initial_cash : Q)
  (date : Timestamp) (st st' : State) :
  sound_ledger st ->
  step data 0 0 initial_cash date st = OK st' ->
  exists before r,
    total_value_of data date (cash st) (holdings st) = OK before /\
    trade_history st' = trade_history st ++ [r] /\
    tr_total_value r == before.
Proof.
  intros Hst Hstep.
  destruct (step_books _ _ _ _ _ _ _ Hst Hstep)
    as (r & p & shares & Hhist & _ & _ & _ & _ & _ & _ & Hacc).
  destruct Hst as (Hcash & Hheap & Hdict & Hns).
  destruct (step_OK _ _ _ _ _ _ _ Hheap Hstep)
    as (ms & best & strategy & cash1 & pf1 & total
        & _ & _ & _ & _ & Htotal & _).
  pose proof (step_keys _ _ _ _ _ _ _ Hheap Hstep) as Hkeys.
  unfold total_value_of in Htotal. unbind Htotal.
  destruct (holdings_value_total data date (holdings st) (keys (holdings st))) with (acc := 0)
    as [v0 Hv0].
  { intros t Ht. split; [apply dict_get_keys; exact Ht |].
    apply (holdings_value_prices _ _ _ _ _ _ E). rewrite Hkeys. exact Ht. }
  exists (cash st + v0), r.
  split; [unfold total_value_of; rewrite Hv0; reflexivity |].
  split; [exact Hhist |].
  rewrite Hacc, (holdings_value_sum _ _ _ _ _ _ Hv0).
  rewrite (proceeds_eq_position _ _ _ _ Hns). ring.
Qed.

Lemma zero_commission_conserves_witness :
  exists st' before r,
    step demo_data 0 0 1000 (mkDate 2023 4 1) held_state = OK st' /\
    total_value_of demo_data (mkDate 2023 4 1) (cash held_state) (holdings held_state)
      = OK before /\
    trade_history st' = trade_history held_state ++ [r] /\
    tr_total_value r == before /\ before == 2750.
Proof.
  destruct (step demo_data 0 0 1000 (mkDate 2023 4 1) held_state)
    as [st'|e] eqn:Hstep; [| vm_compute in Hstep; discriminate].
  destruct (zero_commission_conserves demo_data 1000 (mkDate 2023 4 1)
              held_state st' held_state_sound Hstep) as (before & r & Hb & Hh & He).
  exists st', before, r. split; [reflexivity |]. split; [exact Hb |].
  split; [exact Hh |]. split; [exact He |].
  vm_compute in Hb. injection Hb as <-. reflexivity.
Defined.

(* ================================================================== *)
(** * No look-ahead *)

Lemma sub_months_le (d : Timestamp) (k : Z) :
  (1 <= month d <= 12)%Z -> (0 <= k)%Z ->
  date_leb (sub_months d k) d = true.
Proof.
  intros Hm Hk. destruct d as [y m dd]. simpl in Hm.
  unfold sub_months, add_months. simpl year; simpl month; simpl day.
  set (idx := (y * 12 + (m - 1) + - k)%Z).
  pose proof (Z.div_mod idx 12 ltac:(lia)) as Hdm.
  pose proof (Z.mod_pos_bound idx 12 ltac:(lia)) as Hb.
  set (dim := days_in_month (idx / 12) (idx mod 12 + 1)).
  apply date_leb_le.
  destruct (Z.eq_dec (idx / 12) y) as [Ey | Ny];
    [destruct (Z.eq_dec (idx mod 12 + 1) m) as [Em | Nm];
     [destruct (Z.eq_dec (Z.min dd dim) dd) as [Ed | Nd] | ] | ].
  - right. rewrite Ey, Em, Ed. reflexivity.
  - left. apply date_ltb_lt. simpl. lia.
  - left. apply date_ltb_lt. simpl. unfold idx in *. lia.
  - left. apply date_ltb_lt. simpl. unfold idx in *. lia.
Qed.

Lemma agree_until_sym (data data' : DataFrame) (horizon : Timestamp) :
  agree_until data data' horizon -> agree_until data' data horizon.
Proof.
  intros [Hc Hr]. split; [symmetry; exact Hc |].
  intros d Hd. destruct (Hr d Hd) as [Hi Hcell].
  split; [symmetry; exact Hi | intros t; symmetry; apply Hcell].
Qed.

Lemma observed_agree (data data' : DataFrame) (horizon : Timestamp) (t : Ticker)
  (d : Timestamp) :
  agree_until data data' horizon -> date_leb d horizon = true ->
  observed data t d -> observed data' t d.
Proof.
  intros [_ Hr] Hd [Hin [p Hp]]. destruct (Hr d Hd) as [Hi Hcell].
  split.
  - apply In_dates_iff. rewrite <- Hi. apply In_dates_iff. exact Hin.
  - exists p. rewrite <- Hcell. exact Hp.
Qed.

Lemma get_closest_date_total (data : DataFrame) (ticker : Ticker) (date : Timestamp) :
  In_tickers ticker (columns data) = true ->
  exists x, get_closest_date data ticker date = OK x.
Proof.
  intros H. unfold get_closest_date. rewrite H. destruct (negb _); eauto.
Qed.

Lemma get_closest_date_Some_agree (data data' : DataFrame) (horizon : Timestamp)
  (t : Ticker) (x r : Timestamp) :
  strictly_increasing (index data) = true ->
  strictly_increasing (index data') = true ->
  agree_until data data' horizon ->
  date_leb x horizon = true ->
  get_closest_date data t x = OK (Some r) ->
  get_closest_date data' t x = OK (Some r).
Proof.
  intros Hs Hs' Hag Hx H.
  pose proof (get_closest_date_column _ _ _ _ H) as Hcol.
  assert (Hcol' : In_tickers t (columns data') = true)
    by (destruct Hag as [<- _]; exact Hcol).
  destruct (proj1 (get_closest_date_char _ _ _ _ Hs Hcol) H) as (Hobs & Hle & Hmax).
  apply (get_closest_date_char _ _ _ _ Hs' Hcol').
  assert (Hr : date_leb r horizon = true) by (eapply date_leb_trans; eauto).
  split; [eapply observed_agree; eauto |]. split; [exact Hle |].
  intros d Hd Hdx. apply Hmax; [| exact Hdx].
  eapply observed_agree; [apply agree_until_sym; exact Hag | | exact Hd].
  eapply date_leb_trans; eauto.
Qed.

Lemma get_closest_date_agree (data data' : DataFrame) (horizon : Timestamp)
  (t : Ticker) (x : Timestamp) :
  strictly_increasing (index data) = true ->
  strictly_increasing (index data') = true ->
  agree_until data data' horizon ->
  date_leb x horizon = true ->
  get_closest_date data t x = get_closest_date data' t x.
Proof.
  intros Hs Hs' Hag Hx.
  destruct (In_tickers t (columns data)) eqn:Hcol.
  - assert (Hcol' : In_tickers t (columns data') = true)
      by (destruct Hag as [<- _]; exact Hcol).
    destruct (get_closest_date_total data t x Hcol) as [[r|] E].
    + rewrite E. symmetry.
      exact (get_closest_date_Some_agree data data' horizon t x r Hs Hs' Hag Hx E).
    + destruct (get_closest_date_total data' t x Hcol') as [[r'|] E'].
      * apply (get_closest_date_Some_agree data' data horizon) in E'; auto.
        -- congruence.
        -- apply agree_until_sym; exact Hag.
      * congruence.
  - unfold get_closest_date. destruct Hag as [<- _]. rewrite Hcol. reflexivity.
Qed.

Lemma loc_after_resolution (data data' : DataFrame) (horizon : Timestamp)
  (t : Ticker) (x : Timestamp) (l : option Timestamp) :
  strictly_increasing (index data') = true ->
  agree_until data data' horizon ->
  date_leb x horizon = true ->
  get_closest_date data' t x = OK l ->
  loc data l t = loc data' l t.
Proof.
  intros Hs' Hag Hx H. destruct l as [r|]; [| reflexivity].
  pose proof (get_closest_date_column _ _ _ _ H) as Hcol'.
  destruct (proj1 (get_closest_date_char _ _ _ _ Hs' Hcol') H) as (_ & Hle & _).
  assert (Hr : date_leb r horizon = true) by (eapply date_leb_trans; eauto).
  destruct Hag as [Hc Hrows]. destruct (Hrows r Hr) as [Hi Hcell].
  unfold loc. rewrite Hi, Hc, Hcell. reflexivity.
Qed.

Lemma price_at_agree (data data' : DataFrame) (horizon : Timestamp)
  (t : Ticker) (date : Timestamp) :
  strictly_increasing (index data) = true ->
  strictly_increasing (index data') = true ->
  agree_until data data' horizon ->
  date_leb date horizon = true ->
  price_at data t date = price_at data' t date.
Proof.
  intros Hs Hs' Hag Hd. unfold price_at.
  rewrite (get_closest_date_agree data data' horizon t date Hs Hs' Hag Hd).
  destruct (get_closest_date data' t date) as [l|e] eqn:E; [| reflexivity].
  simpl. rewrite (loc_after_resolution data data' horizon t date l Hs' Hag Hd E).
  reflexivity.
Qed.

Lemma ticker_score_agree (data data' : DataFrame) (horizon : Timestamp)
  (t : Ticker) (date : Timestamp) :
  strictly_increasing (index data) = true ->
  strictly_increasing (index data') = true ->
  agree_until data data' horizon ->
  date_leb date horizon = true ->
  (1 <= month date <= 12)%Z ->
  ticker_score data t date = ticker_score data' t date.
Proof.
  intros Hs Hs' Hag Hd Hm.
  assert (Hk : forall k, (0 <= k)%Z -> date_leb (sub_months date k) horizon = true).
  { intros k Hk. eapply date_leb_trans; [apply sub_months_le; assumption | exact Hd]. }
  assert (H1 := Hk 1%Z ltac:(lia)). assert (H3 := Hk 3%Z ltac:(lia)).
  assert (H6 := Hk 6%Z ltac:(lia)). assert (H12 := Hk 12%Z ltac:(lia)).
  unfold ticker_score.
  rewrite (get_closest_date_agree data data' horizon t date Hs Hs' Hag Hd).
  rewrite (get_closest_date_agree data data' horizon t _ Hs Hs' Hag H1).
  rewrite (get_closest_date_agree data data' horizon t _ Hs Hs' Hag H3).
  rewrite (get_closest_date_agree data data' horizon t _ Hs Hs' Hag H6).
  rewrite (get_closest_date_agree data data' horizon t _ Hs Hs' Hag H12).
  destruct (get_closest_date data' t date) as [l0|e] eqn:G0; [| reflexivity].
  destruct (get_closest_date data' t (sub_months date 1)) as [l1|e] eqn:G1;
    [| reflexivity].
  destruct (get_closest_date data' t (sub_months date 3)) as [l3|e] eqn:G3;
    [| reflexivity].
  destruct (get_closest_date data' t (sub_months date 6)) as [l6|e] eqn:G6;
    [| reflexivity].
  destruct (get_closest_date data' t (sub_months date 12)) as [l12|e] eqn:G12;
    [| reflexivity].
  unfold bind.
  rewrite (loc_after_resolution data data' horizon t _ l0 Hs' Hag Hd G0).
  rewrite (loc_after_resolution data data' horizon t _ l1 Hs' Hag H1 G1).
  rewrite (loc_after_resolution data data' horizon t _ l3 Hs' Hag H3 G3).
  rewrite (loc_after_resolution data data' horizon t _ l6 Hs' Hag H6 G6).
  rewrite (loc_after_resolution data data' horizon t _ l12 Hs' Hag H12 G12).
  reflexivity.
Qed.

Lemma scores_loop_ext (data data' : DataFrame) (date : Timestamp) (cols : list Ticker) :
  (forall t, ticker_score data t date = ticker_score data' t date) ->
  forall acc, scores_loop data date cols acc = scores_loop data' date cols acc.
Proof.
  intros H. induction cols as [|c rest IH]; intros acc; [reflexivity |].
  simpl. rewrite H. destruct (ticker_score data' c date); simpl; [apply IH | reflexivity].
Qed.

Lemma sell_loop_ext (data data' : DataFrame) (sc : Q) (date : Timestamp)
  (todo : list Ticker) :
  (forall t, price_at data t date = price_at data' t date) ->
  forall cash pf,
  sell_loop data sc date todo cash pf = sell_loop data' sc date todo cash pf.
Proof.
  intros H. induction todo as [|t rest IH]; intros cash pf; [reflexivity |].
  simpl. destruct (getitem pf t) as [h|e]; simpl; [| reflexivity].
  destruct (Qlt_bool 0 h); [| apply IH].
  rewrite H. destruct (price_at data' t date); simpl; [apply IH | reflexivity].
Qed.

Lemma holdings_value_ext (data data' : DataFrame) (date : Timestamp) (pf : Dict Q)
  (todo : list Ticker) :
  (forall t, price_at data t date = price_at data' t date) ->
  forall acc,
  holdings_value data date pf todo acc = holdings_value data' date pf todo acc.
Proof.
  intros H. induction todo as [|t rest IH]; intros acc; [reflexivity |].
  simpl. destruct (getitem pf t) as [h|e]; simpl; [| reflexivity].
  rewrite H. destruct (price_at data' t date); simpl; [apply IH | reflexivity].
Qed.

Lemma step_ext (data data' : DataFrame) (bc sc ic : Q) (date : Timestamp) (st : State) :
  columns data = columns data' ->
  (forall t, ticker_score data t date = ticker_score data' t date) ->
  (forall t, price_at data t date = price_at data' t date) ->
  step data bc sc ic date st = step data' bc sc ic date st.
Proof.
  intros Hc Hscore Hprice. unfold step, calculate_momentum_scores.
  rewrite Hc, (scores_loop_ext data data' date _ Hscore).
  destruct (scores_loop data' date (columns data') []) as [ms|e]; [| reflexivity].
  simpl. destruct (choose_asset ms) as [[best strategy]|e]; [| reflexivity].
  simpl. unfold sell. rewrite (sell_loop_ext data data' sc date _ Hprice).
  destruct (sell_loop data' sc date _ _ _) as [[cash1 pf1]|e]; [| reflexivity].
  simpl. unfold buy. rewrite Hprice.
  destruct (if String.eqb best "" then _ else _) as [[cash2 pf2]|e]; [| reflexivity].
  simpl. unfold total_value_of.
  rewrite (holdings_value_ext data data' date _ _ Hprice). reflexivity.
Qed.

(** X19: no look-ahead: a run reads the table only up to its rebalancing
    dates.  Two tables with the same columns and the same rows up to a
    horizon give exactly the same run on any schedule that stays within the
    horizon, however they differ afterwards. *)
Theorem no_look_ahead (data data' : DataFrame) (horizon : Timestamp)
  (dates : list Timestamp) (initial_cash buy_commission sell_commission : Q) :
  strictly_increasing (index data) = true ->
  strictly_increasing (index data') = true ->
  agree_until data data' horizon ->
  (forall date, In date dates ->
     date_leb date horizon = true /\ (1 <= month date <= 12)%Z) ->
  simulate data dates initial_cash buy_commission sell_commission
  = simulate data' dates initial_cash buy_commission sell_commission.
Proof.
  intros Hs Hs' Hag Hdates. unfold simulate.
  generalize (initial_state initial_cash).
  induction dates as [|date rest IH]; intros st; [reflexivity |].
  destruct (Hdates date (or_introl eq_refl)) as [Hd Hm].
  simpl.
  rewrite (step_ext data data' _ _ _ date st (proj1 Hag)
             (fun t => ticker_score_agree data data' horizon t date Hs Hs' Hag Hd Hm)
             (fun t => price_at_agree data data' horizon t date Hs Hs' Hag Hd)).
  destruct (step data' buy_commission sell_commission initial_cash date st);
    simpl; [| reflexivity].
  apply IH. intros d Hin. apply Hdates. right; exact Hin.
Qed.

Lemma future_changed_agrees : agree_until demo_data future_changed (mkDate 2023 4 1).
Proof.
  split; [reflexivity |]. intros d Hd. split; [reflexivity |].
  intros t. unfold future_changed. cbn [cell].
  assert (E : date_ltb (mkDate 2023 4 1) d = false).
  { apply not_true_iff_false. intros C. apply date_leb_false in C. congruence. }
  rewrite E. reflexivity.
Qed.

Lemma no_look_ahead_witness :
  simulate future_changed [mkDate 2023 3 1; mkDate 2023 4 1] 1000000 (1 # 1000) (1 # 1000)
    = OK demo_state_2 /\
  cell future_changed (mkDate 2023 5 1) "QQQ" <> cell demo_data (mkDate 2023 5 1) "QQQ".
Proof.
  assert (Hs : strictly_increasing (index demo_data) = true)
    by (vm_compute; reflexivity).
  assert (Hs' : strictly_increasing (index future_changed) = true)
    by (vm_compute; reflexivity).
  split; [| vm_compute; discriminate].
  rewrite <- (no_look_ahead demo_data future_changed (mkDate 2023 4 1)
                [mkDate 2023 3 1; mkDate 2023 4 1] 1000000 (1 # 1000) (1 # 1000)
                Hs Hs' future_changed_agrees).
  - vm_compute. reflexivity.
  - intros date [<- | [<- | []]]; split; vm_compute; try reflexivity;
      split; discriminate.
Defined.

(* ================================================================== *)
(** * The shape of the schedule *)

Lemma date_range_from_within (end_date : Timestamp) (fuel : nat) :
  forall cur d, In d (date_range_from fuel cur end_date) -> date_leb d end_date = true.
Proof.
  induction fuel as [|fuel IH]; intros cur d Hin; [destruct Hin |].
  simpl in Hin. destruct (date_leb cur end_date) eqn:E; [| destruct Hin].
  destruct Hin as [<- | Hin]; [exact E | eapply IH; eauto].
Qed.

Lemma date_range_from_steps (end_date : Timestamp) (fuel : nat) :
  forall cur i d d',
  nth_error (date_range_from fuel cur end_date) i = Some d ->
  nth_error (date_range_from fuel cur end_date) (S i) = Some d' ->
  d' = add_months d 1.
Proof.
  induction fuel as [|fuel IH]; intros cur i d d' Hi Hsi; [destruct i; discriminate |].
  simpl in Hi, Hsi. destruct (date_leb cur end_date); [| destruct i; discriminate].
  destruct i as [|i].
  - injection Hi as <-. simpl in Hsi.
    destruct fuel as [|fuel']; [discriminate |].
    simpl in Hsi. destruct (date_leb (add_months cur 1) end_date); [| discriminate].
    injection Hsi as <-. reflexivity.
  - simpl in Hi, Hsi. eapply IH; eauto.
Qed.

Lemma date_range_from_last (end_date : Timestamp) :
  (1 <= month end_date <= 12)%Z ->
  forall fuel cur front d,
  (1 <= month cur <= 12)%Z ->
  (month_index end_date - month_index cur + 1 <= Z.of_nat fuel)%Z ->
  date_range_from fuel cur end_date = front ++ [d] ->
  date_leb (add_months d 1) end_date = false.
Proof.
  intros He. induction fuel as [|fuel IH]; intros cur front d Hc Hfuel Heq.
  - destruct front; discriminate.
  - simpl in Heq. destruct (date_leb cur end_date) eqn:E;
      [| destruct front; discriminate].
    destruct (month_index_add_months cur 1) as [Hmi Hm].
    destruct front as [|f front'].
    + simpl in Heq. injection Heq as <- Hrest.
      destruct fuel as [|fuel'].
      * apply past_the_end; auto. lia.
      * simpl in Hrest.
        destruct (date_leb (add_months cur 1) end_date); [discriminate | reflexivity].
    + simpl in Heq. injection Heq as _ Hrest.
      apply (IH (add_months cur 1) front' d); [exact Hm | lia | exact Hrest].
Qed.

(** X20: for a start date not after the end date (both with a month from
    1 to 12) the schedule begins with the start date, every date of it is on
    or before the end date, each date is the one before it plus a calendar
    month, and a month after its last date is past the end date. *)
Theorem schedule_shape (start end_date : Timestamp) :
  (1 <= month start <= 12)%Z -> (1 <= month end_date <= 12)%Z ->
  date_leb start end_date = true ->
  (exists rest, date_range start end_date = start :: rest) /\
  (forall d, In d (date_range start end_date) -> date_leb d end_date = true) /\
  (forall i d d',
     nth_error (date_range start end_date) i = Some d ->
     nth_error (date_range start end_date) (S i) = Some d' ->
     d' = add_months d 1) /\
  (forall front d, date_range start end_date = front ++ [d] ->
                   date_leb (add_months d 1) end_date = false).
Proof.
  intros Hs He Hle.
  assert (Hmi : (month_index start <= month_index end_date)%Z).
  { apply date_leb_le in Hle. unfold month_index.
    destruct Hle as [Hlt | ->]; [| lia].
    apply date_ltb_lt in Hlt. lia. }
  split; [| split; [| split]].
  - unfold date_range.
    destruct (Z.to_nat (month_index end_date - month_index start + 1)) as [|n] eqn:En;
      [lia |].
    simpl. rewrite Hle. eauto.
  - apply date_range_from_within.
  - apply date_range_from_steps.
  - intros front d Heq. unfold date_range in Heq.
    apply (date_range_from_last end_date He
             (Z.to_nat (month_index end_date - month_index start + 1))
             start front d Hs); [lia | exact Heq].
Qed.

Lemma schedule_shape_witness :
  date_range (mkDate 2023 3 1) (mkDate 2024 8 7) =
    mkDate 2023 3 1 :: month_starts 17 (mkDate 2023 4 1) /\
  date_leb (add_months (mkDate 2024 8 1) 1) (mkDate 2024 8 7) = false.
Proof.
  destruct (schedule_shape (mkDate 2023 3 1) (mkDate 2024 8 7)) as (_ & _ & _ & Hlast);
    try (simpl; lia); try (vm_compute; reflexivity).
  split; [vm_compute; reflexivity |].
  apply (Hlast (mkDate 2023 3 1 :: month_starts 16 (mkDate 2023 4 1))).
  vm_compute. reflexivity.
Defined.
